(** * pico-mouse: serial command protocol, arbitration and joystick mapping

    A shallow embedding of [src/main.c]: the functions [read_joystick],
    [cdc_task] and [hid_task] with the file-scope and function-static
    variables they share gathered in one [State] record, and the properties
    of the serial protocol, the 500 ms arbitration window, the sensitivity
    state machine, the axis mapping and the jitter of command reports.

    C integers are values of [Z]; every conversion to a fixed-width type is
    written out ([to_uint8], [to_int8], [to_uint32], [to_int]).  The target
    is a 32-bit ARM: [int] is 32 bits wide and narrowing conversions wrap. *)

From Stdlib Require Import ZArith List Bool Ascii String Lia SpecFloat.
Import ListNotations.

Local Open Scope Z_scope.

(** ** C integer types *)

Module CInt.

Definition wrap_unsigned (bits z : Z) : Z := z mod 2 ^ bits.

Definition wrap_signed (bits z : Z) : Z :=
  (z + 2 ^ (bits - 1)) mod 2 ^ bits - 2 ^ (bits - 1).

Definition to_uint8 (z : Z) : Z := wrap_unsigned 8 z.
Definition to_int8 (z : Z) : Z := wrap_signed 8 z.
Definition to_uint32 (z : Z) : Z := wrap_unsigned 32 z.
Definition to_int (z : Z) : Z := wrap_signed 32 z.

Definition INT_MIN : Z := - 2 ^ 31.
Definition INT_MAX : Z := 2 ^ 31 - 1.

Definition is_uint8 (z : Z) : Prop := 0 <= z <= 255.
Definition is_int8 (z : Z) : Prop := -128 <= z <= 127.
Definition is_uint32 (z : Z) : Prop := 0 <= z < 2 ^ 32.
Definition is_int (z : Z) : Prop := INT_MIN <= z <= INT_MAX.

(** [int] arithmetic.  Signed overflow wraps (two's complement), which is
    what the ARM code the compiler emits for these expressions does. *)
Definition int_add (a b : Z) : Z := to_int (a + b).
Definition int_sub (a b : Z) : Z := to_int (a - b).
Definition int_mul (a b : Z) : Z := to_int (a * b).
(** C division truncates toward zero. *)
Definition int_div (a b : Z) : Z := to_int (Z.quot a b).
Definition int_rem (a b : Z) : Z := Z.rem a b.

(** [uint32_t] arithmetic is modulo 2^32. *)
Definition u32_add (a b : Z) : Z := to_uint32 (a + b).
Definition u32_sub (a b : Z) : Z := to_uint32 (a - b).

End CInt.
Import CInt.

(** ** The joystick: [read_joystick] *)

Definition center : Z := 2048.
Definition deadzone : Z := 100.

(** [read_joystick(&x, &y, &button)].  The two ADC samples ([uint16_t]) and
    the GPIO level of the button pin are the inputs; the results are the
    three values stored through the pointers.  The operands are promoted to
    [int] before the arithmetic, the quotient is converted to [int8_t]. *)
Definition read_joystick (x_raw y_raw : Z) (gpio : bool) : Z * Z * Z :=
  let button := to_uint8 (if gpio then 0 else 1) in
  let x :=
    if x_raw >? int_add center deadzone then
      to_int8 (int_div (int_mul (int_sub (int_sub x_raw center) deadzone) 127)
                       (int_sub (int_sub 4095 center) deadzone))
    else if x_raw <? int_sub center deadzone then
      to_int8 (int_div (int_mul (int_add (int_sub x_raw center) deadzone) 127)
                       (int_sub center deadzone))
    else 0 in
  let y :=
    if y_raw >? int_add center deadzone then
      to_int8 (int_div (int_mul (int_sub (int_sub y_raw center) deadzone) 127)
                       (int_sub (int_sub 4095 center) deadzone))
    else if y_raw <? int_sub center deadzone then
      to_int8 (int_div (int_mul (int_add (int_sub y_raw center) deadzone) 127)
                       (int_sub center deadzone))
    else 0 in
  let x := if x >? 127 then 127 else x in
  let x := if x <? -127 then -127 else x in
  let y := if y >? 127 then 127 else y in
  let y := if y <? -127 then -127 else y in
  (x, y, button).

(** ** Sensitivity table *)

Definition sensitivity_divisors : list Z := [5; 10; 30].

(** [sensitivity_divisors[i]]; a read outside the array is undefined
    behaviour, represented by [None]. *)
Definition array_get (a : list Z) (i : Z) : option Z :=
  if i <? 0 then None else nth_error a (Z.to_nat i).

(** The scaling block of [hid_task]: the divisor of the level, the X delta
    divided by it, the Y delta divided by four times it at levels 1 and 2. *)
Definition scale_joystick (level joystick_x joystick_y : Z) : option (Z * Z) :=
  match array_get sensitivity_divisors (int_sub level 1) with
  | None => None
  | Some d =>
      let current_divisor := to_uint8 d in
      let mouse_x := to_int8 (int_div joystick_x current_divisor) in
      let mouse_y :=
        if (level =? 1) || (level =? 2)
        then to_int8 (int_div joystick_y (int_mul current_divisor 4))
        else to_int8 (int_div joystick_y current_divisor) in
      Some (mouse_x, mouse_y)
  end.

(** ** The C library's [sscanf] with the format ["%d %d %d %d %d %d %d"]

    [sscanf] belongs to the C library, not to the repository; it is modelled
    after the C standard: [%d] skips white space, takes an optional sign and
    the longest run of decimal digits, and fails when there is no digit; a
    space in the format skips any white space; input after the last
    conversion is left unread.  A value outside [int] saturates, as
    [strtol] does where [long] has 32 bits. *)

Definition isspace (c : ascii) : bool :=
  let n := nat_of_ascii c in
  ((n =? 32) || ((9 <=? n) && (n <=? 13)))%nat.

Definition isdigit (c : ascii) : bool :=
  let n := nat_of_ascii c in
  ((48 <=? n) && (n <=? 57))%nat.

Definition digit_value (c : ascii) : Z := Z.of_nat (nat_of_ascii c) - 48.

Fixpoint skip_space (s : list ascii) : list ascii :=
  match s with
  | c :: r => if isspace c then skip_space r else s
  | [] => []
  end.

Fixpoint scan_digits (acc : Z) (s : list ascii) : Z * list ascii :=
  match s with
  | c :: r =>
      if isdigit c then scan_digits (10 * acc + digit_value c) r else (acc, s)
  | [] => (acc, [])
  end.

Definition saturate_int (z : Z) : Z := Z.max INT_MIN (Z.min INT_MAX z).

(** One [%d] conversion: the value and the unread input, or [None] on a
    matching or input failure. *)
Definition scan_int (s : list ascii) : option (Z * list ascii) :=
  let s0 := skip_space s in
  let '(negative, s1) :=
    match s0 with
    | c :: r =>
        if Ascii.eqb c "-" then (true, r)
        else if Ascii.eqb c "+" then (false, r)
        else (false, s0)
    | [] => (false, [])
    end in
  match s1 with
  | c :: _ =>
      if isdigit c then
        let '(v, rest) := scan_digits 0 s1 in
        Some (saturate_int (if negative then - v else v), rest)
      else None
  | [] => None
  end.

(** Up to [n] conversions separated by the format's spaces: the values
    converted before the first failure. *)
Fixpoint scan_ints (n : nat) (s : list ascii) : list Z :=
  match n with
  | O => []
  | S n' =>
      match scan_int s with
      | None => []
      | Some (v, rest) => v :: scan_ints n' (skip_space rest)
      end
  end.

(** The return value of [sscanf] and the values assigned: the number of
    conversions, or [EOF] (-1) when the input ends before the first one. *)
Definition sscanf_7d (s : list ascii) : Z * list Z :=
  let vs := scan_ints 7 s in
  match vs, skip_space s with
  | [], [] => (-1, [])
  | _, _ => (Z.of_nat (List.length vs), vs)
  end.

(** ** Program state *)

Module Cmd.
Record t : Type := mk {
  buttons : Z;   (* uint8_t *)
  x : Z;         (* int8_t *)
  y : Z;         (* int8_t *)
  wheel : Z;     (* int8_t *)
  pan : Z;       (* int8_t *)
  has_data : bool
}.
End Cmd.

(** The file-scope variables and the [static] locals of [hid_task]. *)
Record State : Type := mkState {
  mouse_cmd : Cmd.t;
  cdc_command_time : Z;          (* uint32_t *)
  sensitivity_level : Z;         (* uint8_t *)
  start_ms : Z;                  (* uint32_t, static in hid_task *)
  last_button_state : Z;         (* uint8_t, static in hid_task *)
  button_press_start_time : Z;   (* uint32_t, static in hid_task *)
  sensitivity_changed : bool     (* static in hid_task *)
}.

Definition CDC_BLOCK_TIMEOUT : Z := 500.
Definition BUTTON_PRESS_TIMEOUT : Z := 1000.

(** The initial values of the variables. *)
Definition initial_state : State :=
  {| mouse_cmd := Cmd.mk 0 0 0 0 0 false;
     cdc_command_time := 0;
     sensitivity_level := 2;
     start_ms := 0;
     last_button_state := 0;
     button_press_start_time := 0;
     sensitivity_changed := false |}.

Definition set_mouse_cmd (s : State) (c : Cmd.t) : State :=
  mkState c (cdc_command_time s) (sensitivity_level s) (start_ms s)
          (last_button_state s) (button_press_start_time s)
          (sensitivity_changed s).

Definition set_cdc_command_time (s : State) (t : Z) : State :=
  mkState (mouse_cmd s) t (sensitivity_level s) (start_ms s)
          (last_button_state s) (button_press_start_time s)
          (sensitivity_changed s).

Definition set_sensitivity_level (s : State) (l : Z) : State :=
  mkState (mouse_cmd s) (cdc_command_time s) l (start_ms s)
          (last_button_state s) (button_press_start_time s)
          (sensitivity_changed s).

Definition set_start_ms (s : State) (t : Z) : State :=
  mkState (mouse_cmd s) (cdc_command_time s) (sensitivity_level s) t
          (last_button_state s) (button_press_start_time s)
          (sensitivity_changed s).

Definition set_last_button_state (s : State) (b : Z) : State :=
  mkState (mouse_cmd s) (cdc_command_time s) (sensitivity_level s) (start_ms s)
          b (button_press_start_time s) (sensitivity_changed s).

Definition set_button_press_start_time (s : State) (t : Z) : State :=
  mkState (mouse_cmd s) (cdc_command_time s) (sensitivity_level s) (start_ms s)
          (last_button_state s) t (sensitivity_changed s).

Definition set_sensitivity_changed (s : State) (b : bool) : State :=
  mkState (mouse_cmd s) (cdc_command_time s) (sensitivity_level s) (start_ms s)
          (last_button_state s) (button_press_start_time s) b.

(** ** The serial task: [cdc_task] *)

Definition NUL : ascii := ascii_of_nat 0.
Definition newline : string := String (ascii_of_nat 10) EmptyString.

Definition ack_ok : string := "ok" ++ newline.
Definition ack_protocol_error : string := "protocol error" ++ newline.
Definition ack_format_error : string := "format error" ++ newline.

(** What one call of [cdc_task] meets: the bytes waiting in the receive
    FIFO and the value [board_millis()] returns. *)
Record CdcEnv : Type := mkCdcEnv {
  cdc_fifo : list ascii;
  cdc_millis : Z
}.

(** [char buf[64] = {0}; count = tud_cdc_read(buf, sizeof(buf)-1)]: at most
    63 bytes are taken from the FIFO, the rest of the buffer stays zero. *)
Definition tud_cdc_read (fifo : list ascii) : list ascii * Z :=
  let got := firstn 63 fifo in
  (got ++ repeat NUL (64 - List.length got), Z.of_nat (List.length got)).

(** The C string held in a buffer: the bytes before the first zero. *)
Fixpoint c_string (buf : list ascii) : list ascii :=
  match buf with
  | c :: r => if Ascii.eqb c NUL then [] else c :: c_string r
  | [] => []
  end.

Definition cdc_task (s : State) (e : CdcEnv) : State * option string :=
  match cdc_fifo e with
  | [] => (s, None)                       (* tud_cdc_available() is false *)
  | _ :: _ =>
      let '(buf, count) := tud_cdc_read (cdc_fifo e) in
      if count >? 0 then
        match sscanf_7d (c_string buf) with
        | (7, [head; btn; x; y; wheel; pan; sum]) =>
            let calc_sum :=
              int_add (int_add (int_add (int_add btn x) y) wheel) pan in
            if (head =? 55) && (calc_sum =? sum) then
              let c := Cmd.mk (to_uint8 btn) (to_int8 x) (to_int8 y)
                              (to_int8 wheel) (to_int8 pan) true in
              (set_cdc_command_time (set_mouse_cmd s c) (to_uint32 (cdc_millis e)),
               Some ack_ok)
            else (s, Some ack_protocol_error)
        | _ => (s, Some ack_format_error)
        end
      else (s, None)
  end.

(** ** Double arithmetic of the jitter expression

    [double] is IEEE 754 binary64 with rounding to nearest even.  The
    operations are those of the Standard Library's specification of binary
    floating point ([SpecFloat]) at precision 53 and exponent bound 1024,
    so the expression is evaluated as the C code evaluates it. *)

Definition double_prec : Z := 53.
Definition double_emax : Z := 1024.

(** Conversion of an [int] to [double] (exact: every [int] is a double). *)
Definition double_of_int (z : Z) : spec_float :=
  binary_normalize double_prec double_emax z 0 false.

Definition double_add (a b : spec_float) : spec_float :=
  SFadd double_prec double_emax a b.

Definition double_mul (a b : spec_float) : spec_float :=
  SFmul double_prec double_emax a b.

(** The constant [0.03]: the double nearest to 3/100,
    0x1.eb851eb851eb8p-6 = 8646911284551352 * 2^-58. *)
Definition double_0_03 : spec_float :=
  S754_finite false 8646911284551352 (-58).

(** Conversion of a [double] to [int8_t]: the fraction is discarded
    (truncation toward zero); the conversion is undefined ([None]) for a
    NaN, an infinity or a value whose integer part is not an [int8_t]. *)
Definition double_to_int8 (f : spec_float) : option Z :=
  match f with
  | S754_zero _ => Some 0
  | S754_finite negative m e =>
      let magnitude :=
        if e <? 0 then Z.shiftr (Zpos m) (- e) else Z.shiftl (Zpos m) e in
      let v := if negative then - magnitude else magnitude in
      if (-128 <=? v) && (v <=? 127) then Some v else None
  | _ => None
  end.

(** [(rand() % 2) - 2 + delta * 0.03] stored in an [int8_t]; [r] is the
    value [rand()] returned. *)
Definition jitter (r delta : Z) : option Z :=
  double_to_int8
    (double_add (double_of_int (int_sub (int_rem r 2) 2))
                (double_mul (double_of_int delta) double_0_03)).

(** ** The reporting task: [hid_task] *)

(** The arguments of one [tud_hid_mouse_report(REPORT_ID_MOUSE, ...)]. *)
Record MouseReport : Type := mkReport {
  report_buttons : Z;   (* uint8_t *)
  report_x : Z;         (* int8_t *)
  report_y : Z;         (* int8_t *)
  report_wheel : Z;     (* int8_t *)
  report_pan : Z        (* int8_t *)
}.

(** What one call of [hid_task] meets, in the order it asks for it. *)
Record HidEnv : Type := mkHidEnv {
  hid_millis_poll : Z;    (* board_millis() of the 1 ms interval test *)
  hid_ready : bool;       (* tud_hid_ready() *)
  hid_rand_x : Z;         (* first rand() *)
  hid_rand_y : Z;         (* second rand() *)
  hid_millis : Z;         (* board_millis() read as current_time *)
  hid_adc_x : Z;          (* adc_read() of input 0 *)
  hid_adc_y : Z;          (* adc_read() of input 1 *)
  hid_gpio : bool         (* gpio_get(MOUSE_BUTTON_PIN) *)
}.

(** The branch of [hid_task] taken when a command is pending. *)
Definition hid_task_command (s : State) (rand_a rand_b : Z)
  : option (State * option MouseReport) :=
  let c := mouse_cmd s in
  match jitter rand_a (Cmd.x c) with
  | None => None
  | Some rand_x =>
      match jitter rand_b (Cmd.y c) with
      | None => None
      | Some rand_y =>
          let r := mkReport (Cmd.buttons c)
                            (to_int8 (int_add (Cmd.x c) rand_x))
                            (to_int8 (int_add (Cmd.y c) rand_y))
                            (Cmd.wheel c) (Cmd.pan c) in
          let c' := Cmd.mk (Cmd.buttons c) (Cmd.x c) (Cmd.y c)
                           (Cmd.wheel c) (Cmd.pan c) false in
          Some (set_mouse_cmd s c', Some r)
      end
  end.

(** The long-press detection of [hid_task]: the press edge, else the
    level change after [BUTTON_PRESS_TIMEOUT], then the edge memory. *)
Definition sensitivity_update (s : State) (current_time button_state : Z) : State :=
  let s1 :=
    if negb (button_state =? 0) && (last_button_state s =? 0) then
      set_sensitivity_changed
        (set_button_press_start_time s current_time) false
    else if negb (button_state =? 0) && negb (sensitivity_changed s)
            && (u32_sub current_time (button_press_start_time s)
                  >=? BUTTON_PRESS_TIMEOUT) then
      let l := to_uint8 (sensitivity_level s + 1) in
      let l := if l >? 3 then 1 else l in
      set_sensitivity_changed (set_sensitivity_level s l) true
    else s in
  set_last_button_state s1 button_state.

(** The joystick path of [hid_task]: everything after the test of the
    arbitration window. *)
Definition hid_task_joystick (s : State) (current_time x_raw y_raw : Z)
  (gpio : bool) : option (State * option MouseReport) :=
  let '(joystick_x, joystick_y, button_state) := read_joystick x_raw y_raw gpio in
  let s' := sensitivity_update s current_time button_state in
  match scale_joystick (sensitivity_level s') joystick_x joystick_y with
  | None => None
  | Some (mouse_x, mouse_y) =>
      if negb (mouse_x =? 0) || negb (mouse_y =? 0) then
        Some (s', Some (mkReport 0 mouse_x mouse_y 0 0))
      else if negb (button_state =? 0) && negb (sensitivity_changed s') then
        Some (s', Some (mkReport 1 0 0 0 0))
      else Some (s', None)
  end.

(** [hid_task]: the new state and the report sent, if any; [None] when the
    call runs into undefined behaviour. *)
Definition hid_task (s : State) (e : HidEnv)
  : option (State * option MouseReport) :=
  if u32_sub (to_uint32 (hid_millis_poll e)) (start_ms s) <? 1 then
    Some (s, None)
  else
    let s := set_start_ms s (u32_add (start_ms s) 1) in
    if negb (hid_ready e) then Some (s, None)
    else if Cmd.has_data (mouse_cmd s) then
      hid_task_command s (hid_rand_x e) (hid_rand_y e)
    else
      let current_time := to_uint32 (hid_millis e) in
      if u32_sub current_time (cdc_command_time s) <? CDC_BLOCK_TIMEOUT then
        Some (s, None)
      else
        hid_task_joystick s current_time (hid_adc_x e) (hid_adc_y e)
                          (hid_gpio e).

(** ** Runs of the main loop *)

Inductive Event : Type :=
| HidTick (e : HidEnv)
| CdcPoll (e : CdcEnv).

Inductive Output : Type :=
| Report (r : MouseReport)
| Ack (a : string).

Definition step (s : State) (ev : Event) : option (State * list Output) :=
  match ev with
  | HidTick e =>
      match hid_task s e with
      | None => None
      | Some (s', Some r) => Some (s', [Report r])
      | Some (s', None) => Some (s', [])
      end
  | CdcPoll e =>
      match cdc_task s e with
      | (s', Some a) => Some (s', [Ack a])
      | (s', None) => Some (s', [])
      end
  end.

Fixpoint run (s : State) (evs : list Event) : option (State * list Output) :=
  match evs with
  | [] => Some (s, [])
  | ev :: evs' =>
      match step s ev with
      | None => None
      | Some (s1, out1) =>
          match run s1 evs' with
          | None => None
          | Some (s2, out2) => Some (s2, out1 ++ out2)
          end
      end
  end.

(** One iteration of the loop of [main]: [hid_task(); cdc_task();]. *)
Definition loop_iteration (it : HidEnv * CdcEnv) : list Event :=
  [HidTick (fst it); CdcPoll (snd it)].

Definition main (its : list (HidEnv * CdcEnv)) : option (State * list Output) :=
  run initial_state (flat_map loop_iteration its).

(** ** The specification's formulas

    These definitions follow the words of the specification, to be compared
    with the functions above. *)

(** Axis Mapper: the rescaling outside the dead zone, clamped to
    [-127, 127]; [/] is C's integer division. *)
Definition spec_axis_delta (v : Z) : Z :=
  let raw_delta :=
    if v >? center + deadzone then
      Z.quot ((v - center - deadzone) * 127) (4095 - center - deadzone)
    else if v <? center - deadzone then
      Z.quot ((v - center + deadzone) * 127) (center - deadzone)
    else 0 in
  Z.max (-127) (Z.min 127 raw_delta).

(** Sensitivity scaling: the divisor table and the Y-axis rule. *)
Definition spec_divisor (level : Z) : Z :=
  if level =? 1 then 5 else if level =? 2 then 10 else 30.

Definition spec_y_divisor (level : Z) : Z :=
  if (level =? 1) || (level =? 2) then spec_divisor level * 4
  else spec_divisor level.

(** Report Synthesizer: the jitter as the specification words it,
    [(pseudorandom in {0,1}) - 2 + floor(delta * 0.03)]. *)
Definition spec_jitter (r delta : Z) : Z := r - 2 + (3 * delta) / 100.

(** The jitter of the code in closed form: the whole sum is truncated
    toward zero. *)
Definition jitter_truncated (r delta : Z) : Z :=
  Z.quot (100 * (r - 2) + 3 * delta) 100.

(** Command Parser: a line "consists of exactly seven integer tokens" when
    splitting it at white space gives seven tokens, each an optional sign
    followed by one or more decimal digits. *)

Definition cons_nonempty (t : list ascii) (ts : list (list ascii))
  : list (list ascii) :=
  match t with
  | [] => ts
  | _ :: _ => t :: ts
  end.

(** The token that starts at the head of [s] (empty when [s] starts with
    white space) and the tokens after it. *)
Fixpoint split_space (s : list ascii) : list ascii * list (list ascii) :=
  match s with
  | [] => ([], [])
  | c :: r =>
      let '(t, ts) := split_space r in
      if isspace c then ([], cons_nonempty t ts) else (c :: t, ts)
  end.

Definition tokens (s : list ascii) : list (list ascii) :=
  let '(t, ts) := split_space s in cons_nonempty t ts.

Definition token_sign (t : list ascii) : bool :=
  match t with
  | c :: _ => Ascii.eqb c "-" || Ascii.eqb c "+"
  | [] => false
  end.

Definition token_digits (t : list ascii) : list ascii :=
  if token_sign t then tl t else t.

Definition is_integer_token (t : list ascii) : bool :=
  match token_digits t with
  | [] => false
  | ds => forallb isdigit ds
  end.

Definition digits_value (ds : list ascii) : Z :=
  fold_left (fun acc c => 10 * acc + digit_value c) ds 0.

(** The integer a token denotes. *)
Definition token_value (t : list ascii) : Z :=
  match t with
  | c :: r => if Ascii.eqb c "-" then - digits_value r
              else digits_value (token_digits t)
  | [] => 0
  end.

Definition spec_seven_integer_tokens (line : list ascii) : bool :=
  let ts := tokens line in
  (List.length ts =? 7)%nat && forallb is_integer_token ts.

(** The line [cdc_task] hands to [sscanf]: the C string in the buffer
    after the read. *)
Definition received_line (e : CdcEnv) : list ascii :=
  c_string (fst (tud_cdc_read (cdc_fifo e))).

(** ** Well-formed states: every variable holds a value of its C type and
    the sensitivity level indexes the divisor table. *)

Definition wf_cmd (c : Cmd.t) : Prop :=
  is_uint8 (Cmd.buttons c) /\ is_int8 (Cmd.x c) /\ is_int8 (Cmd.y c) /\
  is_int8 (Cmd.wheel c) /\ is_int8 (Cmd.pan c).

Definition wf_state (s : State) : Prop :=
  wf_cmd (mouse_cmd s) /\
  is_uint32 (cdc_command_time s) /\
  1 <= sensitivity_level s <= 3 /\
  is_uint32 (start_ms s) /\
  is_uint32 (button_press_start_time s).

(** A serial poll accepts a command when it answers ["ok"]; whether it does
    depends on the received bytes only. *)
Definition cdc_accepts (e : CdcEnv) : bool :=
  match snd (cdc_task initial_state e) with
  | Some a => String.eqb a ack_ok
  | None => false
  end.

Definition no_accept (ev : Event) : Prop :=
  match ev with
  | HidTick _ => True
  | CdcPoll e => cdc_accepts e = false
  end.

(** The values of an [int8_t], for proofs by enumeration. *)
Definition int8_values : list Z :=
  map (fun n => Z.of_nat n - 128) (seq 0 256).

(** ** Auxiliary definitions used in the statements and proofs *)

(** One axis of [read_joystick] before the clamp, with the [int]
    operations resolved: no intermediate value overflows. *)
Definition axis_value (v : Z) : Z :=
  if v >? 2148 then to_int8 (Z.quot ((v - 2148) * 127) 1947)
  else if v <? 1948 then to_int8 (Z.quot ((v - 1948) * 127) 1948)
  else 0.

Definition axis_clamp (a : Z) : Z :=
  let a := if a >? 127 then 127 else a in
  if a <? -127 then -127 else a.

(** The sample [v2] lies on the same side of the center as [v1], outside
    the dead zone, and deviates from the center at least as much. *)
Definition deviates_more (v1 v2 : Z) : Prop :=
  center + deadzone < v1 <= v2 \/ v2 <= v1 < center - deadzone.

(** The first token of a string that starts with it, and what follows. *)
Fixpoint take_token (s : list ascii) : list ascii :=
  match s with
  | c :: r => if isspace c then [] else c :: take_token r
  | [] => []
  end.

Fixpoint drop_token (s : list ascii) : list ascii :=
  match s with
  | c :: r => if isspace c then s else drop_token r
  | [] => []
  end.

Definition ends_token (rest : list ascii) : Prop :=
  match rest with
  | [] => True
  | c :: _ => isspace c = true
  end.

(** The double expression of the jitter against its closed form, on every
    [int8_t] delta and every value of [(rand() % 2) - 2]. *)
Definition jitter_agrees (k x : Z) : bool :=
  match double_to_int8
          (double_add (double_of_int (k - 2))
                      (double_mul (double_of_int x) double_0_03)) with
  | Some v => v =? jitter_truncated k x
  | None => false
  end.

(** A call of [hid_task] that passes the 1 ms interval test and finds the HID
    interface ready. *)
Definition reporting_tick (s : State) (e : HidEnv) : Prop :=
  1 <= u32_sub (to_uint32 (hid_millis_poll e)) (start_ms s) /\
  hid_ready e = true.

(** The state after the interval test: only [start_ms] has advanced. *)
Definition after_interval (s : State) : State :=
  set_start_ms s (u32_add (start_ms s) 1).

(** The pending command marked as consumed. *)
Definition clear_pending (s : State) : State :=
  let c := mouse_cmd s in
  set_mouse_cmd s (Cmd.mk (Cmd.buttons c) (Cmd.x c) (Cmd.y c)
                          (Cmd.wheel c) (Cmd.pan c) false).

(** The button value [read_joystick] stores: 1 when the pin is low. *)
Definition button_of (gpio : bool) : Z := if gpio then 0 else 1.

(** The number of steps of a run at which the sensitivity level changes. *)
Fixpoint level_changes (s : State) (evs : list Event) : option nat :=
  match evs with
  | [] => Some O
  | ev :: evs' =>
      match step s ev with
      | None => None
      | Some (s1, _) =>
          match level_changes s1 evs' with
          | None => None
          | Some n =>
              Some (Nat.add (if sensitivity_level s1 =? sensitivity_level s
                             then O else 1%nat) n)
          end
      end
  end.

(** The button is down at an event: in every call of [hid_task] the pin
    reads low. *)
Definition button_held (ev : Event) : Prop :=
  match ev with
  | HidTick e => hid_gpio e = false
  | CdcPoll _ => True
  end.

(** The level after [l] in the cycle 1, 2, 3, 1. *)
Definition next_level (l : Z) : Z := l mod 3 + 1.

(** ** Further definitions: bounds of joystick reports *)

(** The largest magnitudes a joystick report can carry at a level:
    127 divided by the divisor of the axis. *)
Definition max_report_x (level : Z) : Z :=
  if level =? 1 then 25 else if level =? 2 then 12 else 4.

Definition max_report_y (level : Z) : Z :=
  if level =? 1 then 6 else if level =? 2 then 3 else 4.

(** The report of a button press without movement. *)
Definition click_report : MouseReport := mkReport 1 0 0 0 0.

(** A sample at which the mapped delta is zero. *)
Definition at_rest (v : Z) : Prop := 1933 <= v <= 2163.

(** ** Further definitions: runs and clocks *)

(** The number of reports among the outputs of a run. *)
Fixpoint count_reports (outs : list Output) : nat :=
  match outs with
  | [] => O
  | Report _ :: r => S (count_reports r)
  | Ack _ :: r => count_reports r
  end.

(** The clock values read by the interval test of [hid_task] along a run
    are 32-bit values that never decrease, starting from [lo]. *)
Fixpoint polls_monotone (lo : Z) (evs : list Event) : Prop :=
  match evs with
  | [] => True
  | HidTick e :: r =>
      lo <= hid_millis_poll e < 2 ^ 32 /\ polls_monotone (hid_millis_poll e) r
  | CdcPoll _ :: r => polls_monotone lo r
  end.

Fixpoint last_poll (lo : Z) (evs : list Event) : Z :=
  match evs with
  | [] => lo
  | HidTick e :: r => last_poll (hid_millis_poll e) r
  | CdcPoll _ :: r => last_poll lo r
  end.

(** The clock values read as [current_time] along a run never decrease
    from [lo] on and stay below [hi]. *)
Fixpoint times_within (lo hi : Z) (evs : list Event) : Prop :=
  match evs with
  | [] => True
  | HidTick e :: r =>
      lo <= hid_millis e < hi /\ times_within (hid_millis e) hi r
  | CdcPoll _ :: r => times_within lo hi r
  end.

(** A call of [hid_task] reads its [current_time] less than 500 ms after
    the time [T]. *)
Definition in_window (T : Z) (ev : Event) : Prop :=
  match ev with
  | HidTick e => u32_sub (to_uint32 (hid_millis e)) T < CDC_BLOCK_TIMEOUT
  | CdcPoll _ => True
  end.

(** The fields of a command, without the pending flag. *)
Definition cmd_fields (c : Cmd.t) : Z * Z * Z * Z * Z :=
  (Cmd.buttons c, Cmd.x c, Cmd.y c, Cmd.wheel c, Cmd.pan c).

(** The long-press detection cannot fire yet: the button was up at the
    last joystick tick, or this press is already converted, or the press
    edge was recorded between [T0] and [lo]. *)
Definition press_young (T0 lo : Z) (s : State) : Prop :=
  last_button_state s = 0 \/ sensitivity_changed s = true \/
  T0 <= button_press_start_time s <= lo.

(** Input at which a run of digits ends: the end of the string or a
    character that is not a digit. *)
Definition ends_number (rest : list ascii) : Prop :=
  match rest with
  | [] => True
  | c :: _ => isdigit c = false
  end.

(** ** The status LED: the device callbacks and [led_blinking_task] *)

(** Constants of [usb_descriptors.h] and of the USB stack's headers that
    [main.c] uses by name; their values are not part of the file and are
    taken as parameters. *)
Record UsbConstants : Type := mkUsbConstants {
  REPORT_ID_KEYBOARD : Z;
  REPORT_ID_MOUSE : Z;
  REPORT_ID_CONSUMER_CONTROL : Z;
  REPORT_ID_GAMEPAD : Z;
  HID_REPORT_TYPE_OUTPUT : Z;
  KEYBOARD_LED_CAPSLOCK : Z;
  HID_KEY_A : Z;
  HID_USAGE_CONSUMER_VOLUME_DECREMENT : Z;
  GAMEPAD_HAT_UP : Z;
  GAMEPAD_HAT_CENTERED : Z;
  GAMEPAD_BUTTON_A : Z
}.

(** The labels of the [switch] of [send_hid_report] are distinct (a C
    compiler rejects the file otherwise). *)
Definition distinct_report_ids (k : UsbConstants) : Prop :=
  REPORT_ID_KEYBOARD k <> REPORT_ID_MOUSE k /\
  REPORT_ID_KEYBOARD k <> REPORT_ID_CONSUMER_CONTROL k /\
  REPORT_ID_KEYBOARD k <> REPORT_ID_GAMEPAD k /\
  REPORT_ID_MOUSE k <> REPORT_ID_CONSUMER_CONTROL k /\
  REPORT_ID_MOUSE k <> REPORT_ID_GAMEPAD k /\
  REPORT_ID_CONSUMER_CONTROL k <> REPORT_ID_GAMEPAD k.

(** One choice of the constants, for examples. *)
Definition example_constants : UsbConstants :=
  mkUsbConstants 1 2 3 4 2 2 4 234 1 0 1.

Definition BLINK_NOT_MOUNTED : Z := 250.
Definition BLINK_MOUNTED : Z := 1000.
Definition BLINK_SUSPENDED : Z := 2500.

Module Led.
Record t : Type := mk {
  blink_interval_ms : Z;   (* uint32_t, file scope *)
  start_ms : Z;            (* uint32_t, static in led_blinking_task *)
  led_state : bool         (* static in led_blinking_task *)
}.
End Led.

Definition initial_led : Led.t := Led.mk BLINK_NOT_MOUNTED 0 false.

Definition set_blink_interval_ms (l : Led.t) (i : Z) : Led.t :=
  Led.mk i (Led.start_ms l) (Led.led_state l).

Definition tud_mount_cb (l : Led.t) : Led.t :=
  set_blink_interval_ms l BLINK_MOUNTED.

Definition tud_umount_cb (l : Led.t) : Led.t :=
  set_blink_interval_ms l BLINK_NOT_MOUNTED.

Definition tud_suspend_cb (l : Led.t) (remote_wakeup_en : bool) : Led.t :=
  set_blink_interval_ms l BLINK_SUSPENDED.

(** [tud_resume_cb]; [tud_mounted] is what [tud_mounted()] returns. *)
Definition tud_resume_cb (l : Led.t) (tud_mounted : bool) : Led.t :=
  set_blink_interval_ms l
    (if tud_mounted then BLINK_MOUNTED else BLINK_NOT_MOUNTED).

(** Conversion of an [int] to [bool]. *)
Definition c_bool (z : Z) : bool := negb (z =? 0).

(** [led_blinking_task]: the new state and the argument of
    [board_led_write] when it is called; [now] is [board_millis()]. *)
Definition led_blinking_task (l : Led.t) (now : Z) : Led.t * option bool :=
  if Led.blink_interval_ms l =? 0 then (l, None)
  else if u32_sub (to_uint32 now) (Led.start_ms l) <? Led.blink_interval_ms l
  then (l, None)
  else
    (Led.mk (Led.blink_interval_ms l)
            (u32_add (Led.start_ms l) (Led.blink_interval_ms l))
            (c_bool (int_sub 1 (Z.b2z (Led.led_state l)))),
     Some (Led.led_state l)).

(** [tud_hid_set_report_cb]; [buffer] holds the [bufsize] bytes received.
    The result is the new state and the argument of [board_led_write]
    when it is called. *)
Definition tud_hid_set_report_cb (k : UsbConstants) (l : Led.t)
  (report_id report_type : Z) (buffer : list Z) : Led.t * option bool :=
  let bufsize := Z.of_nat (List.length buffer) in
  if report_type =? HID_REPORT_TYPE_OUTPUT k then
    if report_id =? REPORT_ID_KEYBOARD k then
      if bufsize <? 1 then (l, None)
      else
        let kbd_leds := to_uint8 (nth 0 buffer 0) in
        if negb (Z.land kbd_leds (KEYBOARD_LED_CAPSLOCK k) =? 0) then
          (set_blink_interval_ms l 0, Some true)
        else
          (set_blink_interval_ms l BLINK_MOUNTED, Some false)
    else (l, None)
  else (l, None).

(** [tud_hid_get_report_cb] is not implemented: it returns length 0. *)
Definition tud_hid_get_report_cb (report_id report_type reqlen : Z) : Z := 0.

Inductive LedEvent : Type :=
| EvMount
| EvUmount
| EvSuspend (remote_wakeup_en : bool)
| EvResume (tud_mounted : bool)
| EvSetReport (report_id report_type : Z) (buffer : list Z)
| EvBlink (now : Z).

(** A call of [board_led_write]: by the blinking task or by the handler
    of the host's LED report. *)
Inductive LedWrite : Type :=
| ByBlink (on : bool)
| ByHost (on : bool).

Definition led_step (k : UsbConstants) (l : Led.t) (ev : LedEvent)
  : Led.t * list LedWrite :=
  match ev with
  | EvMount => (tud_mount_cb l, [])
  | EvUmount => (tud_umount_cb l, [])
  | EvSuspend w => (tud_suspend_cb l w, [])
  | EvResume m => (tud_resume_cb l m, [])
  | EvSetReport id ty buffer =>
      match tud_hid_set_report_cb k l id ty buffer with
      | (l', Some on) => (l', [ByHost on])
      | (l', None) => (l', [])
      end
  | EvBlink now =>
      match led_blinking_task l now with
      | (l', Some on) => (l', [ByBlink on])
      | (l', None) => (l', [])
      end
  end.

Fixpoint led_run (k : UsbConstants) (l : Led.t) (evs : list LedEvent)
  : Led.t * list LedWrite :=
  match evs with
  | [] => (l, [])
  | ev :: evs' =>
      let '(l1, w1) := led_step k l ev in
      let '(l2, w2) := led_run k l1 evs' in
      (l2, w1 ++ w2)
  end.

(** The values written by the blinking task, in order. *)
Fixpoint blink_values (ws : list LedWrite) : list bool :=
  match ws with
  | [] => []
  | ByBlink on :: r => on :: blink_values r
  | ByHost _ :: r => blink_values r
  end.

(** [n] values that alternate, starting with [b]. *)
Fixpoint alternating (b : bool) (n : nat) : list bool :=
  match n with
  | O => []
  | S n' => b :: alternating (negb b) n'
  end.

(** Clock values that never decrease from [lo] on and fit 32 bits. *)
Fixpoint clock_monotone (lo : Z) (nows : list Z) : Prop :=
  match nows with
  | [] => True
  | t :: r => lo <= t < 2 ^ 32 /\ clock_monotone t r
  end.

(** The last of the clock values, [lo] when there is none. *)
Fixpoint last_clock (lo : Z) (nows : list Z) : Z :=
  match nows with
  | [] => lo
  | t :: r => last_clock t r
  end.

(** ** [send_hid_report] *)

(** The three [static] flags of [send_hid_report]. *)
Record KeyFlags : Type := mkKeyFlags {
  has_keyboard_key : bool;
  has_consumer_key : bool;
  has_gamepad_key : bool
}.

Definition initial_flags : KeyFlags := mkKeyFlags false false false.

(** What [send_hid_report] hands to the HID interface. *)
Inductive HidReport : Type :=
| KeyboardReport (report_id modifier : Z) (keycode : option (list Z))
    (* tud_hid_keyboard_report; [None] is the NULL key array *)
| MouseMove (report_id : Z) (r : MouseReport)
    (* tud_hid_mouse_report *)
| ConsumerReport (report_id usage : Z)
    (* tud_hid_report of a 16-bit usage *)
| GamepadReport (report_id hat buttons : Z).
    (* tud_hid_report of a gamepad report, the axes all 0 *)

(** [send_hid_report(report_id, btn)]; [tud_hid_ready] is what
    [tud_hid_ready()] returns.  The cases of the [switch] are tried in
    turn, which is the same as the [switch] for distinct labels. *)
Definition send_hid_report (k : UsbConstants) (tud_hid_ready : bool)
  (f : KeyFlags) (report_id btn : Z) : KeyFlags * option HidReport :=
  if negb tud_hid_ready then (f, None)
  else if report_id =? REPORT_ID_KEYBOARD k then
    if negb (btn =? 0) then
      (mkKeyFlags true (has_consumer_key f) (has_gamepad_key f),
       Some (KeyboardReport (REPORT_ID_KEYBOARD k) 0
                            (Some [HID_KEY_A k; 0; 0; 0; 0; 0])))
    else
      (mkKeyFlags false (has_consumer_key f) (has_gamepad_key f),
       if has_keyboard_key f
       then Some (KeyboardReport (REPORT_ID_KEYBOARD k) 0 None) else None)
  else if report_id =? REPORT_ID_MOUSE k then
    (f, Some (MouseMove (REPORT_ID_MOUSE k) (mkReport 0 5 5 0 0)))
  else if report_id =? REPORT_ID_CONSUMER_CONTROL k then
    if negb (btn =? 0) then
      (mkKeyFlags (has_keyboard_key f) true (has_gamepad_key f),
       Some (ConsumerReport (REPORT_ID_CONSUMER_CONTROL k)
                            (HID_USAGE_CONSUMER_VOLUME_DECREMENT k)))
    else
      (mkKeyFlags (has_keyboard_key f) false (has_gamepad_key f),
       if has_consumer_key f
       then Some (ConsumerReport (REPORT_ID_CONSUMER_CONTROL k) 0) else None)
  else if report_id =? REPORT_ID_GAMEPAD k then
    if negb (btn =? 0) then
      (mkKeyFlags (has_keyboard_key f) (has_consumer_key f) true,
       Some (GamepadReport (REPORT_ID_GAMEPAD k) (GAMEPAD_HAT_UP k)
                           (GAMEPAD_BUTTON_A k)))
    else
      (mkKeyFlags (has_keyboard_key f) (has_consumer_key f) false,
       if has_gamepad_key f
       then Some (GamepadReport (REPORT_ID_GAMEPAD k)
                                (GAMEPAD_HAT_CENTERED k) 0)
       else None)
  else (f, None).

(** One call: the readiness of the interface and the two arguments. *)
Record SendCall : Type := mkSendCall {
  call_ready : bool;
  call_report_id : Z;
  call_btn : Z
}.

Fixpoint send_run (k : UsbConstants) (f : KeyFlags) (calls : list SendCall)
  : KeyFlags * list HidReport :=
  match calls with
  | [] => (f, [])
  | c :: calls' =>
      let '(f1, o) :=
        send_hid_report k (call_ready c) f (call_report_id c) (call_btn c) in
      let '(f2, outs) := send_run k f1 calls' in
      (f2, match o with Some r => r :: outs | None => outs end)
  end.

(** The report id of a key-like report and whether it reports a key
    down. *)
Definition report_press (r : HidReport) : option (Z * bool) :=
  match r with
  | KeyboardReport id _ (Some _) => Some (id, true)
  | KeyboardReport id _ None => Some (id, false)
  | MouseMove _ _ => None
  | ConsumerReport id usage => Some (id, negb (usage =? 0))
  | GamepadReport id _ buttons => Some (id, negb (buttons =? 0))
  end.

(** Among the reports with the id [id], every release comes directly
    after a press; [pressed] tells whether a press is outstanding at the
    start. *)
Fixpoint releases_follow_presses (id : Z) (pressed : bool)
  (outs : list HidReport) : bool :=
  match outs with
  | [] => true
  | r :: rest =>
      match report_press r with
      | Some (i, p) =>
          if i =? id
          then (p || pressed) && releases_follow_presses id p rest
          else releases_follow_presses id pressed rest
      | None => releases_follow_presses id pressed rest
      end
  end.

(** The flag [send_hid_report] keeps for a report id. *)
Definition flag_of (k : UsbConstants) (f : KeyFlags) (id : Z) : bool :=
  if id =? REPORT_ID_KEYBOARD k then has_keyboard_key f
  else if id =? REPORT_ID_CONSUMER_CONTROL k then has_consumer_key f
  else if id =? REPORT_ID_GAMEPAD k then has_gamepad_key f
  else false.

(** ** Further definitions: a press of the button, from its edge *)

(** A call of [hid_task] that reaches the joystick path: it reports,
    nothing is pending and the arbitration window is over. *)
Definition joystick_tick (s : State) (e : HidEnv) : Prop :=
  reporting_tick s e /\
  Cmd.has_data (mouse_cmd s) = false /\
  CDC_BLOCK_TIMEOUT <=
    u32_sub (to_uint32 (hid_millis e)) (cdc_command_time s).

(** A call of [hid_task] reads its [current_time] less than 1000 ms after
    the time [t0]. *)
Definition press_younger (t0 : Z) (ev : Event) : Prop :=
  match ev with
  | HidTick e =>
      u32_sub (to_uint32 (hid_millis e)) t0 < BUTTON_PRESS_TIMEOUT
  | CdcPoll _ => True
  end.

(** The state during a press whose edge was seen at time [t0] with the
    level at [l0]: the edge memory is set, the edge time is recorded, and
    the level is still [l0] with the press not converted, or the next
    level with the press converted. *)
Definition in_press (l0 t0 : Z) (s : State) : Prop :=
  last_button_state s <> 0 /\
  button_press_start_time s = t0 /\
  ((sensitivity_changed s = false /\ sensitivity_level s = l0) \/
   (sensitivity_changed s = true /\ sensitivity_level s = next_level l0)).

(** * Properties *)

(** ** Fixed-width conversions *)

Lemma to_int8_id z : is_int8 z -> to_int8 z = z.
Proof.
  unfold is_int8, to_int8, wrap_signed. intros H.
  change (2 ^ (8 - 1)) with 128. change (2 ^ 8) with 256.
  rewrite Z.mod_small; lia.
Qed.

Lemma to_uint8_id z : is_uint8 z -> to_uint8 z = z.
Proof.
  unfold is_uint8, to_uint8, wrap_unsigned. intros H.
  change (2 ^ 8) with 256. rewrite Z.mod_small; lia.
Qed.

Lemma to_int_id z : is_int z -> to_int z = z.
Proof.
  unfold is_int, INT_MIN, INT_MAX, to_int, wrap_signed. intros H.
  change (2 ^ (32 - 1)) with 2147483648 in *.
  change (2 ^ 31) with 2147483648 in *.
  change (2 ^ 32) with 4294967296.
  rewrite Z.mod_small; lia.
Qed.

Lemma to_uint32_id z : is_uint32 z -> to_uint32 z = z.
Proof.
  unfold is_uint32, to_uint32, wrap_unsigned. intros H.
  rewrite Z.mod_small; lia.
Qed.

Lemma to_int8_range z : is_int8 (to_int8 z).
Proof.
  unfold is_int8, to_int8, wrap_signed.
  change (2 ^ (8 - 1)) with 128. change (2 ^ 8) with 256.
  pose proof (Z.mod_pos_bound (z + 128) 256). lia.
Qed.

Lemma to_uint8_range z : is_uint8 (to_uint8 z).
Proof.
  unfold is_uint8, to_uint8, wrap_unsigned. change (2 ^ 8) with 256.
  pose proof (Z.mod_pos_bound z 256). lia.
Qed.

Lemma to_int_range z : is_int (to_int z).
Proof.
  unfold is_int, INT_MIN, INT_MAX, to_int, wrap_signed.
  change (2 ^ (32 - 1)) with 2147483648.
  change (2 ^ 31) with 2147483648.
  change (2 ^ 32) with 4294967296.
  pose proof (Z.mod_pos_bound (z + 2147483648) 4294967296). lia.
Qed.

Lemma to_uint32_range z : is_uint32 (to_uint32 z).
Proof.
  unfold is_uint32, to_uint32, wrap_unsigned.
  pose proof (Z.mod_pos_bound z (2 ^ 32)). lia.
Qed.

(** Wrapping commutes with addition, so a sum whose true value fits an
    [int] is computed exactly whatever the intermediate overflows. *)
Lemma to_int_add_l a b : to_int (to_int a + b) = to_int (a + b).
Proof.
  unfold to_int, wrap_signed.
  change (2 ^ (32 - 1)) with 2147483648.
  change (2 ^ 32) with 4294967296.
  f_equal.
  replace ((a + 2147483648) mod 4294967296 - 2147483648 + b + 2147483648)
    with ((a + 2147483648) mod 4294967296 + b) by lia.
  replace (a + b + 2147483648) with ((a + 2147483648) + b) by lia.
  rewrite Z.add_mod_idemp_l by lia. reflexivity.
Qed.

Lemma u32_sub_no_wrap a b :
  is_uint32 a -> is_uint32 b -> b <= a -> u32_sub a b = a - b.
Proof.
  unfold u32_sub, is_uint32. intros Ha Hb Hle.
  apply to_uint32_id. unfold is_uint32. lia.
Qed.


(** ** The axis mapping *)

Ltac int_range :=
  unfold is_int, INT_MIN, INT_MAX; change (2 ^ 31) with 2147483648; lia.

Ltac int_ops :=
  unfold int_add, int_sub, int_mul, int_div;
  repeat match goal with
         | |- context [to_int ?z] =>
             rewrite (to_int_id z) by first [assumption | int_range]
         end.

Lemma quot_bounds_pos a b :
  0 < b -> 0 <= a -> 0 <= Z.quot a b /\ b * Z.quot a b <= a < b * Z.quot a b + b.
Proof.
  intros Hb Ha.
  pose proof (Z.quot_rem' a b) as E.
  pose proof (Z.rem_bound_pos a b Ha Hb) as R.
  split; [apply Z.quot_pos; lia | lia].
Qed.

Lemma quot_bounds_neg a b :
  0 < b -> a <= 0 -> Z.quot a b <= 0 /\ b * Z.quot a b - b < a <= b * Z.quot a b.
Proof.
  intros Hb Ha.
  destruct (quot_bounds_pos (- a) b) as [Q0 Q1]; [lia | lia |].
  rewrite Z.quot_opp_l in Q0, Q1 by lia. lia.
Qed.

Lemma axis_value_upper v :
  2148 < v <= 4095 ->
  axis_value v = Z.quot ((v - 2148) * 127) 1947 /\ 0 <= axis_value v <= 127.
Proof.
  intros Hv. unfold axis_value.
  destruct (Z.gtb_spec v 2148) as [_|?]; [|lia].
  destruct (quot_bounds_pos ((v - 2148) * 127) 1947) as [Q0 Q1]; [lia|lia|].
  rewrite to_int8_id by (unfold is_int8; lia). lia.
Qed.

Lemma axis_value_lower v :
  0 <= v < 1948 ->
  axis_value v = Z.quot ((v - 1948) * 127) 1948 /\ -127 <= axis_value v <= 0.
Proof.
  intros Hv. unfold axis_value.
  destruct (Z.gtb_spec v 2148) as [?|_]; [lia|].
  destruct (Z.ltb_spec v 1948) as [_|?]; [|lia].
  destruct (quot_bounds_neg ((v - 1948) * 127) 1948) as [Q0 Q1]; [lia|lia|].
  rewrite to_int8_id by (unfold is_int8; lia). lia.
Qed.

Lemma axis_value_dead v : 1948 <= v <= 2148 -> axis_value v = 0.
Proof.
  intros Hv. unfold axis_value.
  destruct (Z.gtb_spec v 2148); [lia|].
  destruct (Z.ltb_spec v 1948); [lia|]. reflexivity.
Qed.

Lemma axis_value_range v : 0 <= v <= 4095 -> -127 <= axis_value v <= 127.
Proof.
  intros Hv.
  destruct (Z_lt_le_dec v 1948);
    [pose proof (axis_value_lower v); lia|].
  destruct (Z_lt_le_dec 2148 v);
    [pose proof (axis_value_upper v); lia|].
  rewrite axis_value_dead; lia.
Qed.

Lemma axis_clamp_id a : -127 <= a <= 127 -> axis_clamp a = a.
Proof.
  intros Ha. unfold axis_clamp.
  destruct (Z.gtb_spec a 127); [lia|].
  destruct (Z.ltb_spec a (-127)); [lia|]. reflexivity.
Qed.

(** [read_joystick] applies the same computation to each axis. *)
Lemma read_joystick_axes x_raw y_raw gpio :
  0 <= x_raw <= 65535 -> 0 <= y_raw <= 65535 ->
  read_joystick x_raw y_raw gpio =
  (axis_clamp (axis_value x_raw), axis_clamp (axis_value y_raw),
   if gpio then 0 else 1).
Proof.
  intros Hx Hy. unfold read_joystick, axis_value, axis_clamp, center, deadzone.
  assert (Q : forall v, 0 <= v <= 65535 ->
            is_int (Z.quot ((v - 2048 - 100) * 127) (4095 - 2048 - 100)) /\
            is_int (Z.quot ((v - 2048 + 100) * 127) (2048 - 100))).
  { intros v Hv. unfold is_int, INT_MIN, INT_MAX.
    change (2 ^ 31) with 2147483648.
    change (4095 - 2048 - 100) with 1947. change (2048 - 100) with 1948.
    split.
    - destruct (Z_le_gt_dec 0 ((v - 2048 - 100) * 127)).
      + pose proof (quot_bounds_pos ((v - 2048 - 100) * 127) 1947). lia.
      + pose proof (quot_bounds_neg ((v - 2048 - 100) * 127) 1947). lia.
    - destruct (Z_le_gt_dec 0 ((v - 2048 + 100) * 127)).
      + pose proof (quot_bounds_pos ((v - 2048 + 100) * 127) 1948). lia.
      + pose proof (quot_bounds_neg ((v - 2048 + 100) * 127) 1948). lia. }
  destruct (Q x_raw Hx) as [Qx1 Qx2]. destruct (Q y_raw Hy) as [Qy1 Qy2].
  int_ops.
  change (2048 + 100) with 2148. change (2048 - 100) with 1948.
  change (4095 - 2048 - 100) with 1947.
  replace (x_raw - 2048 - 100) with (x_raw - 2148) by lia.
  replace (x_raw - 2048 + 100) with (x_raw - 1948) by lia.
  replace (y_raw - 2048 - 100) with (y_raw - 2148) by lia.
  replace (y_raw - 2048 + 100) with (y_raw - 1948) by lia.
  destruct gpio; reflexivity.
Qed.

Lemma spec_axis_delta_value v :
  0 <= v <= 4095 -> spec_axis_delta v = axis_value v.
Proof.
  intros Hv. unfold spec_axis_delta, center, deadzone.
  change (2048 + 100) with 2148. change (2048 - 100) with 1948.
  change (4095 - 2048 - 100) with 1947.
  replace (v - 2048 - 100) with (v - 2148) by lia.
  replace (v - 2048 + 100) with (v - 1948) by lia.
  destruct (Z_lt_le_dec v 1948) as [L|L].
  - destruct (axis_value_lower v) as [E B]; [lia|].
    destruct (Z.gtb_spec v 2148); [lia|].
    destruct (Z.ltb_spec v 1948); [|lia]. rewrite <- E. lia.
  - destruct (Z_lt_le_dec 2148 v) as [U|U].
    + destruct (axis_value_upper v) as [E B]; [lia|].
      destruct (Z.gtb_spec v 2148); [|lia]. rewrite <- E. lia.
    + rewrite axis_value_dead by lia.
      destruct (Z.gtb_spec v 2148); [lia|].
      destruct (Z.ltb_spec v 1948); [lia|]. reflexivity.
Qed.

(** C4.  For raw samples in [0, 4095], both results of [read_joystick] are
    the specification's formula applied to the axis' own sample (the upper
    rescaling above center + deadzone, the lower one below
    center - deadzone, zero in between, divisions truncating), they lie in
    [-127, 127], and the center sample 2048 gives 0; the Y axis is computed
    exactly as the X axis, without inversion. *)
Theorem C4_axis_mapping :
  forall x_raw y_raw gpio,
    0 <= x_raw <= 4095 -> 0 <= y_raw <= 4095 ->
    let '(x, y, _) := read_joystick x_raw y_raw gpio in
    x = spec_axis_delta x_raw /\ y = spec_axis_delta y_raw /\
    -127 <= x <= 127 /\ -127 <= y <= 127 /\
    (x_raw = 2048 -> x = 0) /\ (y_raw = 2048 -> y = 0) /\
    (2148 < x_raw -> x = Z.quot ((x_raw - 2048 - 100) * 127) (4095 - 2048 - 100)) /\
    (x_raw < 1948 -> x = Z.quot ((x_raw - 2048 + 100) * 127) (2048 - 100)) /\
    (1948 <= x_raw <= 2148 -> x = 0) /\
    (2148 < y_raw -> y = Z.quot ((y_raw - 2048 - 100) * 127) (4095 - 2048 - 100)) /\
    (y_raw < 1948 -> y = Z.quot ((y_raw - 2048 + 100) * 127) (2048 - 100)) /\
    (1948 <= y_raw <= 2148 -> y = 0).
Proof.
  intros x_raw y_raw gpio Hx Hy.
  rewrite read_joystick_axes by lia.
  pose proof (axis_value_range x_raw Hx) as Rx.
  pose proof (axis_value_range y_raw Hy) as Ry.
  rewrite !axis_clamp_id by assumption.
  rewrite !spec_axis_delta_value by assumption.
  change (4095 - 2048 - 100) with 1947. change (2048 - 100) with 1948.
  replace (x_raw - 2048 - 100) with (x_raw - 2148) by lia.
  replace (x_raw - 2048 + 100) with (x_raw - 1948) by lia.
  replace (y_raw - 2048 - 100) with (y_raw - 2148) by lia.
  replace (y_raw - 2048 + 100) with (y_raw - 1948) by lia.
  repeat split; try lia; intros H;
    try (subst; reflexivity);
    try (apply axis_value_dead; lia);
    try (apply axis_value_upper; lia);
    try (apply axis_value_lower; lia).
Qed.

Lemma C4_axis_mapping_witness :
  let '(x, y, _) := read_joystick 4095 0 true in
  x = spec_axis_delta 4095 /\ y = spec_axis_delta 0 /\
  -127 <= x <= 127 /\ -127 <= y <= 127 /\
  (4095 = 2048 -> x = 0) /\ (0 = 2048 -> y = 0) /\
  (2148 < 4095 -> x = Z.quot ((4095 - 2048 - 100) * 127) (4095 - 2048 - 100)) /\
  (4095 < 1948 -> x = Z.quot ((4095 - 2048 + 100) * 127) (2048 - 100)) /\
  (1948 <= 4095 <= 2148 -> x = 0) /\
  (2148 < 0 -> y = Z.quot ((0 - 2048 - 100) * 127) (4095 - 2048 - 100)) /\
  (0 < 1948 -> y = Z.quot ((0 - 2048 + 100) * 127) (2048 - 100)) /\
  (1948 <= 0 <= 2148 -> y = 0).
Proof. apply (C4_axis_mapping 4095 0 true); lia. Defined.

(** Whatever the samples, the deltas [read_joystick] stores are within
    [-127, 127] and the button is 0 or 1. *)
Lemma read_joystick_range x_raw y_raw gpio :
  let '(x, y, b) := read_joystick x_raw y_raw gpio in
  -127 <= x <= 127 /\ -127 <= y <= 127 /\ (b = 0 \/ b = 1).
Proof.
  unfold read_joystick.
  repeat match goal with
         | |- context [to_int8 ?z] =>
             let H := fresh "R" in
             pose proof (to_int8_range z) as H; unfold is_int8 in H;
             generalize dependent (to_int8 z); intros
         end.
  repeat match goal with
         | |- context [if ?c then _ else _] =>
             match c with
             | Z.gtb ?a ?b => destruct (Z.gtb_spec a b)
             | Z.ltb ?a ?b => destruct (Z.ltb_spec a b)
             end
         end;
  (split; [lia | split; [lia | destruct gpio; [left | right]; reflexivity]]).
Qed.

(** ** Sensitivity scaling *)

Lemma scale_joystick_spec level jx jy :
  1 <= level <= 3 -> is_int8 jx -> is_int8 jy ->
  scale_joystick level jx jy =
  Some (Z.quot jx (spec_divisor level), Z.quot jy (spec_y_divisor level)).
Proof.
  intros Hl Hx Hy. unfold is_int8 in *.
  assert (Q : forall a d, -128 <= a <= 127 -> 0 < d ->
                -128 <= Z.quot a d <= 127).
  { intros a d Ha Hd. destruct (Z_le_gt_dec 0 a).
    - pose proof (quot_bounds_pos a d). nia.
    - pose proof (quot_bounds_neg a d). nia. }
  assert (C : level = 1 \/ level = 2 \/ level = 3) by lia.
  destruct C as [-> | [-> | ->]];
    unfold scale_joystick, spec_divisor, spec_y_divisor;
    [ change (array_get sensitivity_divisors (int_sub 1 1)) with (Some 5)
    | change (array_get sensitivity_divisors (int_sub 2 1)) with (Some 10)
    | change (array_get sensitivity_divisors (int_sub 3 1)) with (Some 30) ];
    cbv beta iota zeta;
    change (to_uint8 5) with 5; change (to_uint8 10) with 10;
    change (to_uint8 30) with 30;
    change (int_mul 5 4) with 20; change (int_mul 10 4) with 40;
    cbn [Z.eqb Pos.eqb orb];
    change (5 * 4) with 20; change (10 * 4) with 40;
    unfold int_div;
    repeat match goal with
           | |- context [to_int (Z.quot ?a ?d)] =>
               rewrite (to_int_id (Z.quot a d))
                 by (pose proof (Q a d); int_range)
           end;
    rewrite !to_int8_id by (unfold is_int8; apply Q; lia);
    reflexivity.
Qed.

Lemma sensitivity_update_level s t b :
  1 <= sensitivity_level s <= 3 ->
  1 <= sensitivity_level (sensitivity_update s t b) <= 3.
Proof.
  intros Hl. unfold sensitivity_update.
  destruct (negb (b =? 0) && (last_button_state s =? 0)); [exact Hl|].
  destruct (negb (b =? 0) && negb (sensitivity_changed s) &&
            (u32_sub t (button_press_start_time s) >=? BUTTON_PRESS_TIMEOUT));
    [|exact Hl].
  cbn. rewrite to_uint8_id by (unfold is_uint8; lia).
  destruct (Z.gtb_spec (sensitivity_level s + 1) 3); lia.
Qed.

(** C5.  In the joystick path the movement report carries the mapped deltas
    divided, with truncation toward zero, by the divisor of the sensitivity
    level in force after the long-press update: 5, 10, 30 for the X axis at
    levels 1, 2, 3, and four times that for the Y axis at levels 1 and 2
    (20, 40), the same divisor as X (30) at level 3. *)
Theorem C5_sensitivity_scaling :
  forall s t x_raw y_raw gpio,
    1 <= sensitivity_level s <= 3 ->
    let '(jx, jy, b) := read_joystick x_raw y_raw gpio in
    let s' := sensitivity_update s t b in
    let l := sensitivity_level s' in
    let dx := if l =? 1 then 5 else if l =? 2 then 10 else 30 in
    let dy := if l =? 1 then 20 else if l =? 2 then 40 else 30 in
    1 <= l <= 3 /\
    scale_joystick l jx jy = Some (Z.quot jx dx, Z.quot jy dy) /\
    exists out,
      hid_task_joystick s t x_raw y_raw gpio = Some (s', out) /\
      (Z.quot jx dx <> 0 \/ Z.quot jy dy <> 0 ->
       out = Some (mkReport 0 (Z.quot jx dx) (Z.quot jy dy) 0 0)) /\
      (Z.quot jx dx = 0 /\ Z.quot jy dy = 0 ->
       out = None \/ out = Some (mkReport 1 0 0 0 0)).
Proof.
  intros s t x_raw y_raw gpio Hl.
  unfold hid_task_joystick.
  pose proof (read_joystick_range x_raw y_raw gpio) as R.
  destruct (read_joystick x_raw y_raw gpio) as [[jx jy] b].
  destruct R as (Rx & Ry & Rb).
  pose proof (sensitivity_update_level s t b Hl) as Hl'.
  cbv zeta.
  set (s' := sensitivity_update s t b) in *.
  assert (E : scale_joystick (sensitivity_level s') jx jy =
              Some (Z.quot jx (if sensitivity_level s' =? 1 then 5
                               else if sensitivity_level s' =? 2 then 10 else 30),
                    Z.quot jy (if sensitivity_level s' =? 1 then 20
                               else if sensitivity_level s' =? 2 then 40 else 30))).
  { rewrite scale_joystick_spec by (unfold is_int8; lia).
    unfold spec_divisor, spec_y_divisor.
    assert (C : sensitivity_level s' = 1 \/ sensitivity_level s' = 2 \/
                sensitivity_level s' = 3) by lia.
    destruct C as [-> | [-> | ->]]; reflexivity. }
  split; [exact Hl'|]. split; [exact E|].
  rewrite E.
  set (mx := Z.quot jx _). set (my := Z.quot jy _).
  destruct (Z.eqb_spec mx 0) as [Ex|Ex]; destruct (Z.eqb_spec my 0) as [Ey|Ey];
    cbn [negb orb].
  - destruct (negb (b =? 0) && negb (sensitivity_changed s'));
      eexists; (split; [reflexivity|]); split; intros H;
        try lia; [right | left]; reflexivity.
  - eexists; split; [reflexivity|]; split; intros H; [reflexivity | lia].
  - eexists; split; [reflexivity|]; split; intros H; [reflexivity | lia].
  - eexists; split; [reflexivity|]; split; intros H; [reflexivity | lia].
Qed.

Lemma C5_sensitivity_scaling_witness :
  let '(jx, jy, b) := read_joystick 4095 0 true in
  let s' := sensitivity_update initial_state 600 b in
  let l := sensitivity_level s' in
  let dx := if l =? 1 then 5 else if l =? 2 then 10 else 30 in
  let dy := if l =? 1 then 20 else if l =? 2 then 40 else 30 in
  1 <= l <= 3 /\
  scale_joystick l jx jy = Some (Z.quot jx dx, Z.quot jy dy) /\
  exists out,
    hid_task_joystick initial_state 600 4095 0 true = Some (s', out) /\
    (Z.quot jx dx <> 0 \/ Z.quot jy dy <> 0 ->
     out = Some (mkReport 0 (Z.quot jx dx) (Z.quot jy dy) 0 0)) /\
    (Z.quot jx dx = 0 /\ Z.quot jy dy = 0 ->
     out = None \/ out = Some (mkReport 1 0 0 0 0)).
Proof. apply (C5_sensitivity_scaling initial_state 600 4095 0 true); simpl; lia. Defined.

(** ** Monotonicity of the mapping *)

Lemma axis_value_mono v1 v2 :
  0 <= v1 <= 4095 -> 0 <= v2 <= 4095 ->
  (center + deadzone < v1 <= v2 -> 0 <= axis_value v1 <= axis_value v2) /\
  (v2 <= v1 < center - deadzone -> axis_value v2 <= axis_value v1 <= 0).
Proof.
  intros H1 H2. unfold center, deadzone. split; intros H.
  - destruct (axis_value_upper v1) as [E1 B1]; [lia|].
    destruct (axis_value_upper v2) as [E2 B2]; [lia|].
    split; [lia|]. rewrite E1, E2. apply Z.quot_le_mono; lia.
  - destruct (axis_value_lower v1) as [E1 B1]; [lia|].
    destruct (axis_value_lower v2) as [E2 B2]; [lia|].
    split; [|lia]. rewrite E1, E2. apply Z.quot_le_mono; lia.
Qed.

Lemma quot_abs_mono a1 a2 d :
  0 < d -> (0 <= a1 <= a2 \/ a2 <= a1 <= 0) ->
  Z.abs (Z.quot a1 d) <= Z.abs (Z.quot a2 d).
Proof.
  intros Hd [H|H].
  - pose proof (Z.quot_le_mono a1 a2 d Hd).
    pose proof (Z.quot_pos a1 d). lia.
  - pose proof (Z.quot_le_mono a2 a1 d Hd).
    pose proof (quot_bounds_neg a1 d). lia.
Qed.

(** C9.  For two readings of the joystick with samples in [0, 4095], on
    each axis: when the second sample is on the same side of the center as
    the first, outside the dead zone, with the larger deviation, the
    magnitude of its mapped delta is not smaller, both before the
    sensitivity division and after it, at every sensitivity level. *)
Theorem C9_axis_monotonic :
  forall a1 b1 g1 a2 b2 g2 level,
    0 <= a1 <= 4095 -> 0 <= b1 <= 4095 ->
    0 <= a2 <= 4095 -> 0 <= b2 <= 4095 ->
    1 <= level <= 3 ->
    let '(x1, y1, _) := read_joystick a1 b1 g1 in
    let '(x2, y2, _) := read_joystick a2 b2 g2 in
    exists mx1 my1 mx2 my2,
      scale_joystick level x1 y1 = Some (mx1, my1) /\
      scale_joystick level x2 y2 = Some (mx2, my2) /\
      (deviates_more a1 a2 ->
       Z.abs x1 <= Z.abs x2 /\ Z.abs mx1 <= Z.abs mx2) /\
      (deviates_more b1 b2 ->
       Z.abs y1 <= Z.abs y2 /\ Z.abs my1 <= Z.abs my2).
Proof.
  intros a1 b1 g1 a2 b2 g2 level Ha1 Hb1 Ha2 Hb2 Hl.
  rewrite !read_joystick_axes by lia.
  pose proof (axis_value_range a1 Ha1). pose proof (axis_value_range b1 Hb1).
  pose proof (axis_value_range a2 Ha2). pose proof (axis_value_range b2 Hb2).
  rewrite !axis_clamp_id by assumption.
  rewrite !scale_joystick_spec by (try assumption; unfold is_int8; lia).
  do 4 eexists. split; [reflexivity|]. split; [reflexivity|].
  assert (Dx : 0 < spec_divisor level).
  { unfold spec_divisor.
    destruct (level =? 1); [lia|]. destruct (level =? 2); lia. }
  assert (Dy : 0 < spec_y_divisor level).
  { unfold spec_y_divisor. destruct ((level =? 1) || (level =? 2)); lia. }
  split; intros [D|D].
  - destruct (axis_value_mono a1 a2 Ha1 Ha2) as [M _]. specialize (M D).
    split; [lia | apply quot_abs_mono; lia].
  - destruct (axis_value_mono a1 a2 Ha1 Ha2) as [_ M]. specialize (M D).
    split; [lia | apply quot_abs_mono; lia].
  - destruct (axis_value_mono b1 b2 Hb1 Hb2) as [M _]. specialize (M D).
    split; [lia | apply quot_abs_mono; lia].
  - destruct (axis_value_mono b1 b2 Hb1 Hb2) as [_ M]. specialize (M D).
    split; [lia | apply quot_abs_mono; lia].
Qed.

Lemma C9_axis_monotonic_witness :
  deviates_more 3000 4095 /\ deviates_more 1000 0 /\
  let '(x1, y1, _) := read_joystick 3000 1000 true in
  let '(x2, y2, _) := read_joystick 4095 0 true in
  exists mx1 my1 mx2 my2,
    scale_joystick 1 x1 y1 = Some (mx1, my1) /\
    scale_joystick 1 x2 y2 = Some (mx2, my2) /\
    (deviates_more 3000 4095 ->
     Z.abs x1 <= Z.abs x2 /\ Z.abs mx1 <= Z.abs mx2) /\
    (deviates_more 1000 0 ->
     Z.abs y1 <= Z.abs y2 /\ Z.abs my1 <= Z.abs my2).
Proof.
  split; [unfold deviates_more, center, deadzone; lia|].
  split; [unfold deviates_more, center, deadzone; lia|].
  apply (C9_axis_monotonic 3000 1000 true 4095 0 true 1); lia.
Defined.

(** ** The scanner and the tokens of a line *)

Lemma space_not_digit c : isspace c = true -> isdigit c = false.
Proof.
  destruct c as [[] [] [] [] [] [] [] []]; cbv; congruence.
Qed.

Lemma minus_not_space c : Ascii.eqb c "-" = true -> isspace c = false.
Proof. intros H. apply Ascii.eqb_eq in H. subst. reflexivity. Qed.

Lemma plus_not_space c : Ascii.eqb c "+" = true -> isspace c = false.
Proof. intros H. apply Ascii.eqb_eq in H. subst. reflexivity. Qed.

Lemma take_drop_token s : s = take_token s ++ drop_token s.
Proof.
  induction s as [|c r IH]; [reflexivity|].
  cbn. destruct (isspace c); [reflexivity|]. cbn. f_equal. exact IH.
Qed.

Lemma drop_token_ends s : ends_token (drop_token s).
Proof.
  induction s as [|c r IH]; [exact I|].
  cbn. destruct (isspace c) eqn:E; [exact E | exact IH].
Qed.

Lemma drop_token_length s : (List.length (drop_token s) <= List.length s)%nat.
Proof.
  induction s as [|c r IH]; [apply le_n|].
  cbn. destruct (isspace c); cbn; lia.
Qed.

Lemma skip_space_length s : (List.length (skip_space s) <= List.length s)%nat.
Proof.
  induction s as [|c r IH]; [apply le_n|].
  cbn. destruct (isspace c); cbn; lia.
Qed.

Lemma skip_space_head s c r : skip_space s = c :: r -> isspace c = false.
Proof.
  induction s as [|d t IH]; [discriminate|].
  cbn. destruct (isspace d) eqn:E; [exact IH|].
  intros H. injection H as -> _. exact E.
Qed.

Lemma skip_space_idem s : skip_space (skip_space s) = skip_space s.
Proof.
  induction s as [|c r IH]; [reflexivity|].
  cbn. destruct (isspace c) eqn:E; [exact IH|]. cbn. rewrite E. reflexivity.
Qed.

Lemma split_space_token s :
  split_space s = (take_token s, tokens (drop_token s)).
Proof.
  induction s as [|c r IH]; [reflexivity|].
  cbn [split_space take_token drop_token]. rewrite IH.
  destruct (isspace c) eqn:E; [|reflexivity].
  unfold tokens at 2. cbn [split_space]. rewrite IH, E. reflexivity.
Qed.

Lemma tokens_skip_space s : tokens (skip_space s) = tokens s.
Proof.
  induction s as [|c r IH]; [reflexivity|].
  cbn [skip_space]. destruct (isspace c) eqn:E; [|reflexivity].
  rewrite IH. unfold tokens. cbn [split_space].
  destruct (split_space r) as [t ts]. rewrite E. reflexivity.
Qed.

Lemma tokens_cons c r :
  isspace c = false ->
  tokens (c :: r) = take_token (c :: r) :: tokens (drop_token (c :: r)).
Proof.
  intros E. unfold tokens at 1. rewrite split_space_token.
  cbn [take_token]. rewrite E. reflexivity.
Qed.

Lemma tokens_empty s : skip_space s = [] -> tokens s = [].
Proof. intros H. rewrite <- tokens_skip_space, H. reflexivity. Qed.

Lemma scan_digits_app ds : forall acc rest,
  forallb isdigit ds = true -> ends_token rest ->
  scan_digits acc (ds ++ rest) =
  (fold_left (fun a c => 10 * a + digit_value c) ds acc, rest).
Proof.
  induction ds as [|d ds IH]; intros acc rest Hd Hr.
  - cbn. destruct rest as [|c r]; [reflexivity|].
    cbn in Hr. cbn. rewrite (space_not_digit c Hr). reflexivity.
  - cbn in Hd. apply andb_true_iff in Hd as [Hd1 Hd2].
    cbn. rewrite Hd1. apply IH; assumption.
Qed.

(** A [%d] conversion at the start of an integer token consumes exactly
    the token and yields its value. *)
Lemma scan_int_token s c r :
  skip_space s = c :: r ->
  is_integer_token (take_token (c :: r)) = true ->
  scan_int s =
  Some (saturate_int (token_value (take_token (c :: r))), drop_token (c :: r)).
Proof.
  intros Hs Htok. pose proof (skip_space_head s c r Hs) as Hc.
  unfold scan_int. rewrite Hs.
  unfold is_integer_token, token_digits, token_sign, token_value in *.
  cbn [take_token drop_token] in *. rewrite Hc in *. cbn [tl] in *.
  pose proof (drop_token_ends r) as Hend.
  pose proof (take_drop_token r) as Hr.
  remember (drop_token r) as rest eqn:Hrest. clear Hrest.
  destruct (Ascii.eqb c "-") eqn:Em; [|destruct (Ascii.eqb c "+") eqn:Ep];
    cbn [orb] in *.
  - destruct (take_token r) as [|d ds] eqn:Et; [discriminate|].
    rewrite Hr. cbn [app]. pose proof Htok as Hd. cbn in Hd.
    apply andb_true_iff in Hd as [Hd _]. rewrite Hd.
    change (d :: ds ++ rest) with ((d :: ds) ++ rest).
    rewrite scan_digits_app by assumption. reflexivity.
  - destruct (take_token r) as [|d ds] eqn:Et; [discriminate|].
    rewrite Hr. cbn [app]. pose proof Htok as Hd. cbn in Hd.
    apply andb_true_iff in Hd as [Hd _]. rewrite Hd.
    change (d :: ds ++ rest) with ((d :: ds) ++ rest).
    rewrite scan_digits_app by assumption.
    unfold token_digits, token_sign. rewrite Em, Ep. reflexivity.
  - pose proof Htok as Hd. cbn in Hd.
    apply andb_true_iff in Hd as [Hd _]. rewrite Hd.
    remember (take_token r) as tok eqn:Htk. clear Htk.
    rewrite Hr.
    change (c :: tok ++ rest) with ((c :: tok) ++ rest).
    rewrite scan_digits_app by assumption.
    unfold token_digits, token_sign. rewrite Em, Ep. reflexivity.
Qed.

Lemma scan_int_end s : skip_space s = [] -> scan_int s = None.
Proof. intros H. unfold scan_int. rewrite H. reflexivity. Qed.

(** On a line made of integer tokens the conversions yield the values of
    the leading tokens, one token each. *)
Lemma scan_ints_tokens : forall k n s,
  (List.length s <= k)%nat ->
  forallb is_integer_token (tokens s) = true ->
  scan_ints n s = firstn n (map (fun t => saturate_int (token_value t)) (tokens s)).
Proof.
  induction k as [|k IH]; intros n s Hlen Htok.
  - destruct s; [|cbn in Hlen; lia]. destruct n; reflexivity.
  - destruct n as [|n]; [reflexivity|].
    cbn [scan_ints].
    destruct (skip_space s) as [|c r] eqn:Hs.
    + rewrite (scan_int_end s Hs), (tokens_empty s Hs). reflexivity.
    + pose proof (skip_space_head s c r Hs) as Hc.
      rewrite <- tokens_skip_space, Hs, (tokens_cons c r Hc) in Htok |- *.
      cbn [forallb] in Htok. apply andb_true_iff in Htok as [Ht Hts].
      rewrite (scan_int_token s c r Hs Ht).
      cbn [map firstn]. f_equal.
      rewrite <- (tokens_skip_space (drop_token (c :: r))) in Hts |- *.
      apply IH; [|exact Hts].
      pose proof (skip_space_length (drop_token (c :: r))).
      pose proof (skip_space_length s). rewrite Hs in *.
      cbn [drop_token] in *. rewrite Hc in *.
      pose proof (drop_token_length r). cbn [List.length] in *. lia.
Qed.

Lemma saturate_int_id z : is_int z -> saturate_int z = z.
Proof. unfold saturate_int, is_int. lia. Qed.

Lemma saturate_int_range z : is_int (saturate_int z).
Proof.
  unfold saturate_int, is_int, INT_MIN, INT_MAX.
  change (2 ^ 31) with 2147483648. lia.
Qed.

(** A line of exactly seven integer tokens passes the arity check of
    [sscanf], with the values of the tokens. *)
Lemma sscanf_seven_tokens line :
  spec_seven_integer_tokens line = true ->
  sscanf_7d line =
  (7, map (fun t => saturate_int (token_value t)) (tokens line)).
Proof.
  unfold spec_seven_integer_tokens. intros H.
  apply andb_true_iff in H as [Hn Ht]. apply Nat.eqb_eq in Hn.
  unfold sscanf_7d.
  rewrite (scan_ints_tokens (List.length line) 7 line (le_n _) Ht).
  rewrite firstn_all2 by (rewrite length_map; lia).
  destruct (tokens line) as [|t ts] eqn:E; [discriminate|].
  cbn [map]. rewrite length_cons, length_map.
  cbn [List.length] in Hn. injection Hn as Hn. rewrite Hn. reflexivity.
Qed.

(** ** The serial task *)

Lemma calc_sum_wraps btn x y wheel pan :
  int_add (int_add (int_add (int_add btn x) y) wheel) pan =
  to_int (btn + x + y + wheel + pan).
Proof.
  unfold int_add.
  rewrite (to_int_add_l (btn + x) y), (to_int_add_l (btn + x + y) wheel),
          (to_int_add_l (btn + x + y + wheel) pan).
  reflexivity.
Qed.

(** The result of [sscanf]: [EOF], or the number of values it lists. *)
Lemma sscanf_7d_count line :
  (fst (sscanf_7d line) = -1 /\ snd (sscanf_7d line) = []) \/
  (fst (sscanf_7d line) = Z.of_nat (List.length (snd (sscanf_7d line))) /\
   (List.length (snd (sscanf_7d line)) <= 7)%nat).
Proof.
  unfold sscanf_7d.
  assert (L : forall n s, (List.length (scan_ints n s) <= n)%nat).
  { induction n as [|n IH]; intros s; cbn; [lia|].
    destruct (scan_int s) as [[v rest]|]; cbn; [|lia].
    specialize (IH (skip_space rest)). lia. }
  specialize (L 7%nat line).
  destruct (scan_ints 7 line) as [|v vs] eqn:E.
  - destruct (skip_space line); [left | right]; cbn; split; (reflexivity || lia).
  - right. cbn [fst snd]. split; [reflexivity | exact L].
Qed.

Lemma sscanf_7d_seven line :
  fst (sscanf_7d line) = 7 ->
  exists head btn x y wheel pan sum,
    sscanf_7d line = (7, [head; btn; x; y; wheel; pan; sum]).
Proof.
  intros H. destruct (sscanf_7d_count line) as [[C _]|[C L]]; [lia|].
  destruct (sscanf_7d line) as [n vs]. cbn [fst snd] in *. subst n.
  destruct vs as [|a [|b [|c [|d [|e' [|f [|g [|h vs]]]]]]]];
    cbn [List.length] in *; try lia.
  now exists a, b, c, d, e', f, g.
Qed.

(** [cdc_task] on a non-empty FIFO, in terms of the line it received. *)
Lemma cdc_task_received s e :
  cdc_fifo e <> [] ->
  cdc_task s e =
  match sscanf_7d (received_line e) with
  | (7, [head; btn; x; y; wheel; pan; sum]) =>
      if (head =? 55) && (to_int (btn + x + y + wheel + pan) =? sum) then
        (set_cdc_command_time
           (set_mouse_cmd s (Cmd.mk (to_uint8 btn) (to_int8 x) (to_int8 y)
                                    (to_int8 wheel) (to_int8 pan) true))
           (to_uint32 (cdc_millis e)),
         Some ack_ok)
      else (s, Some ack_protocol_error)
  | _ => (s, Some ack_format_error)
  end.
Proof.
  intros Hne. unfold cdc_task, received_line.
  destruct (cdc_fifo e) as [|c r] eqn:Ef; [congruence|].
  unfold tud_cdc_read. cbn [fst].
  change (firstn 63 (c :: r)) with (c :: firstn 62 r).
  cbn [List.length]. rewrite Nat2Z.inj_succ.
  destruct (Z.gtb_spec (Z.succ (Z.of_nat (List.length (firstn 62 r)))) 0);
    [|lia].
  destruct (sscanf_7d _) as [n vs].
  repeat (match goal with
          | |- context [match ?v with _ => _ end] =>
              is_var v; destruct v; try reflexivity
          end).
  rewrite calc_sum_wraps. reflexivity.
Qed.

Lemma received_line_fifo e : received_line e <> [] -> cdc_fifo e <> [].
Proof.
  intros H E. apply H. unfold received_line. rewrite E. reflexivity.
Qed.

Lemma seven_tokens_nonempty line :
  spec_seven_integer_tokens line = true -> line <> [].
Proof. intros H E. subst. discriminate. Qed.

Lemma acks_distinct :
  ack_ok <> ack_protocol_error /\ ack_ok <> ack_format_error /\
  ack_protocol_error <> ack_format_error.
Proof. repeat split; discriminate. Qed.

(** A line of seven integer tokens, header 55, checksum the sum of the
    five fields (all values of type [int]) is accepted. *)
Lemma cdc_task_accepts_valid s e btn x y wheel pan sum :
  spec_seven_integer_tokens (received_line e) = true ->
  map token_value (tokens (received_line e)) =
    [55; btn; x; y; wheel; pan; sum] ->
  is_int btn -> is_int x -> is_int y -> is_int wheel -> is_int pan ->
  is_int sum ->
  sum = btn + x + y + wheel + pan ->
  cdc_task s e =
  (set_cdc_command_time
     (set_mouse_cmd s (Cmd.mk (to_uint8 btn) (to_int8 x) (to_int8 y)
                              (to_int8 wheel) (to_int8 pan) true))
     (to_uint32 (cdc_millis e)),
   Some ack_ok).
Proof.
  intros Hseven Hvals Hb Hx Hy Hw Hp Hs Hsum.
  rewrite cdc_task_received
    by (apply received_line_fifo, seven_tokens_nonempty, Hseven).
  rewrite (sscanf_seven_tokens _ Hseven).
  rewrite <- (map_map token_value saturate_int), Hvals.
  cbn [map].
  rewrite !saturate_int_id by (assumption || int_range).
  rewrite <- Hsum, (to_int_id sum Hs), !Z.eqb_refl. reflexivity.
Qed.

(** C1.  A received line of exactly seven white-space separated decimal
    integers (each a value of type [int]) with header 55 and checksum equal
    to the sum of the five payload fields is accepted: the answer is "ok"
    and the pending command holds the button field truncated to 8 unsigned
    bits and dx, dy, wheel, pan truncated to 8 signed bits (the time of
    the command is recorded too).  The line "55 1 10 -5 0 0 6" gives the
    command (1, 10, -5, 0, 0). *)
Theorem C1_valid_line_accepted :
  (forall s e btn x y wheel pan sum,
      spec_seven_integer_tokens (received_line e) = true ->
      map token_value (tokens (received_line e)) =
        [55; btn; x; y; wheel; pan; sum] ->
      is_int btn -> is_int x -> is_int y -> is_int wheel -> is_int pan ->
      is_int sum ->
      sum = btn + x + y + wheel + pan ->
      cdc_task s e =
      (set_cdc_command_time
         (set_mouse_cmd s (Cmd.mk (to_uint8 btn) (to_int8 x) (to_int8 y)
                                  (to_int8 wheel) (to_int8 pan) true))
         (to_uint32 (cdc_millis e)),
       Some ack_ok)) /\
  (forall s now,
      let r := cdc_task s (mkCdcEnv (list_ascii_of_string "55 1 10 -5 0 0 6") now) in
      snd r = Some ack_ok /\
      mouse_cmd (fst r) = Cmd.mk 1 10 (-5) 0 0 true).
Proof.
  split; [exact cdc_task_accepts_valid|].
  intros s now.
  rewrite (cdc_task_accepts_valid s _ 1 10 (-5) 0 0 6);
    try reflexivity; try int_range.
  split; reflexivity.
Qed.

(** A line ends with a newline on the wire; the newline is white space
    for [sscanf] and for the tokens alike. *)
Example newline_terminated_line_accepted :
  cdc_task initial_state
    (mkCdcEnv (list_ascii_of_string ("55 1 10 -5 0 0 6" ++ newline)) 42) =
  (mkState (Cmd.mk 1 10 (-5) 0 0 true) 42 2 0 0 0 false, Some ack_ok).
Proof.
  rewrite (cdc_task_accepts_valid initial_state _ 1 10 (-5) 0 0 6);
    try reflexivity; int_range.
Qed.

Lemma C1_valid_line_accepted_witness :
  cdc_task initial_state
           (mkCdcEnv (list_ascii_of_string "55 300 -200 127 -128 0 99") 1234) =
  (mkState (Cmd.mk 44 56 127 (-128) 0 true) 1234 2 0 0 0 false, Some ack_ok).
Proof.
  rewrite (proj1 C1_valid_line_accepted initial_state _ 300 (-200) 127 (-128) 0 99);
    try reflexivity; int_range.
Defined.

(** Only the answer "ok" goes with a change of the state. *)
Lemma cdc_task_rejects s e :
  snd (cdc_task s e) <> Some ack_ok -> fst (cdc_task s e) = s.
Proof.
  intros H. destruct (cdc_fifo e) as [|c r] eqn:Ef.
  - unfold cdc_task. rewrite Ef. reflexivity.
  - assert (Hne : cdc_fifo e <> []) by congruence.
    rewrite (cdc_task_received s e Hne) in *.
    destruct (sscanf_7d (received_line e)) as [n vs].
    repeat (match goal with
            | |- context [match ?v with _ => _ end] =>
                is_var v; destruct v; try reflexivity
            end).
    destruct ((z =? 55) && (to_int (z0 + z1 + z2 + z3 + z4) =? z5));
      [cbn in H; congruence | reflexivity].
Qed.

Lemma hid_task_command_time s e s' out :
  hid_task s e = Some (s', out) ->
  cdc_command_time s' = cdc_command_time s.
Proof.
  unfold hid_task, hid_task_command, hid_task_joystick, sensitivity_update.
  intros H.
  repeat match type of H with
         | context [if ?c then _ else _] => destruct c
         | context [match ?c with _ => _ end] => destruct c
         | Some _ = Some _ => injection H as <- <-
         | None = Some _ => discriminate H
         end; reflexivity.
Qed.

(** C8.  A serial line that is not answered with "ok" (so every line
    answered with "format error" or "protocol error") leaves the whole
    state as it was: the pending command with its fields and the timestamp
    of the arbitration window; the timestamp changes in [cdc_task] on
    acceptance only and never in [hid_task].  The line "55 1 10 -5 0 0 7"
    is answered with "protocol error" and the state is unchanged. *)
Theorem C8_rejected_line_keeps_state :
  (forall s e a,
      snd (cdc_task s e) = Some a ->
      a = ack_format_error \/ a = ack_protocol_error ->
      fst (cdc_task s e) = s) /\
  (forall s e,
      cdc_command_time (fst (cdc_task s e)) <> cdc_command_time s ->
      snd (cdc_task s e) = Some ack_ok) /\
  (forall s e s' out,
      hid_task s e = Some (s', out) ->
      cdc_command_time s' = cdc_command_time s) /\
  (forall s now,
      cdc_task s (mkCdcEnv (list_ascii_of_string "55 1 10 -5 0 0 7") now) =
      (s, Some ack_protocol_error)).
Proof.
  split; [|split; [|split]].
  - intros s e a Ha Hrej. apply cdc_task_rejects. rewrite Ha.
    destruct acks_distinct as (A1 & A2 & _).
    destruct Hrej as [-> | ->]; congruence.
  - intros s e Hch.
    assert (D : {snd (cdc_task s e) = Some ack_ok} +
                {snd (cdc_task s e) <> Some ack_ok})
      by (repeat decide equality).
    destruct D as [E|E]; [exact E|].
    exfalso. apply Hch. rewrite (cdc_task_rejects s e E). reflexivity.
  - exact hid_task_command_time.
  - intros s now. rewrite cdc_task_received by discriminate.
    reflexivity.
Qed.

Lemma C8_rejected_line_keeps_state_witness :
  fst (cdc_task initial_state
         (mkCdcEnv (list_ascii_of_string "54 1 10 -5 0 0 6") 77)) =
    initial_state /\
  fst (cdc_task initial_state
         (mkCdcEnv (list_ascii_of_string "55 1 10 -5 0 zero") 77)) =
    initial_state.
Proof.
  split.
  - apply (proj1 C8_rejected_line_keeps_state initial_state _ ack_protocol_error);
      [reflexivity | right; reflexivity].
  - apply (proj1 C8_rejected_line_keeps_state initial_state _ ack_format_error);
      [reflexivity | left; reflexivity].
Defined.

(** C7, as the specification states it, fails: a line with an eighth token
    does not consist of exactly seven integer tokens, yet it is not
    answered with "format error" but accepted. *)
Lemma C7_counterexample :
  let e := mkCdcEnv (list_ascii_of_string "55 1 10 -5 0 0 6 99") 0 in
  spec_seven_integer_tokens (received_line e) = false /\
  snd (cdc_task initial_state e) = Some ack_ok /\
  snd (cdc_task initial_state e) <> Some ack_format_error.
Proof.
  cbv zeta. split; [reflexivity|].
  rewrite cdc_task_received by discriminate.
  split; [reflexivity | discriminate].
Qed.

(** C7, amended.  On a non-empty read, "format error" is the answer exactly
    when [sscanf] converts fewer than seven integers from the start of the
    line (what follows the seventh is not looked at), and "protocol error"
    exactly when it converts seven and the header is not 55 or the checksum
    differs from the sum of the five payload fields in 32-bit [int]
    arithmetic.  A line of exactly seven integer tokens is never answered
    with "format error". *)
Theorem C7_error_answers :
  forall s e,
    cdc_fifo e <> [] ->
    (snd (cdc_task s e) = Some ack_format_error <->
     fst (sscanf_7d (received_line e)) <> 7) /\
    (snd (cdc_task s e) = Some ack_protocol_error <->
     exists head btn x y wheel pan sum,
       sscanf_7d (received_line e) = (7, [head; btn; x; y; wheel; pan; sum]) /\
       (head <> 55 \/ to_int (btn + x + y + wheel + pan) <> sum)) /\
    (spec_seven_integer_tokens (received_line e) = true ->
     snd (cdc_task s e) <> Some ack_format_error).
Proof.
  intros s e Hne. rewrite (cdc_task_received s e Hne).
  destruct acks_distinct as (A1 & A2 & A3).
  assert (Seven : fst (sscanf_7d (received_line e)) = 7 ->
                  forall P : Prop,
                    (forall head btn x y wheel pan sum,
                        sscanf_7d (received_line e) =
                          (7, [head; btn; x; y; wheel; pan; sum]) -> P) -> P).
  { intros H P K. destruct (sscanf_7d_seven _ H) as (h & b & x & y & w & p & c & E).
    exact (K _ _ _ _ _ _ _ E). }
  assert (Other : fst (sscanf_7d (received_line e)) <> 7 ->
                  match sscanf_7d (received_line e) with
                  | (7, [head; btn; x; y; wheel; pan; sum]) =>
                      if (head =? 55) && (to_int (btn + x + y + wheel + pan) =? sum)
                      then (set_cdc_command_time
                              (set_mouse_cmd s
                                 (Cmd.mk (to_uint8 btn) (to_int8 x) (to_int8 y)
                                         (to_int8 wheel) (to_int8 pan) true))
                              (to_uint32 (cdc_millis e)), Some ack_ok)
                      else (s, Some ack_protocol_error)
                  | _ => (s, Some ack_format_error)
                  end = (s, Some ack_format_error)).
  { intros H. destruct (sscanf_7d (received_line e)) as [n vs].
    cbn [fst] in H.
    repeat (match goal with
            | |- context [match ?v with _ => _ end] =>
                is_var v; destruct v; try reflexivity
            end).
    congruence. }
  destruct (Z.eq_dec (fst (sscanf_7d (received_line e))) 7) as [E7|N7].
  - apply (Seven E7). intros h b x y w p c E. rewrite E. cbn [fst].
    destruct (Z.eqb_spec h 55) as [Hh|Hh];
      destruct (Z.eqb_spec (to_int (b + x + y + w + p)) c) as [Hc|Hc];
      cbn [andb snd].
    + split; [|split].
      * split; [congruence | intros H; congruence].
      * split; [congruence|].
        intros (h' & b' & x' & y' & w' & p' & c' & E' & [H|H]);
          injection E' as <- <- <- <- <- <- <-; congruence.
      * intros _. congruence.
    + split; [|split].
      * split; [congruence | intros H; congruence].
      * split; [|reflexivity]. intros _.
        exists h, b, x, y, w, p, c. split; [reflexivity | right; exact Hc].
      * intros _. congruence.
    + split; [|split].
      * split; [congruence | intros H; congruence].
      * split; [|reflexivity]. intros _.
        exists h, b, x, y, w, p, c. split; [reflexivity | left; exact Hh].
      * intros _. congruence.
    + split; [|split].
      * split; [congruence | intros H; congruence].
      * split; [|reflexivity]. intros _.
        exists h, b, x, y, w, p, c. split; [reflexivity | left; exact Hh].
      * intros _. congruence.
  - rewrite (Other N7). cbn [snd]. split; [|split].
    + split; [intros _; exact N7 | reflexivity].
    + split; [congruence|].
      intros (h & b & x & y & w & p & c & E & _). rewrite E in N7.
      cbn in N7. congruence.
    + intros Hseven. rewrite (sscanf_seven_tokens _ Hseven) in N7.
      cbn in N7. congruence.
Qed.

Lemma C7_error_answers_witness :
  let e := mkCdcEnv (list_ascii_of_string "55 1 10 -5 0 0 7") 0 in
  (snd (cdc_task initial_state e) = Some ack_format_error <->
   fst (sscanf_7d (received_line e)) <> 7) /\
  (snd (cdc_task initial_state e) = Some ack_protocol_error <->
   exists head btn x y wheel pan sum,
     sscanf_7d (received_line e) = (7, [head; btn; x; y; wheel; pan; sum]) /\
     (head <> 55 \/ to_int (btn + x + y + wheel + pan) <> sum)) /\
  (spec_seven_integer_tokens (received_line e) = true ->
   snd (cdc_task initial_state e) <> Some ack_format_error).
Proof.
  apply (C7_error_answers initial_state
           (mkCdcEnv (list_ascii_of_string "55 1 10 -5 0 0 7") 0)).
  discriminate.
Defined.

(** ** The jitter of command reports *)

(** The constant is a normal binary64 number within half a unit in the
    last place of 3/100. *)
Lemma double_0_03_nearest :
  exists m,
    double_0_03 = S754_finite false m (-58) /\
    2 ^ 52 <= Zpos m < 2 ^ 53 /\
    Z.abs (100 * Zpos m - 3 * 2 ^ 58) <= 50.
Proof.
  eexists. split; [reflexivity|].
  split; [split|]; vm_compute; congruence.
Qed.

Lemma int8_values_complete x : is_int8 x -> In x int8_values.
Proof.
  unfold is_int8, int8_values. intros H.
  apply in_map_iff. exists (Z.to_nat (x + 128)). split; [lia|].
  apply in_seq. lia.
Qed.

Lemma jitter_agrees_all :
  forallb (fun k => forallb (jitter_agrees k) int8_values) [-1; 0; 1] = true.
Proof. vm_compute. reflexivity. Qed.

Lemma jitter_closed_form r x :
  is_int8 x -> jitter r x = Some (jitter_truncated (Z.rem r 2) x).
Proof.
  intros Hx.
  assert (Hk : In (Z.rem r 2) [-1; 0; 1]).
  { destruct (Z_le_gt_dec 0 r).
    - pose proof (Z.rem_bound_pos r 2). cbn. lia.
    - pose proof (Z.rem_bound_pos (- r) 2). rewrite Z.rem_opp_l in * by lia.
      cbn. lia. }
  pose proof jitter_agrees_all as A.
  rewrite forallb_forall in A. specialize (A _ Hk).
  rewrite forallb_forall in A. specialize (A _ (int8_values_complete x Hx)).
  unfold jitter, int_sub, int_rem.
  rewrite (to_int_id (Z.rem r 2 - 2)) by (cbn in Hk; int_range).
  unfold jitter_agrees in A.
  destruct (double_to_int8 _) as [v|]; [|discriminate].
  apply Z.eqb_eq in A. congruence.
Qed.

Lemma jitter_truncated_range k x :
  -1 <= k <= 1 -> is_int8 x -> -6 <= jitter_truncated k x <= 2.
Proof.
  unfold is_int8, jitter_truncated. intros Hk Hx.
  destruct (Z_le_gt_dec 0 (100 * (k - 2) + 3 * x)).
  - pose proof (quot_bounds_pos (100 * (k - 2) + 3 * x) 100). lia.
  - pose proof (quot_bounds_neg (100 * (k - 2) + 3 * x) 100). lia.
Qed.

(** ** The reporting task *)

Lemma hid_task_reporting s e :
  reporting_tick s e ->
  hid_task s e =
  if Cmd.has_data (mouse_cmd s) then
    hid_task_command (after_interval s) (hid_rand_x e) (hid_rand_y e)
  else if u32_sub (to_uint32 (hid_millis e)) (cdc_command_time s)
            <? CDC_BLOCK_TIMEOUT then
    Some (after_interval s, None)
  else
    hid_task_joystick (after_interval s) (to_uint32 (hid_millis e))
                      (hid_adc_x e) (hid_adc_y e) (hid_gpio e).
Proof.
  intros [Hg Hr]. unfold hid_task.
  destruct (Z.ltb_spec (u32_sub (to_uint32 (hid_millis_poll e)) (start_ms s)) 1);
    [lia|].
  rewrite Hr. reflexivity.
Qed.

(** C6, as the specification states it, fails: with the command of the
    line "55 1 10 -5 0 0 6" pending and both pseudorandom values even, the
    report carries dx = 9 and dy = -7, where the stated formula
    [r - 2 + floor(delta * 0.03)] gives 10 - 2 + 0 = 8 and -5 - 2 - 1 = -8. *)
Lemma C6_counterexample :
  let s := fst (cdc_task initial_state
                  (mkCdcEnv (list_ascii_of_string "55 1 10 -5 0 0 6") 0)) in
  let e := mkHidEnv 1 true 0 0 1 2048 2048 true in
  exists s' r,
    hid_task s e = Some (s', Some r) /\
    r = mkReport 1 9 (-7) 0 0 /\
    report_x r <> Cmd.x (mouse_cmd s) + spec_jitter (Z.rem 0 2) (Cmd.x (mouse_cmd s)) /\
    report_y r <> Cmd.y (mouse_cmd s) + spec_jitter (Z.rem 0 2) (Cmd.y (mouse_cmd s)).
Proof.
  cbv zeta. eexists. eexists. split; [vm_compute; reflexivity|].
  split; [reflexivity|]. split; vm_compute; discriminate.
Qed.

(** C6, amended.  On a reporting tick with a command pending, the report
    passes buttons, wheel and pan through unchanged and clears the pending
    flag; the jitter added to dx is the sum [r - 2 + dx * 0.03] truncated
    toward zero as a whole, with [r] in {0, 1} the parity of the first
    pseudorandom number, and likewise for dy with the second one; the
    report carries dx plus its jitter whenever that fits 8 signed bits. *)
Theorem C6_command_jitter :
  forall s e,
    wf_cmd (mouse_cmd s) ->
    Cmd.has_data (mouse_cmd s) = true ->
    reporting_tick s e ->
    0 <= hid_rand_x e -> 0 <= hid_rand_y e ->
    let c := mouse_cmd s in
    let rx := hid_rand_x e mod 2 in
    let ry := hid_rand_y e mod 2 in
    let jx := Z.quot (100 * (rx - 2) + 3 * Cmd.x c) 100 in
    let jy := Z.quot (100 * (ry - 2) + 3 * Cmd.y c) 100 in
    0 <= rx <= 1 /\ 0 <= ry <= 1 /\
    jitter (hid_rand_x e) (Cmd.x c) = Some jx /\
    jitter (hid_rand_y e) (Cmd.y c) = Some jy /\
    exists s' r,
      hid_task s e = Some (s', Some r) /\
      Cmd.has_data (mouse_cmd s') = false /\
      report_buttons r = Cmd.buttons c /\
      report_wheel r = Cmd.wheel c /\
      report_pan r = Cmd.pan c /\
      (is_int8 (Cmd.x c + jx) -> report_x r = Cmd.x c + jx) /\
      (is_int8 (Cmd.y c + jy) -> report_y r = Cmd.y c + jy).
Proof.
  intros s e (Wb & Wx & Wy & Ww & Wp) Hd Ht Hrx Hry. cbv zeta.
  pose proof (Z.mod_pos_bound (hid_rand_x e) 2) as Bx.
  pose proof (Z.mod_pos_bound (hid_rand_y e) 2) as By.
  assert (Ex : Z.rem (hid_rand_x e) 2 = hid_rand_x e mod 2)
    by (apply Z.rem_mod_nonneg; lia).
  assert (Ey : Z.rem (hid_rand_y e) 2 = hid_rand_y e mod 2)
    by (apply Z.rem_mod_nonneg; lia).
  pose proof (jitter_closed_form (hid_rand_x e) _ Wx) as Jx.
  pose proof (jitter_closed_form (hid_rand_y e) _ Wy) as Jy.
  unfold jitter_truncated in Jx, Jy. rewrite Ex in Jx. rewrite Ey in Jy.
  split; [lia|]. split; [lia|]. split; [exact Jx|]. split; [exact Jy|].
  rewrite (hid_task_reporting s e Ht), Hd.
  unfold hid_task_command. change (mouse_cmd (after_interval s)) with (mouse_cmd s).
  rewrite Jx, Jy.
  eexists. eexists. split; [reflexivity|].
  cbn [report_buttons report_wheel report_pan report_x report_y].
  split; [reflexivity|]. split; [reflexivity|]. split; [reflexivity|].
  split; [reflexivity|].
  pose proof (jitter_truncated_range (hid_rand_x e mod 2) (Cmd.x (mouse_cmd s))) as Rx.
  pose proof (jitter_truncated_range (hid_rand_y e mod 2) (Cmd.y (mouse_cmd s))) as Ry.
  unfold jitter_truncated in Rx, Ry. unfold is_int8 in *.
  split; intros H; unfold int_add;
    (rewrite to_int_id by int_range);
    apply to_int8_id; exact H.
Qed.

Lemma C6_command_jitter_witness :
  let s := mkState (Cmd.mk 1 100 (-34) 3 (-3) true) 0 2 0 0 0 false in
  let e := mkHidEnv 1 true 7 4 1 2048 2048 true in
  let c := mouse_cmd s in
  let rx := hid_rand_x e mod 2 in
  let ry := hid_rand_y e mod 2 in
  let jx := Z.quot (100 * (rx - 2) + 3 * Cmd.x c) 100 in
  let jy := Z.quot (100 * (ry - 2) + 3 * Cmd.y c) 100 in
  0 <= rx <= 1 /\ 0 <= ry <= 1 /\
  jitter (hid_rand_x e) (Cmd.x c) = Some jx /\
  jitter (hid_rand_y e) (Cmd.y c) = Some jy /\
  exists s' r,
    hid_task s e = Some (s', Some r) /\
    Cmd.has_data (mouse_cmd s') = false /\
    report_buttons r = Cmd.buttons c /\
    report_wheel r = Cmd.wheel c /\
    report_pan r = Cmd.pan c /\
    (is_int8 (Cmd.x c + jx) -> report_x r = Cmd.x c + jx) /\
    (is_int8 (Cmd.y c + jy) -> report_y r = Cmd.y c + jy).
Proof.
  apply (C6_command_jitter
           (mkState (Cmd.mk 1 100 (-34) 3 (-3) true) 0 2 0 0 0 false)
           (mkHidEnv 1 true 7 4 1 2048 2048 true)).
  - unfold wf_cmd, is_uint8, is_int8; cbn; lia.
  - reflexivity.
  - unfold reporting_tick; cbn; split; [lia | reflexivity].
  - cbn; lia.
  - cbn; lia.
Defined.

(** ** Invariants of the two tasks *)

Lemma read_joystick_button x_raw y_raw gpio :
  snd (read_joystick x_raw y_raw gpio) = button_of gpio.
Proof. unfold read_joystick. destruct gpio; reflexivity. Qed.

(** With a level in the table, the joystick path is defined: it performs
    the long-press update and sends at most one report. *)
Lemma hid_task_joystick_runs s t x_raw y_raw gpio :
  1 <= sensitivity_level s <= 3 ->
  exists out,
    hid_task_joystick s t x_raw y_raw gpio =
    Some (sensitivity_update s t (button_of gpio), out).
Proof.
  intros Hl. unfold hid_task_joystick.
  pose proof (read_joystick_range x_raw y_raw gpio) as R.
  pose proof (read_joystick_button x_raw y_raw gpio) as B.
  destruct (read_joystick x_raw y_raw gpio) as [[jx jy] b].
  cbn [snd] in B. subst b. destruct R as (Rx & Ry & _).
  rewrite scale_joystick_spec
    by (try apply sensitivity_update_level; try assumption;
        unfold is_int8; lia).
  destruct (negb (_ =? 0) || negb (_ =? 0)); [eexists; reflexivity|].
  destruct (negb (button_of gpio =? 0) && _); eexists; reflexivity.
Qed.

(** The four ways a call of [hid_task] can go. *)
Lemma hid_task_cases s e :
  1 <= sensitivity_level s <= 3 -> wf_cmd (mouse_cmd s) ->
  hid_task s e = Some (s, None) \/
  hid_task s e = Some (after_interval s, None) \/
  (Cmd.has_data (mouse_cmd s) = true /\
   exists r, hid_task s e = Some (clear_pending (after_interval s), Some r)) \/
  (Cmd.has_data (mouse_cmd s) = false /\
   exists out,
     hid_task s e =
     Some (sensitivity_update (after_interval s) (to_uint32 (hid_millis e))
                              (button_of (hid_gpio e)), out)).
Proof.
  intros Hl (Wb & Wx & Wy & Ww & Wp). unfold hid_task.
  destruct (_ <? 1); [left; reflexivity|].
  fold (after_interval s).
  destruct (hid_ready e); cbn [negb]; [|right; left; reflexivity].
  change (mouse_cmd (after_interval s)) with (mouse_cmd s).
  change (cdc_command_time (after_interval s)) with (cdc_command_time s).
  destruct (Cmd.has_data (mouse_cmd s)) eqn:Hd.
  - right; right; left. split; [reflexivity|].
    unfold hid_task_command.
    change (mouse_cmd (after_interval s)) with (mouse_cmd s).
    rewrite (jitter_closed_form _ _ Wx), (jitter_closed_form _ _ Wy).
    eexists. reflexivity.
  - destruct (_ <? CDC_BLOCK_TIMEOUT); [right; left; reflexivity|].
    right; right; right. split; [reflexivity|].
    apply hid_task_joystick_runs. exact Hl.
Qed.

Ltac wf_fields :=
  unfold wf_state, wf_cmd; cbn;
  repeat match goal with
         | |- _ /\ _ => split
         end;
  first [ assumption | apply to_uint32_range | apply to_uint8_range
        | apply to_int8_range | lia ].

Lemma wf_after_interval s : wf_state s -> wf_state (after_interval s).
Proof.
  intros (Wc & Wt & Wl & Ws & Wp). unfold after_interval.
  destruct Wc as (Fb & Fx & Fy & Fw & Fp). wf_fields.
Qed.

Lemma wf_sensitivity_update s t b :
  is_uint32 t -> wf_state s -> wf_state (sensitivity_update s t b).
Proof.
  intros Ht (Wc & Wt & Wl & Ws & Wp).
  pose proof (sensitivity_update_level s t b Wl) as L.
  unfold wf_state. split; [|split; [|split; [exact L|split]]];
    unfold sensitivity_update;
    repeat match goal with
           | |- context [if ?c then _ else _] => destruct c
           end; cbn; assumption.
Qed.

Lemma wf_hid_task s e s' out :
  wf_state s -> hid_task s e = Some (s', out) -> wf_state s'.
Proof.
  intros W H. pose proof W as (Wc & Wt & Wl & Ws & Wp).
  destruct (hid_task_cases s e Wl Wc)
    as [E | [E | [[_ [r E]] | [_ [o E]]]]];
    rewrite E in H; injection H as <- _.
  - exact W.
  - apply wf_after_interval, W.
  - pose proof (wf_after_interval s W) as (Wc' & Wt' & Wl' & Ws' & Wp').
    destruct Wc' as (Fb & Fx & Fy & Fw & Fp).
    unfold clear_pending. wf_fields.
  - apply wf_sensitivity_update; [apply to_uint32_range|].
    apply wf_after_interval, W.
Qed.

Lemma hid_task_total s e :
  wf_state s -> exists s' out, hid_task s e = Some (s', out).
Proof.
  intros (Wc & Wt & Wl & Ws & Wp).
  destruct (hid_task_cases s e Wl Wc)
    as [E | [E | [[_ [r E]] | [_ [o E]]]]]; rewrite E; eauto.
Qed.

Lemma wf_cdc_task s e : wf_state s -> wf_state (fst (cdc_task s e)).
Proof.
  intros W. destruct (cdc_fifo e) as [|c r] eqn:Ef.
  - unfold cdc_task. rewrite Ef. exact W.
  - rewrite cdc_task_received by congruence.
    destruct (sscanf_7d (received_line e)) as [n vs].
    repeat (match goal with
            | |- context [match ?v with _ => _ end] =>
                is_var v; destruct v; try exact W
            end).
    destruct (_ && _); [|exact W].
    destruct W as (Wc & Wt & Wl & Ws & Wp). wf_fields.
Qed.

Lemma wf_initial_state : wf_state initial_state.
Proof.
  unfold wf_state, wf_cmd, is_uint8, is_int8, is_uint32. cbn. lia.
Qed.

Lemma wf_step s ev :
  wf_state s -> exists s' out, step s ev = Some (s', out) /\ wf_state s'.
Proof.
  intros W. destruct ev as [e|e]; cbn [step].
  - destruct (hid_task_total s e W) as (s' & out & E). rewrite E.
    pose proof (wf_hid_task s e s' out W E).
    destruct out; eauto.
  - pose proof (wf_cdc_task s e W).
    destruct (cdc_task s e) as [s' [a|]]; eauto.
Qed.

(** From a well-formed state every run is defined and ends in a
    well-formed state. *)
Lemma wf_run evs : forall s,
  wf_state s -> exists s' out, run s evs = Some (s', out) /\ wf_state s'.
Proof.
  induction evs as [|ev evs IH]; intros s W; cbn [run].
  - eauto.
  - destruct (wf_step s ev W) as (s1 & o1 & E1 & W1). rewrite E1.
    destruct (IH s1 W1) as (s2 & o2 & E2 & W2). rewrite E2. eauto.
Qed.

(** ** The arbitration window *)

Lemma cdc_task_ack_indep s1 s2 e : snd (cdc_task s1 e) = snd (cdc_task s2 e).
Proof.
  destruct (cdc_fifo e) as [|c r] eqn:Ef.
  - unfold cdc_task. rewrite Ef. reflexivity.
  - rewrite !cdc_task_received by congruence.
    destruct (sscanf_7d (received_line e)) as [n vs].
    repeat (match goal with
            | |- context [match ?v with _ => _ end] =>
                is_var v; destruct v; try reflexivity
            end).
    destruct (_ && _); reflexivity.
Qed.

Lemma cdc_no_accept s e : cdc_accepts e = false -> fst (cdc_task s e) = s.
Proof.
  unfold cdc_accepts. intros H. apply cdc_task_rejects.
  rewrite (cdc_task_ack_indep s initial_state e).
  destruct (snd (cdc_task initial_state e)) as [a|]; [|discriminate].
  intros E. injection E as ->. rewrite String.eqb_refl in H. discriminate.
Qed.

(** An accepted command is stored with the pending flag set and the time
    of the poll. *)
Lemma cdc_accept s e :
  cdc_accepts e = true ->
  exists c,
    cdc_task s e =
      (set_cdc_command_time (set_mouse_cmd s c) (to_uint32 (cdc_millis e)),
       Some ack_ok) /\
    Cmd.has_data c = true /\ wf_cmd c.
Proof.
  unfold cdc_accepts. rewrite (cdc_task_ack_indep initial_state s e).
  destruct (cdc_fifo e) as [|c r] eqn:Ef.
  - unfold cdc_task. rewrite Ef. discriminate.
  - rewrite cdc_task_received by congruence.
    destruct (sscanf_7d (received_line e)) as [n vs].
    repeat (match goal with
            | |- context [match ?v with _ => _ end] =>
                is_var v; destruct v; try discriminate
            end).
    destruct (_ && _); [|discriminate]. intros _.
    eexists. split; [reflexivity|]. split; [reflexivity|].
    unfold wf_cmd. cbn.
    repeat split; try apply to_uint8_range; apply to_int8_range.
Qed.

Lemma hid_task_pending s e s' out :
  hid_task s e = Some (s', out) ->
  Cmd.has_data (mouse_cmd s) = false ->
  Cmd.has_data (mouse_cmd s') = false.
Proof.
  unfold hid_task, hid_task_command, hid_task_joystick, sensitivity_update.
  intros H Hd.
  repeat match type of H with
         | context [if ?c then _ else _] => destruct c
         | context [match ?c with _ => _ end] => destruct c
         | Some _ = Some _ => injection H as <- <-
         | None = Some _ => discriminate H
         end; try exact Hd; reflexivity.
Qed.

(** While no command is accepted the time of the last command stays, and
    no command becomes pending. *)
Lemma run_no_accept evs : forall s s' outs,
  Forall no_accept evs ->
  run s evs = Some (s', outs) ->
  cdc_command_time s' = cdc_command_time s /\
  (Cmd.has_data (mouse_cmd s) = false -> Cmd.has_data (mouse_cmd s') = false).
Proof.
  induction evs as [|ev evs IH]; intros s s' outs Hall Hrun.
  - cbn in Hrun. injection Hrun as <- _. split; [reflexivity | trivial].
  - inversion Hall as [|? ? Hev Hrest]; subst.
    cbn [run] in Hrun.
    destruct (step s ev) as [[s1 o1]|] eqn:Es; [|discriminate].
    destruct (run s1 evs) as [[s2 o2]|] eqn:Er; [|discriminate].
    injection Hrun as <- _.
    destruct (IH s1 s2 o2 Hrest Er) as [Ht Hp].
    assert (S1 : cdc_command_time s1 = cdc_command_time s /\
                 (Cmd.has_data (mouse_cmd s) = false ->
                  Cmd.has_data (mouse_cmd s1) = false)).
    { destruct ev as [e|e]; cbn [step no_accept] in *.
      - destruct (hid_task s e) as [[s1' [r|]]|] eqn:Eh; try discriminate;
          injection Es as <- _;
          (split; [exact (hid_task_command_time _ _ _ _ Eh)
                  | exact (hid_task_pending _ _ _ _ Eh)]).
      - pose proof (cdc_no_accept s e Hev) as Hs.
        destruct (cdc_task s e) as [s1' [a|]]; cbn [fst] in Hs;
          injection Es as <- _; subst; (split; [reflexivity | trivial]). }
    destruct S1 as [Ht1 Hp1]. split; [congruence | auto].
Qed.

(** C2.  After a command is accepted at time [T] and for as long as no
    further command is accepted, the recorded time stays [T], and on every
    reporting tick read at time [now]: a pending command is sent as a
    report whatever the time; with nothing pending and [now - T < 500]
    nothing is sent and nothing but the timer [start_ms] changes (no
    movement, no click, no long-press processing); with nothing pending
    and [now - T >= 500] the joystick path runs: the long-press update is
    made and the result is that of [hid_task_joystick].  The difference is
    taken on 32 unsigned bits and is the plain difference when
    [T <= now]. *)
Theorem C2_arbitration_window :
  forall s0 e0 evs s outs,
    wf_state s0 ->
    cdc_accepts e0 = true ->
    Forall no_accept evs ->
    run (fst (cdc_task s0 e0)) evs = Some (s, outs) ->
    let T := to_uint32 (cdc_millis e0) in
    cdc_command_time s = T /\
    forall e,
      reporting_tick s e ->
      let now := to_uint32 (hid_millis e) in
      (T <= now -> u32_sub now T = now - T) /\
      (Cmd.has_data (mouse_cmd s) = true ->
       exists r,
         hid_task s e = Some (clear_pending (after_interval s), Some r) /\
         report_buttons r = Cmd.buttons (mouse_cmd s) /\
         report_wheel r = Cmd.wheel (mouse_cmd s) /\
         report_pan r = Cmd.pan (mouse_cmd s)) /\
      (Cmd.has_data (mouse_cmd s) = false ->
       u32_sub now T < 500 ->
       hid_task s e = Some (after_interval s, None)) /\
      (Cmd.has_data (mouse_cmd s) = false ->
       500 <= u32_sub now T ->
       hid_task s e =
         hid_task_joystick (after_interval s) now (hid_adc_x e) (hid_adc_y e)
                           (hid_gpio e) /\
       exists out,
         hid_task s e =
         Some (sensitivity_update (after_interval s) now (button_of (hid_gpio e)),
               out)).
Proof.
  intros s0 e0 evs s outs W0 Hacc Hall Hrun. cbv zeta.
  destruct (cdc_accept s0 e0 Hacc) as (c & Ec & Hc & Wc).
  pose proof (wf_cdc_task s0 e0 W0) as W1.
  destruct (wf_run evs _ W1) as (s2 & o2 & Er & W2).
  rewrite Hrun in Er. injection Er as <- <-.
  destruct (run_no_accept evs _ _ _ Hall Hrun) as [Ht _].
  rewrite Ec in Ht. cbn in Ht.
  split; [exact Ht|].
  intros e Htick. rewrite (hid_task_reporting s e Htick), Ht.
  destruct W2 as (Wcmd & Wt & Wl & Ws & Wp).
  split; [|split; [|split]].
  - intros Hle. apply u32_sub_no_wrap; try apply to_uint32_range; exact Hle.
  - intros Hd. rewrite Hd. unfold hid_task_command.
    change (mouse_cmd (after_interval s)) with (mouse_cmd s).
    destruct Wcmd as (_ & Wx & Wy & _).
    rewrite (jitter_closed_form _ _ Wx), (jitter_closed_form _ _ Wy).
    eexists. split; [reflexivity|]. cbn. auto.
  - intros Hd Hlt. rewrite Hd. unfold CDC_BLOCK_TIMEOUT.
    destruct (Z.ltb_spec (u32_sub (to_uint32 (hid_millis e))
                                  (to_uint32 (cdc_millis e0))) 500);
      [reflexivity | lia].
  - intros Hd Hge. rewrite Hd. unfold CDC_BLOCK_TIMEOUT.
    destruct (Z.ltb_spec (u32_sub (to_uint32 (hid_millis e))
                                  (to_uint32 (cdc_millis e0))) 500);
      [lia|].
    split; [reflexivity|].
    apply hid_task_joystick_runs. exact Wl.
Qed.

Lemma C2_arbitration_window_witness :
  let e0 := mkCdcEnv (list_ascii_of_string "55 1 10 -5 0 0 6") 1000 in
  let evs := [HidTick (mkHidEnv 1001 true 0 0 1001 2048 2048 true);
              CdcPoll (mkCdcEnv (list_ascii_of_string "55 1 10 -5 0 0 7") 1002)] in
  let s := mkState (Cmd.mk 1 10 (-5) 0 0 false) 1000 2 1 0 0 false in
  cdc_command_time s = to_uint32 1000 /\
  forall e,
    reporting_tick s e ->
    let now := to_uint32 (hid_millis e) in
    (to_uint32 1000 <= now -> u32_sub now (to_uint32 1000) = now - to_uint32 1000) /\
    (Cmd.has_data (mouse_cmd s) = true ->
     exists r,
       hid_task s e = Some (clear_pending (after_interval s), Some r) /\
       report_buttons r = Cmd.buttons (mouse_cmd s) /\
       report_wheel r = Cmd.wheel (mouse_cmd s) /\
       report_pan r = Cmd.pan (mouse_cmd s)) /\
    (Cmd.has_data (mouse_cmd s) = false ->
     u32_sub now (to_uint32 1000) < 500 ->
     hid_task s e = Some (after_interval s, None)) /\
    (Cmd.has_data (mouse_cmd s) = false ->
     500 <= u32_sub now (to_uint32 1000) ->
     hid_task s e =
       hid_task_joystick (after_interval s) now (hid_adc_x e) (hid_adc_y e)
                         (hid_gpio e) /\
     exists out,
       hid_task s e =
       Some (sensitivity_update (after_interval s) now (button_of (hid_gpio e)),
             out)).
Proof.
  apply (C2_arbitration_window initial_state
           (mkCdcEnv (list_ascii_of_string "55 1 10 -5 0 0 6") 1000)
           [HidTick (mkHidEnv 1001 true 0 0 1001 2048 2048 true);
            CdcPoll (mkCdcEnv (list_ascii_of_string "55 1 10 -5 0 0 7") 1002)]
           (mkState (Cmd.mk 1 10 (-5) 0 0 false) 1000 2 1 0 0 false)
           [Report (mkReport 1 9 (-7) 0 0); Ack ack_protocol_error]).
  - exact wf_initial_state.
  - vm_compute. reflexivity.
  - repeat constructor.
  - vm_compute. reflexivity.
Defined.

(** C10.  From power-on, as long as no serial command has been accepted,
    the recorded command time is still its initial value 0 and nothing is
    pending, so every call of [hid_task] whose clock reading is below
    500 ms sends no report and leaves the sensitivity level and the three
    long-press variables untouched. *)
Theorem C10_power_on_window :
  forall evs,
    Forall no_accept evs ->
    exists s outs,
      run initial_state evs = Some (s, outs) /\
      cdc_command_time s = 0 /\
      Cmd.has_data (mouse_cmd s) = false /\
      forall e,
        to_uint32 (hid_millis e) < 500 ->
        exists s',
          hid_task s e = Some (s', None) /\
          sensitivity_level s' = sensitivity_level s /\
          last_button_state s' = last_button_state s /\
          button_press_start_time s' = button_press_start_time s /\
          sensitivity_changed s' = sensitivity_changed s.
Proof.
  intros evs Hall.
  destruct (wf_run evs _ wf_initial_state) as (s & outs & Er & W).
  destruct (run_no_accept evs _ _ _ Hall Er) as [Ht Hp].
  cbn in Ht. specialize (Hp eq_refl).
  exists s, outs. split; [exact Er|]. split; [exact Ht|]. split; [exact Hp|].
  intros e Hnow. unfold hid_task.
  destruct (_ <? 1); [exists s; auto|].
  destruct (hid_ready e); cbn [negb];
    [|eexists; split; [reflexivity|]; cbn; auto].
  change (mouse_cmd (set_start_ms s (u32_add (start_ms s) 1)))
    with (mouse_cmd s).
  change (cdc_command_time (set_start_ms s (u32_add (start_ms s) 1)))
    with (cdc_command_time s).
  rewrite Hp, Ht.
  assert (E : u32_sub (to_uint32 (hid_millis e)) 0 = to_uint32 (hid_millis e)).
  { unfold u32_sub. rewrite Z.sub_0_r. apply to_uint32_id, to_uint32_range. }
  rewrite E. unfold CDC_BLOCK_TIMEOUT.
  destruct (Z.ltb_spec (to_uint32 (hid_millis e)) 500); [|lia].
  eexists; split; [reflexivity|]; cbn; auto.
Qed.

Lemma C10_power_on_window_witness :
  exists s outs,
    run initial_state
        [HidTick (mkHidEnv 100 true 0 0 100 4095 4095 false);
         CdcPoll (mkCdcEnv (list_ascii_of_string "hello") 101)] =
      Some (s, outs) /\
    cdc_command_time s = 0 /\
    Cmd.has_data (mouse_cmd s) = false /\
    forall e,
      to_uint32 (hid_millis e) < 500 ->
      exists s',
        hid_task s e = Some (s', None) /\
        sensitivity_level s' = sensitivity_level s /\
        last_button_state s' = last_button_state s /\
        button_press_start_time s' = button_press_start_time s /\
        sensitivity_changed s' = sensitivity_changed s.
Proof.
  apply (C10_power_on_window
           [HidTick (mkHidEnv 100 true 0 0 100 4095 4095 false);
            CdcPoll (mkCdcEnv (list_ascii_of_string "hello") 101)]).
  repeat constructor.
Defined.

(** ** The sensitivity state machine *)

Lemma sensitivity_update_qualifying s t :
  1 <= sensitivity_level s <= 3 ->
  last_button_state s <> 0 ->
  sensitivity_changed s = false ->
  BUTTON_PRESS_TIMEOUT <= u32_sub t (button_press_start_time s) ->
  sensitivity_level (sensitivity_update s t 1) = next_level (sensitivity_level s) /\
  sensitivity_changed (sensitivity_update s t 1) = true.
Proof.
  intros Hl Hlast Hch Hel. unfold sensitivity_update.
  destruct (Z.eqb_spec (last_button_state s) 0) as [?|_]; [contradiction|].
  rewrite Hch. cbn [negb andb Z.eqb].
  destruct (Z.geb_spec (u32_sub t (button_press_start_time s))
                       BUTTON_PRESS_TIMEOUT) as [_|?]; [|lia].
  cbn. rewrite to_uint8_id by (unfold is_uint8; lia).
  split; [|reflexivity]. unfold next_level.
  assert (C : sensitivity_level s = 1 \/ sensitivity_level s = 2 \/
              sensitivity_level s = 3) by lia.
  destruct C as [-> | [-> | ->]]; reflexivity.
Qed.

(** Every change of the level made by the update is one step of the
    cycle, made with the button down, no press edge, no change yet during
    this press and the timeout elapsed. *)
Lemma sensitivity_update_change s t b :
  1 <= sensitivity_level s <= 3 ->
  sensitivity_level (sensitivity_update s t b) <> sensitivity_level s ->
  sensitivity_level (sensitivity_update s t b) = next_level (sensitivity_level s) /\
  b <> 0 /\ last_button_state s <> 0 /\ sensitivity_changed s = false /\
  BUTTON_PRESS_TIMEOUT <= u32_sub t (button_press_start_time s) /\
  sensitivity_changed (sensitivity_update s t b) = true.
Proof.
  intros Hl. unfold sensitivity_update.
  destruct (Z.eqb_spec b 0) as [Hb|Hb]; cbn [negb andb]; [cbn; congruence|].
  destruct (Z.eqb_spec (last_button_state s) 0) as [Hlast|Hlast];
    [cbn; congruence|].
  destruct (sensitivity_changed s) eqn:Hch; cbn [negb andb]; [cbn; congruence|].
  destruct (Z.geb_spec (u32_sub t (button_press_start_time s))
                       BUTTON_PRESS_TIMEOUT) as [Hel|Hel]; [|cbn; congruence].
  cbn. rewrite to_uint8_id by (unfold is_uint8; lia). intros _.
  repeat split; try assumption; try lia.
  unfold next_level.
  assert (C : sensitivity_level s = 1 \/ sensitivity_level s = 2 \/
              sensitivity_level s = 3) by lia.
  destruct C as [-> | [-> | ->]]; reflexivity.
Qed.

(** With the button down the update leaves the edge memory set, and keeps
    a change already made during this press. *)
Lemma sensitivity_update_held s t :
  last_button_state (sensitivity_update s t 1) <> 0 /\
  (last_button_state s <> 0 -> sensitivity_changed s = true ->
   sensitivity_changed (sensitivity_update s t 1) = true).
Proof.
  unfold sensitivity_update. split.
  - repeat match goal with
           | |- context [if ?c then _ else _] => destruct c
           end; cbn; lia.
  - intros Hlast Hch.
    destruct (Z.eqb_spec (last_button_state s) 0) as [?|_]; [contradiction|].
    rewrite Hch. cbn [negb andb Z.eqb]. cbn. exact Hch.
Qed.

(** One step of a run with the button down, seen from the state machine. *)
Lemma step_button_held s ev :
  wf_state s -> button_held ev ->
  exists s' out,
    step s ev = Some (s', out) /\ wf_state s' /\
    (last_button_state s <> 0 -> last_button_state s' <> 0) /\
    (last_button_state s <> 0 -> sensitivity_changed s = true ->
     sensitivity_changed s' = true) /\
    (sensitivity_level s' <> sensitivity_level s ->
     last_button_state s <> 0 /\ sensitivity_changed s = false /\
     sensitivity_changed s' = true /\ last_button_state s' <> 0).
Proof.
  intros W Hheld.
  destruct (wf_step s ev W) as (s' & out & Es & W').
  exists s', out. split; [exact Es|]. split; [exact W'|].
  assert (Same : forall s1 : State,
             sensitivity_level s1 = sensitivity_level s ->
             last_button_state s1 = last_button_state s ->
             sensitivity_changed s1 = sensitivity_changed s ->
             (last_button_state s <> 0 -> last_button_state s1 <> 0) /\
             (last_button_state s <> 0 -> sensitivity_changed s = true ->
              sensitivity_changed s1 = true) /\
             (sensitivity_level s1 <> sensitivity_level s ->
              last_button_state s <> 0 /\ sensitivity_changed s = false /\
              sensitivity_changed s1 = true /\ last_button_state s1 <> 0)).
  { intros s1 E1 E2 E3. rewrite E1, E2, E3.
    split; [trivial|]. split; [trivial|]. intros H. congruence. }
  destruct W as (Wc & Wt & Wl & Ws & Wp).
  destruct ev as [e|e]; cbn [step button_held] in *.
  - destruct (hid_task_cases s e Wl Wc)
      as [E | [E | [[_ [r E]] | [_ [o E]]]]];
      rewrite E in Es; try destruct o; injection Es as <- _;
      try (apply Same; reflexivity).
    + rewrite Hheld. cbn [button_of].
      set (g := after_interval s).
      pose proof (sensitivity_update_held g (to_uint32 (hid_millis e))) as [H1 H2].
      split; [intros _; exact H1|]. split; [exact H2|].
      intros Hch.
      destruct (sensitivity_update_change g (to_uint32 (hid_millis e)) 1 Wl Hch)
        as (_ & _ & A & B & _ & C).
      auto.
    + rewrite Hheld. cbn [button_of].
      set (g := after_interval s).
      pose proof (sensitivity_update_held g (to_uint32 (hid_millis e))) as [H1 H2].
      split; [intros _; exact H1|]. split; [exact H2|].
      intros Hch.
      destruct (sensitivity_update_change g (to_uint32 (hid_millis e)) 1 Wl Hch)
        as (_ & _ & A & B & _ & C).
      auto.
  - pose proof (cdc_task_received s e) as R.
    assert (E : sensitivity_level (fst (cdc_task s e)) = sensitivity_level s /\
                last_button_state (fst (cdc_task s e)) = last_button_state s /\
                sensitivity_changed (fst (cdc_task s e)) = sensitivity_changed s).
    { destruct (cdc_fifo e) as [|c r] eqn:Ef.
      - unfold cdc_task. rewrite Ef. auto.
      - rewrite R by congruence.
        destruct (sscanf_7d (received_line e)) as [n vs].
        repeat (match goal with
                | |- context [match ?v with _ => _ end] =>
                    is_var v; destruct v; try (cbn; auto; fail)
                end).
        destruct (_ && _); cbn; auto. }
    destruct (cdc_task s e) as [s1 [a|]]; cbn [fst] in E;
      injection Es as <- _; apply Same; apply E.
Qed.

(** Once the level has changed during a press it stays for the rest of
    the press. *)
Lemma level_fixed_after_change evs : forall s,
  wf_state s -> Forall button_held evs ->
  last_button_state s <> 0 -> sensitivity_changed s = true ->
  level_changes s evs = Some O.
Proof.
  induction evs as [|ev evs IH]; intros s W Hall Hlast Hch; [reflexivity|].
  inversion Hall as [|? ? Hev Hrest]; subst.
  destruct (step_button_held s ev W Hev) as (s' & out & Es & W' & P1 & P2 & P3).
  cbn [level_changes]. rewrite Es.
  rewrite (IH s' W' Hrest (P1 Hlast) (P2 Hlast Hch)).
  destruct (Z.eqb_spec (sensitivity_level s') (sensitivity_level s)) as [_|N];
    [reflexivity|].
  destruct (P3 N) as (_ & F & _). congruence.
Qed.

Lemma level_changes_once evs : forall s,
  wf_state s -> Forall button_held evs ->
  exists n, level_changes s evs = Some n /\ (n <= 1)%nat.
Proof.
  induction evs as [|ev evs IH]; intros s W Hall.
  - exists O. split; [reflexivity | lia].
  - inversion Hall as [|? ? Hev Hrest]; subst.
    destruct (step_button_held s ev W Hev) as (s' & out & Es & W' & P1 & P2 & P3).
    cbn [level_changes]. rewrite Es.
    destruct (Z.eqb_spec (sensitivity_level s') (sensitivity_level s)) as [_|N].
    + destruct (IH s' W' Hrest) as (n & En & Hn). rewrite En.
      exists n. split; [reflexivity | exact Hn].
    + destruct (P3 N) as (_ & _ & C & L).
      rewrite (level_fixed_after_change evs s' W' Hrest L C).
      exists 1%nat. split; [reflexivity | lia].
Qed.

(** *** A press followed from its edge *)

Lemma hid_task_on_joystick_tick s e :
  wf_state s -> joystick_tick s e ->
  exists o,
    hid_task s e =
    Some (sensitivity_update (after_interval s) (to_uint32 (hid_millis e))
                             (button_of (hid_gpio e)), o).
Proof.
  intros (Wc & Wt & Wl & Ws & Wp) (Htick & Hd & Hwin).
  rewrite (hid_task_reporting s e Htick), Hd.
  destruct (Z.ltb_spec (u32_sub (to_uint32 (hid_millis e)) (cdc_command_time s))
                       CDC_BLOCK_TIMEOUT); [lia|].
  apply hid_task_joystick_runs. exact Wl.
Qed.

(** The press edge: the time is recorded and the conversion flag cleared,
    whatever they were; the level stays. *)
Lemma sensitivity_update_edge s t :
  last_button_state s = 0 ->
  sensitivity_level (sensitivity_update s t 1) = sensitivity_level s /\
  last_button_state (sensitivity_update s t 1) = 1 /\
  sensitivity_changed (sensitivity_update s t 1) = false /\
  button_press_start_time (sensitivity_update s t 1) = t.
Proof.
  intros Hlast. unfold sensitivity_update. rewrite Hlast. cbn. auto.
Qed.

(** The release: the edge memory is cleared, the level stays. *)
Lemma sensitivity_update_release s t :
  last_button_state (sensitivity_update s t 0) = 0 /\
  sensitivity_level (sensitivity_update s t 0) = sensitivity_level s.
Proof. unfold sensitivity_update. cbn. auto. Qed.

(** The update with the button still down, during a press. *)
Lemma sensitivity_update_in_press s t l0 t0 :
  1 <= l0 <= 3 -> in_press l0 t0 s ->
  in_press l0 t0 (sensitivity_update s t 1) /\
  (sensitivity_changed s = true ->
   sensitivity_changed (sensitivity_update s t 1) = true) /\
  (u32_sub t t0 < BUTTON_PRESS_TIMEOUT -> sensitivity_changed s = false ->
   sensitivity_changed (sensitivity_update s t 1) = false) /\
  (BUTTON_PRESS_TIMEOUT <= u32_sub t t0 ->
   sensitivity_changed (sensitivity_update s t 1) = true).
Proof.
  intros Hl (Hlast & Hstart & Hcase). unfold in_press, sensitivity_update.
  destruct (Z.eqb_spec (last_button_state s) 0) as [?|_]; [contradiction|].
  cbn [negb andb Z.eqb]. rewrite Hstart.
  destruct Hcase as [[Hc Hlev] | [Hc Hlev]]; rewrite Hc; cbn [negb andb].
  - destruct (Z.geb_spec (u32_sub t t0) BUTTON_PRESS_TIMEOUT) as [Hge|Hlt].
    + cbn. rewrite Hlev. rewrite to_uint8_id by (unfold is_uint8; lia).
      assert (E : (if l0 + 1 >? 3 then 1 else l0 + 1) = next_level l0).
      { unfold next_level.
        assert (C : l0 = 1 \/ l0 = 2 \/ l0 = 3) by lia.
        destruct C as [-> | [-> | ->]]; reflexivity. }
      rewrite E.
      split; [split; [lia | split; [exact Hstart | right; auto]]|].
      split; [auto|]. split; [intros; lia | auto].
    + cbn. rewrite Hc, Hlev.
      split; [split; [lia | split; [exact Hstart | left; auto]]|].
      split; [intros; congruence|]. split; [auto | intros; lia].
  - cbn. rewrite Hc, Hlev.
    split; [split; [lia | split; [exact Hstart | right; auto]]|].
    split; [auto|]. split; [intros; congruence | auto].
Qed.

Lemma in_press_same l0 t0 s1 s2 :
  sensitivity_level s2 = sensitivity_level s1 ->
  last_button_state s2 = last_button_state s1 ->
  sensitivity_changed s2 = sensitivity_changed s1 ->
  button_press_start_time s2 = button_press_start_time s1 ->
  in_press l0 t0 s1 -> in_press l0 t0 s2.
Proof. unfold in_press. intros -> -> -> ->. trivial. Qed.

(** One step of a run during a press, with the button down. *)
Lemma step_in_press s ev l0 t0 :
  wf_state s -> 1 <= l0 <= 3 -> button_held ev -> in_press l0 t0 s ->
  exists s' out,
    step s ev = Some (s', out) /\ wf_state s' /\ in_press l0 t0 s' /\
    (sensitivity_changed s = true -> sensitivity_changed s' = true) /\
    (press_younger t0 ev -> sensitivity_changed s = false ->
     sensitivity_changed s' = false).
Proof.
  intros W Hl Hheld Hin.
  destruct (wf_step s ev W) as (s' & out & Es & W').
  exists s', out. split; [exact Es|]. split; [exact W'|].
  assert (Same : forall s1 : State,
             sensitivity_level s1 = sensitivity_level s ->
             last_button_state s1 = last_button_state s ->
             sensitivity_changed s1 = sensitivity_changed s ->
             button_press_start_time s1 = button_press_start_time s ->
             in_press l0 t0 s1 /\
             (sensitivity_changed s = true -> sensitivity_changed s1 = true) /\
             (press_younger t0 ev -> sensitivity_changed s = false ->
              sensitivity_changed s1 = false)).
  { intros s1 E1 E2 E3 E4.
    split; [apply (in_press_same l0 t0 s); assumption|].
    rewrite E3. auto. }
  destruct W as (Wc & Wt & Wl & Ws & Wp).
  destruct ev as [e|e]; cbn [step button_held press_younger] in *.
  - assert (Upd : in_press l0 t0
                    (sensitivity_update (after_interval s)
                       (to_uint32 (hid_millis e)) (button_of (hid_gpio e))) /\
                  (sensitivity_changed s = true ->
                   sensitivity_changed
                     (sensitivity_update (after_interval s)
                        (to_uint32 (hid_millis e)) (button_of (hid_gpio e)))
                   = true) /\
                  (u32_sub (to_uint32 (hid_millis e)) t0 < BUTTON_PRESS_TIMEOUT ->
                   sensitivity_changed s = false ->
                   sensitivity_changed
                     (sensitivity_update (after_interval s)
                        (to_uint32 (hid_millis e)) (button_of (hid_gpio e)))
                   = false)).
    { rewrite Hheld. cbn [button_of].
      destruct (sensitivity_update_in_press (after_interval s)
                  (to_uint32 (hid_millis e)) l0 t0 Hl)
        as (A & B & C & _).
      - apply (in_press_same l0 t0 s); auto.
      - auto. }
    destruct (hid_task_cases s e Wl Wc)
      as [E | [E | [[_ [r E]] | [_ [o E]]]]];
      rewrite E in Es; try destruct o; injection Es as <- _;
      try (apply Same; reflexivity); exact Upd.
  - pose proof (cdc_task_received s e) as R.
    assert (E : sensitivity_level (fst (cdc_task s e)) = sensitivity_level s /\
                last_button_state (fst (cdc_task s e)) = last_button_state s /\
                sensitivity_changed (fst (cdc_task s e)) = sensitivity_changed s /\
                button_press_start_time (fst (cdc_task s e)) =
                  button_press_start_time s).
    { destruct (cdc_fifo e) as [|c r] eqn:Ef.
      - unfold cdc_task. rewrite Ef. auto.
      - rewrite R by congruence.
        destruct (sscanf_7d (received_line e)) as [n vs].
        repeat (match goal with
                | |- context [match ?v with _ => _ end] =>
                    is_var v; destruct v; try (cbn; auto; fail)
                end).
        destruct (_ && _); cbn; auto. }
    destruct (cdc_task s e) as [s1 [a|]]; cbn [fst] in E;
      injection Es as <- _; apply Same; apply E.
Qed.

(** A run during a press, with the button down throughout. *)
Lemma run_in_press evs l0 t0 : forall s s' outs,
  wf_state s -> 1 <= l0 <= 3 -> Forall button_held evs ->
  in_press l0 t0 s ->
  run s evs = Some (s', outs) ->
  wf_state s' /\ in_press l0 t0 s' /\
  (sensitivity_changed s = true -> sensitivity_changed s' = true) /\
  (Forall (press_younger t0) evs -> sensitivity_changed s = false ->
   sensitivity_changed s' = false).
Proof.
  induction evs as [|ev evs IH]; intros s s' outs W Hl Hall Hin Hrun.
  - cbn in Hrun. injection Hrun as <- _. auto.
  - inversion Hall as [|? ? Hev Hrest]; subst.
    destruct (step_in_press s ev l0 t0 W Hl Hev Hin)
      as (s1 & o1 & Es & W1 & In1 & K1 & Y1).
    cbn [run] in Hrun. rewrite Es in Hrun.
    destruct (run s1 evs) as [[s2 o2]|] eqn:Er; [|discriminate].
    injection Hrun as <- _.
    destruct (IH s1 s2 o2 W1 Hl Hrest In1 Er) as (W2 & In2 & K2 & Y2).
    split; [exact W2|]. split; [exact In2|]. split; [auto|].
    intros Hy Hc. inversion Hy as [|? ? Hy1 Hy2]; subst. auto.
Qed.

Lemma in_press_level l0 t0 s :
  1 <= l0 <= 3 -> in_press l0 t0 s ->
  (sensitivity_changed s = false -> sensitivity_level s = l0) /\
  (sensitivity_changed s = true -> sensitivity_level s = next_level l0).
Proof.
  intros Hl (_ & _ & [[Hc Hv] | [Hc Hv]]); split; intros H; congruence.
Qed.

(** C3.  The sensitivity level is 1, 2 or 3 in every state the program
    reaches.  A press is followed from its edge: the joystick tick that
    sees the button go down (edge memory clear before) records its time
    and clears the conversion flag, whatever the previous press left, and
    keeps the level.  From there, while the button stays down, the level
    is the one at the edge until the press is converted and the next one
    of the cycle 1, 2, 3, 1 afterwards; it is not converted while every
    tick reads less than 1000 ms since the edge; and on a joystick tick
    that reads at least 1000 ms since the edge the level is exactly one
    step further than at the edge, the press is converted, and the level
    stays there for the rest of the press.  A joystick tick with the
    button up clears the edge memory, so that the next press starts
    again.  Moreover, in terms of the stored variables: a joystick tick
    with the button down, no edge, no conversion yet and the timeout
    elapsed advances the level; every change of the level is such a step;
    and while the button stays down the level changes at most once. *)
Theorem C3_sensitivity_cycle :
  (forall evs,
      exists s outs,
        run initial_state evs = Some (s, outs) /\
        1 <= sensitivity_level s <= 3) /\
  (forall s e,
      wf_state s -> reporting_tick s e ->
      Cmd.has_data (mouse_cmd s) = false ->
      CDC_BLOCK_TIMEOUT <=
        u32_sub (to_uint32 (hid_millis e)) (cdc_command_time s) ->
      hid_gpio e = false ->
      last_button_state s <> 0 ->
      sensitivity_changed s = false ->
      BUTTON_PRESS_TIMEOUT <=
        u32_sub (to_uint32 (hid_millis e)) (button_press_start_time s) ->
      exists s' out,
        hid_task s e = Some (s', out) /\
        sensitivity_level s' = next_level (sensitivity_level s) /\
        sensitivity_changed s' = true) /\
  (forall s e s' out,
      wf_state s -> hid_task s e = Some (s', out) ->
      sensitivity_level s' <> sensitivity_level s ->
      sensitivity_level s' = next_level (sensitivity_level s) /\
      hid_gpio e = false /\ last_button_state s <> 0 /\
      sensitivity_changed s = false /\
      BUTTON_PRESS_TIMEOUT <=
        u32_sub (to_uint32 (hid_millis e)) (button_press_start_time s) /\
      sensitivity_changed s' = true) /\
  (forall s evs,
      wf_state s -> Forall button_held evs ->
      exists n, level_changes s evs = Some n /\ (n <= 1)%nat) /\
  (next_level 1 = 2 /\ next_level 2 = 3 /\ next_level 3 = 1) /\
  (forall s0 e0,
      wf_state s0 -> joystick_tick s0 e0 ->
      hid_gpio e0 = false -> last_button_state s0 = 0 ->
      exists s1 o1,
        hid_task s0 e0 = Some (s1, o1) /\
        sensitivity_level s1 = sensitivity_level s0 /\
        last_button_state s1 <> 0 /\
        sensitivity_changed s1 = false /\
        button_press_start_time s1 = to_uint32 (hid_millis e0)) /\
  (forall s0 e0 s1 o1 evs s2 outs,
      wf_state s0 -> joystick_tick s0 e0 ->
      hid_gpio e0 = false -> last_button_state s0 = 0 ->
      hid_task s0 e0 = Some (s1, o1) ->
      Forall button_held evs ->
      run s1 evs = Some (s2, outs) ->
      let t0 := to_uint32 (hid_millis e0) in
      let l0 := sensitivity_level s0 in
      ((sensitivity_changed s2 = false /\ sensitivity_level s2 = l0) \/
       (sensitivity_changed s2 = true /\
        sensitivity_level s2 = next_level l0)) /\
      (Forall (press_younger t0) evs ->
       sensitivity_changed s2 = false /\ sensitivity_level s2 = l0) /\
      (forall e,
          joystick_tick s2 e -> hid_gpio e = false ->
          BUTTON_PRESS_TIMEOUT <= u32_sub (to_uint32 (hid_millis e)) t0 ->
          exists s3 o,
            hid_task s2 e = Some (s3, o) /\
            sensitivity_level s3 = next_level l0 /\
            sensitivity_changed s3 = true /\
            forall evs' s4 outs',
              Forall button_held evs' ->
              run s3 evs' = Some (s4, outs') ->
              sensitivity_level s4 = next_level l0)) /\
  (forall s e,
      wf_state s -> joystick_tick s e -> hid_gpio e = true ->
      exists s' o,
        hid_task s e = Some (s', o) /\
        last_button_state s' = 0 /\
        sensitivity_level s' = sensitivity_level s).
Proof.
  split; [|split; [|split; [|split; [|split; [|split; [|split]]]]]].
  - intros evs.
    destruct (wf_run evs _ wf_initial_state) as (s & outs & Er & W).
    exists s, outs. split; [exact Er | apply W].
  - intros s e W Htick Hd Hwin Hg Hlast Hch Hel.
    rewrite (hid_task_reporting s e Htick), Hd.
    destruct (Z.ltb_spec (u32_sub (to_uint32 (hid_millis e)) (cdc_command_time s))
                         CDC_BLOCK_TIMEOUT); [lia|].
    destruct W as (Wc & Wt & Wl & Ws & Wp).
    destruct (hid_task_joystick_runs (after_interval s) (to_uint32 (hid_millis e))
                (hid_adc_x e) (hid_adc_y e) (hid_gpio e) Wl) as [out E].
    rewrite E, Hg. cbn [button_of].
    eexists. eexists. split; [reflexivity|].
    apply (sensitivity_update_qualifying (after_interval s)); assumption.
  - intros s e s' out (Wc & Wt & Wl & Ws & Wp) E Hch.
    destruct (hid_task_cases s e Wl Wc)
      as [E' | [E' | [[_ [r E']] | [_ [o E']]]]];
      rewrite E' in E; injection E as <- _;
      try (exfalso; apply Hch; reflexivity).
    destruct (sensitivity_update_change (after_interval s) _ _ Wl Hch)
      as (A & B & C & D & F & G).
    repeat split; try assumption.
    destruct (hid_gpio e); [exfalso; apply B; reflexivity | reflexivity].
  - intros s evs W Hall. apply level_changes_once; assumption.
  - repeat split.
  - intros s0 e0 W Hj Hg Hlast.
    destruct (hid_task_on_joystick_tick s0 e0 W Hj) as [o E].
    rewrite E, Hg. cbn [button_of].
    destruct (sensitivity_update_edge (after_interval s0)
                (to_uint32 (hid_millis e0)) Hlast) as (A & B & C & D).
    eexists. eexists. split; [reflexivity|].
    split; [exact A|]. split; [rewrite B; discriminate|]. auto.
  - intros s0 e0 s1 o1 evs s2 outs W Hj Hg Hlast E0 Hheld Hrun. cbv zeta.
    pose proof (wf_hid_task s0 e0 s1 o1 W E0) as W1.
    assert (Hl : 1 <= sensitivity_level s0 <= 3) by apply W.
    assert (In1 : in_press (sensitivity_level s0) (to_uint32 (hid_millis e0)) s1
                  /\ sensitivity_changed s1 = false).
    { destruct (hid_task_on_joystick_tick s0 e0 W Hj) as [o E].
      rewrite E in E0. injection E0 as <- _. rewrite Hg. cbn [button_of].
      destruct (sensitivity_update_edge (after_interval s0)
                  (to_uint32 (hid_millis e0)) Hlast) as (A & B & C & D).
      split; [|exact C].
      split; [rewrite B; discriminate|]. split; [exact D|]. left. auto. }
    destruct In1 as [In1 Hc1].
    destruct (run_in_press evs _ _ s1 s2 outs W1 Hl Hheld In1 Hrun)
      as (W2 & In2 & _ & Y2).
    destruct (in_press_level _ _ s2 Hl In2) as [Lf Lt].
    split; [|split].
    + destruct (sensitivity_changed s2); [right | left]; auto.
    + intros Hy. specialize (Y2 Hy Hc1). auto.
    + intros e Hje Hge Hel.
      destruct (hid_task_on_joystick_tick s2 e W2 Hje) as [o E].
      rewrite E, Hge. cbn [button_of].
      destruct (sensitivity_update_in_press (after_interval s2)
                  (to_uint32 (hid_millis e)) (sensitivity_level s0)
                  (to_uint32 (hid_millis e0)) Hl)
        as (In3 & _ & _ & C3).
      { apply (in_press_same _ _ s2); auto. }
      specialize (C3 Hel).
      assert (W3 : wf_state (sensitivity_update (after_interval s2)
                               (to_uint32 (hid_millis e)) 1)).
      { apply wf_sensitivity_update; [apply to_uint32_range|].
        apply wf_after_interval. exact W2. }
      eexists. eexists. split; [reflexivity|].
      split; [apply (in_press_level _ _ _ Hl In3); exact C3|].
      split; [exact C3|].
      intros evs' s4 outs' Hheld' Hrun'.
      destruct (run_in_press evs' _ _ _ s4 outs' W3 Hl Hheld' In3 Hrun')
        as (_ & In4 & K4 & _).
      apply (in_press_level _ _ _ Hl In4). auto.
  - intros s e W Hj Hg.
    destruct (hid_task_on_joystick_tick s e W Hj) as [o E].
    rewrite E, Hg. cbn [button_of].
    destruct (sensitivity_update_release (after_interval s)
                (to_uint32 (hid_millis e))) as [A B].
    eexists. eexists. split; [reflexivity|]. split; [exact A | exact B].
Qed.

Lemma C3_sensitivity_cycle_witness :
  (sensitivity_changed
     (mkState (Cmd.mk 0 0 0 0 0 false) 0 3 5001 1 5000 false) = false /\
   sensitivity_level
     (mkState (Cmd.mk 0 0 0 0 0 false) 0 3 5001 1 5000 false) = 3) /\
  (exists s3 o,
      hid_task (mkState (Cmd.mk 0 0 0 0 0 false) 0 3 5001 1 5000 false)
               (mkHidEnv 6002 true 0 0 6000 2048 2048 false)
      = Some (s3, o) /\
      sensitivity_level s3 = 1 /\
      sensitivity_changed s3 = true /\
      forall evs' s4 outs',
        Forall button_held evs' ->
        run s3 evs' = Some (s4, outs') ->
        sensitivity_level s4 = 1).
Proof.
  assert (W : wf_state (mkState (Cmd.mk 0 0 0 0 0 false) 0 3 4999 0 900 true)).
  { unfold wf_state, wf_cmd, is_uint8, is_int8, is_uint32. cbn. lia. }
  assert (J : joystick_tick
                (mkState (Cmd.mk 0 0 0 0 0 false) 0 3 4999 0 900 true)
                (mkHidEnv 5000 true 0 0 5000 2048 2048 false)).
  { split; [split; [vm_compute; discriminate | reflexivity]|].
    split; [reflexivity | vm_compute; discriminate]. }
  assert (E : hid_task (mkState (Cmd.mk 0 0 0 0 0 false) 0 3 4999 0 900 true)
                       (mkHidEnv 5000 true 0 0 5000 2048 2048 false)
              = Some (mkState (Cmd.mk 0 0 0 0 0 false) 0 3 5000 1 5000 false,
                      Some click_report)).
  { vm_compute. reflexivity. }
  assert (H : Forall button_held
                [HidTick (mkHidEnv 5600 true 0 0 5600 2048 2048 false)]).
  { repeat constructor. }
  assert (R : run (mkState (Cmd.mk 0 0 0 0 0 false) 0 3 5000 1 5000 false)
                  [HidTick (mkHidEnv 5600 true 0 0 5600 2048 2048 false)]
              = Some (mkState (Cmd.mk 0 0 0 0 0 false) 0 3 5001 1 5000 false,
                      [Report click_report])).
  { vm_compute. reflexivity. }
  destruct (proj1 (proj2 (proj2 (proj2 (proj2 (proj2 (proj2
              C3_sensitivity_cycle))))))
              _ _ _ _ _ _ _ W J eq_refl eq_refl E H R) as (_ & Y & Q).
  split.
  - apply Y. constructor; [vm_compute; reflexivity | constructor].
  - apply (Q (mkHidEnv 6002 true 0 0 6000 2048 2048 false)).
    + split; [split; [vm_compute; discriminate | reflexivity]|].
      split; [reflexivity | vm_compute; discriminate].
    + reflexivity.
    + vm_compute. discriminate.
Defined.

(** Two long presses in a row from power-on, each held for 1000 ms from
    its edge and released in between: the level goes from 2 to 3 and from
    3 to 1, while a press of 999 ms leaves it alone. *)
Example two_long_presses :
  let tick t pin := HidTick (mkHidEnv t true 0 0 t 2048 2048 pin) in
  let level evs :=
    match run initial_state evs with
    | Some (s, _) => Some (sensitivity_level s)
    | None => None
    end in
  level [tick 600 false; tick 1599 false; tick 1700 true] = Some 2 /\
  level [tick 600 false; tick 1600 false; tick 1700 true] = Some 3 /\
  level [tick 600 false; tick 1600 false; tick 1700 true;
         tick 2000 false; tick 3000 false; tick 3500 false; tick 3600 true]
    = Some 1.
Proof. vm_compute. repeat split. Qed.

(** * Further properties of the code *)

(** ** [read_joystick] on arbitrary samples *)

(** X1.  Whatever the two samples are (also outside the 12 bits of the
    converter), both deltas [read_joystick] stores lie in [-127, 127] (the
    value -128 is never stored) and the button value is 1 exactly when the
    pin reads low. *)
Theorem X1_read_joystick_bounds :
  forall x_raw y_raw gpio,
    let '(x, y, b) := read_joystick x_raw y_raw gpio in
    -127 <= x <= 127 /\ -127 <= y <= 127 /\
    b = (if gpio then 0 else 1).
Proof.
  intros x_raw y_raw gpio.
  pose proof (read_joystick_range x_raw y_raw gpio) as R.
  pose proof (read_joystick_button x_raw y_raw gpio) as B.
  destruct (read_joystick x_raw y_raw gpio) as [[x y] b].
  cbn [snd] in B. unfold button_of in B. destruct R as (Rx & Ry & _).
  split; [exact Rx|]. split; [exact Ry | exact B].
Qed.

Lemma axis_value_zero_zone v :
  0 <= v <= 4095 ->
  (axis_value v = 0 <-> at_rest v) /\
  (0 < axis_value v <-> 2163 < v) /\
  (axis_value v < 0 <-> v < 1933).
Proof.
  intros Hv. unfold at_rest.
  destruct (Z_lt_le_dec v 1948) as [L|L].
  - destruct (axis_value_lower v) as [E B]; [lia|].
    destruct (quot_bounds_neg ((v - 1948) * 127) 1948) as [Q0 Q1]; [lia|lia|].
    rewrite <- E in Q0, Q1. lia.
  - destruct (Z_lt_le_dec 2148 v) as [U|U].
    + destruct (axis_value_upper v) as [E B]; [lia|].
      destruct (quot_bounds_pos ((v - 2148) * 127) 1947) as [Q0 Q1]; [lia|lia|].
      rewrite <- E in Q0, Q1. lia.
    + rewrite axis_value_dead by lia. lia.
Qed.

(** X2.  For samples of the converter's range the mapped delta is zero
    exactly from 1933 to 2163, that is within 115 counts of the center:
    the truncating division widens the dead zone of 100 by 15 counts on
    each side.  Above that zone the delta is positive, below it negative. *)
Theorem X2_effective_dead_zone :
  forall x_raw y_raw gpio,
    0 <= x_raw <= 4095 -> 0 <= y_raw <= 4095 ->
    let '(x, y, _) := read_joystick x_raw y_raw gpio in
    (x = 0 <-> 1933 <= x_raw <= 2163) /\
    (0 < x <-> 2163 < x_raw) /\ (x < 0 <-> x_raw < 1933) /\
    (y = 0 <-> 1933 <= y_raw <= 2163) /\
    (0 < y <-> 2163 < y_raw) /\ (y < 0 <-> y_raw < 1933).
Proof.
  intros x_raw y_raw gpio Hx Hy.
  rewrite read_joystick_axes by lia.
  rewrite !axis_clamp_id by (apply axis_value_range; assumption).
  destruct (axis_value_zero_zone x_raw Hx) as (X0 & X1 & X2).
  destruct (axis_value_zero_zone y_raw Hy) as (Y0 & Y1 & Y2).
  unfold at_rest in *. tauto.
Qed.

Lemma X2_effective_dead_zone_witness :
  let '(x, y, _) := read_joystick 2163 1932 true in
  (x = 0 <-> 1933 <= 2163 <= 2163) /\
  (0 < x <-> 2163 < 2163) /\ (x < 0 <-> 2163 < 1933) /\
  (y = 0 <-> 1933 <= 1932 <= 2163) /\
  (0 < y <-> 2163 < 1932) /\ (y < 0 <-> 1932 < 1933).
Proof. apply (X2_effective_dead_zone 2163 1932 true); lia. Defined.

(** ** Reports of the joystick path *)

(** The joystick path written out: the long-press update, then a movement
    report when a scaled delta is non-zero, else a click when the button is
    down and the press was not converted, else nothing. *)
Lemma hid_task_joystick_result s t x_raw y_raw gpio jx jy b s' :
  1 <= sensitivity_level s <= 3 ->
  read_joystick x_raw y_raw gpio = (jx, jy, b) ->
  s' = sensitivity_update s t b ->
  hid_task_joystick s t x_raw y_raw gpio =
  Some (s',
        if negb (Z.quot jx (spec_divisor (sensitivity_level s')) =? 0)
           || negb (Z.quot jy (spec_y_divisor (sensitivity_level s')) =? 0)
        then Some (mkReport 0 (Z.quot jx (spec_divisor (sensitivity_level s')))
                            (Z.quot jy (spec_y_divisor (sensitivity_level s')))
                            0 0)
        else if negb (b =? 0) && negb (sensitivity_changed s')
             then Some click_report else None).
Proof.
  intros Hl Hj Hs. unfold hid_task_joystick.
  pose proof (read_joystick_range x_raw y_raw gpio) as R.
  rewrite Hj in *. destruct R as (Rx & Ry & _). cbv zeta.
  rewrite <- Hs.
  rewrite scale_joystick_spec
    by (try (rewrite Hs; apply sensitivity_update_level); try assumption;
        unfold is_int8; lia).
  destruct (negb (_ =? 0) || negb (_ =? 0)); [reflexivity|].
  destruct (negb (b =? 0) && _); reflexivity.
Qed.

(** A report sent while no command is pending comes from the joystick
    path. *)
Lemma hid_task_joystick_sourced s e s' r :
  Cmd.has_data (mouse_cmd s) = false ->
  hid_task s e = Some (s', Some r) ->
  hid_task_joystick (after_interval s) (to_uint32 (hid_millis e))
                    (hid_adc_x e) (hid_adc_y e) (hid_gpio e) =
  Some (s', Some r).
Proof.
  intros Hd. unfold hid_task. fold (after_interval s).
  change (mouse_cmd (after_interval s)) with (mouse_cmd s).
  rewrite Hd.
  destruct (_ <? 1); [discriminate|].
  destruct (hid_ready e); cbn [negb]; [|discriminate].
  destruct (_ <? CDC_BLOCK_TIMEOUT); [discriminate|].
  trivial.
Qed.

Lemma quot_abs_bound a d m :
  0 < d -> -127 <= a <= 127 -> 127 < d * (m + 1) -> 0 <= m ->
  Z.abs (Z.quot a d) <= m.
Proof.
  intros Hd Ha Hm Hm0. destruct (Z_le_gt_dec 0 a).
  - pose proof (quot_bounds_pos a d). nia.
  - pose proof (quot_bounds_neg a d). nia.
Qed.

(** X3.  Every report [hid_task] sends while no serial command is pending
    is a joystick report: wheel and pan are 0; it is either a movement
    with no button and a non-zero delta, or the click (button 1, no
    movement), sent only with the button down and the press not converted
    into a sensitivity change; and the deltas are bounded by 127 divided
    by the divisor of the level in force: 25, 12, 4 for X and 6, 3, 4 for
    Y at levels 1, 2, 3. *)
Theorem X3_joystick_report_shape :
  forall s e s' r,
    wf_state s ->
    Cmd.has_data (mouse_cmd s) = false ->
    hid_task s e = Some (s', Some r) ->
    report_wheel r = 0 /\ report_pan r = 0 /\
    ((report_buttons r = 0 /\ (report_x r <> 0 \/ report_y r <> 0)) \/
     (r = click_report /\ hid_gpio e = false /\
      sensitivity_changed s' = false)) /\
    Z.abs (report_x r) <= max_report_x (sensitivity_level s') /\
    Z.abs (report_y r) <= max_report_y (sensitivity_level s').
Proof.
  intros s e s' r W Hd H.
  apply (hid_task_joystick_sourced s e s' r Hd) in H.
  destruct W as (Wc & Wt & Wl & Ws & Wp).
  pose proof (read_joystick_range (hid_adc_x e) (hid_adc_y e) (hid_gpio e)) as B.
  pose proof (read_joystick_button (hid_adc_x e) (hid_adc_y e) (hid_gpio e)) as Bt.
  destruct (read_joystick (hid_adc_x e) (hid_adc_y e) (hid_gpio e))
    as [[jx jy] b] eqn:Ej.
  destruct B as (Bx & By & _). cbn [snd] in Bt.
  remember (sensitivity_update (after_interval s) (to_uint32 (hid_millis e)) b)
    as u eqn:Hu.
  rewrite (hid_task_joystick_result (after_interval s) _ _ _ _ jx jy b u
             Wl Ej Hu) in H.
  injection H as Hs Hr. subst s'.
  assert (Hl' : 1 <= sensitivity_level u <= 3)
    by (rewrite Hu; apply sensitivity_update_level; exact Wl).
  clear Hu.
  assert (Bounds :
            Z.abs (Z.quot jx (spec_divisor (sensitivity_level u)))
              <= max_report_x (sensitivity_level u) /\
            Z.abs (Z.quot jy (spec_y_divisor (sensitivity_level u)))
              <= max_report_y (sensitivity_level u)).
  { assert (C : sensitivity_level u = 1 \/ sensitivity_level u = 2 \/
                sensitivity_level u = 3) by lia.
    destruct C as [-> | [-> | ->]];
      unfold spec_y_divisor, spec_divisor, max_report_x, max_report_y;
      cbn [Z.eqb Pos.eqb orb];
      split; apply quot_abs_bound; lia. }
  destruct Bounds as [Bmx Bmy].
  destruct (Z.eqb_spec (Z.quot jx (spec_divisor (sensitivity_level u))) 0)
    as [Ex|Ex];
    destruct (Z.eqb_spec (Z.quot jy (spec_y_divisor (sensitivity_level u))) 0)
      as [Ey|Ey];
    cbn [negb orb] in Hr.
  - destruct (negb (b =? 0) && negb (sensitivity_changed u)) eqn:Eb;
      [|discriminate].
    injection Hr as <-. apply andb_true_iff in Eb as [Eb1 Eb2].
    apply negb_true_iff in Eb2.
    assert (Hg : hid_gpio e = false).
    { subst b. destruct (hid_gpio e); [discriminate | reflexivity]. }
    unfold click_report, max_report_x, max_report_y. cbn.
    repeat split; try (right; auto; fail);
      try (destruct (sensitivity_level u =? 1);
           [lia | destruct (sensitivity_level u =? 2); lia]).
  - injection Hr as <-. cbn. repeat split; try assumption.
    left. split; [reflexivity | right; exact Ey].
  - injection Hr as <-. cbn. repeat split; try assumption.
    left. split; [reflexivity | left; exact Ex].
  - injection Hr as <-. cbn. repeat split; try assumption.
    left. split; [reflexivity | left; exact Ex].
Qed.

Lemma X3_joystick_report_shape_witness :
  let s := mkState (Cmd.mk 0 0 0 0 0 false) 0 1 999 0 0 false in
  let e := mkHidEnv 1000 true 0 0 1000 4095 0 true in
  let s' := mkState (Cmd.mk 0 0 0 0 0 false) 0 1 1000 0 0 false in
  let r := mkReport 0 25 (-6) 0 0 in
  report_wheel r = 0 /\ report_pan r = 0 /\
  ((report_buttons r = 0 /\ (report_x r <> 0 \/ report_y r <> 0)) \/
   (r = click_report /\ hid_gpio e = false /\
    sensitivity_changed s' = false)) /\
  Z.abs (report_x r) <= max_report_x (sensitivity_level s') /\
  Z.abs (report_y r) <= max_report_y (sensitivity_level s').
Proof.
  apply (X3_joystick_report_shape
           (mkState (Cmd.mk 0 0 0 0 0 false) 0 1 999 0 0 false)
           (mkHidEnv 1000 true 0 0 1000 4095 0 true)
           (mkState (Cmd.mk 0 0 0 0 0 false) 0 1 1000 0 0 false)
           (mkReport 0 25 (-6) 0 0)).
  - unfold wf_state, wf_cmd, is_uint8, is_int8, is_uint32. cbn. lia.
  - reflexivity.
  - vm_compute. reflexivity.
Defined.

Lemma read_joystick_at_rest x_raw y_raw gpio :
  at_rest x_raw -> at_rest y_raw ->
  read_joystick x_raw y_raw gpio = (0, 0, button_of gpio).
Proof.
  intros Hx Hy. pose proof Hx as Hx'. pose proof Hy as Hy'.
  unfold at_rest in Hx', Hy'.
  rewrite read_joystick_axes by lia.
  destruct (axis_value_zero_zone x_raw) as (X0 & _); [lia|].
  destruct (axis_value_zero_zone y_raw) as (Y0 & _); [lia|].
  rewrite (proj2 X0 Hx), (proj2 Y0 Hy). reflexivity.
Qed.

(** X4.  On a reporting tick outside the arbitration window, with nothing
    pending and the joystick at rest, [hid_task] sends the click report
    when the button is down and the press has not been converted into a
    sensitivity change, and nothing otherwise.  So with the button up no
    report is sent (a click is never followed by a report of the release),
    and the tick that sees the press edge sends a click at once, also when
    the press later turns out to be a long one. *)
Theorem X4_rest_click_or_silence :
  forall s e,
    wf_state s -> reporting_tick s e ->
    Cmd.has_data (mouse_cmd s) = false ->
    CDC_BLOCK_TIMEOUT <=
      u32_sub (to_uint32 (hid_millis e)) (cdc_command_time s) ->
    at_rest (hid_adc_x e) -> at_rest (hid_adc_y e) ->
    let s' := sensitivity_update (after_interval s) (to_uint32 (hid_millis e))
                                 (button_of (hid_gpio e)) in
    hid_task s e =
      Some (s', if negb (hid_gpio e) && negb (sensitivity_changed s')
                then Some click_report else None) /\
    (hid_gpio e = true -> hid_task s e = Some (s', None)) /\
    (hid_gpio e = false -> last_button_state s = 0 ->
     hid_task s e = Some (s', Some click_report)).
Proof.
  intros s e W Htick Hd Hwin Hx Hy. cbv zeta.
  destruct W as (Wc & Wt & Wl & Ws & Wp).
  assert (E : hid_task s e =
              Some (sensitivity_update (after_interval s)
                      (to_uint32 (hid_millis e)) (button_of (hid_gpio e)),
                    if negb (hid_gpio e) &&
                       negb (sensitivity_changed
                               (sensitivity_update (after_interval s)
                                  (to_uint32 (hid_millis e))
                                  (button_of (hid_gpio e))))
                    then Some click_report else None)).
  { rewrite (hid_task_reporting s e Htick), Hd.
    destruct (Z.ltb_spec (u32_sub (to_uint32 (hid_millis e)) (cdc_command_time s))
                         CDC_BLOCK_TIMEOUT); [lia|].
    rewrite (hid_task_joystick_result (after_interval s) _ _ _ _ 0 0
               (button_of (hid_gpio e)) _ Wl
               (read_joystick_at_rest _ _ _ Hx Hy) eq_refl).
    rewrite !Z.quot_0_l
      by (unfold spec_divisor, spec_y_divisor;
          repeat match goal with
                 | |- context [if ?c then _ else _] => destruct c
                 end; lia).
    cbn [Z.eqb negb orb].
    destruct (hid_gpio e); reflexivity. }
  split; [exact E|]. split.
  - intros Hg. rewrite E, Hg. reflexivity.
  - intros Hg Hlast. rewrite E, Hg. cbn [negb andb button_of].
    unfold sensitivity_update.
    change (last_button_state (after_interval s)) with (last_button_state s).
    rewrite Hlast. reflexivity.
Qed.

Lemma X4_rest_click_or_silence_witness :
  let s := mkState (Cmd.mk 0 0 0 0 0 false) 0 2 599 0 0 false in
  let e := mkHidEnv 600 true 0 0 600 2048 2050 false in
  let s' := sensitivity_update (after_interval s) (to_uint32 (hid_millis e))
                               (button_of (hid_gpio e)) in
  hid_task s e =
    Some (s', if negb (hid_gpio e) && negb (sensitivity_changed s')
              then Some click_report else None) /\
  (hid_gpio e = true -> hid_task s e = Some (s', None)) /\
  (hid_gpio e = false -> last_button_state s = 0 ->
   hid_task s e = Some (s', Some click_report)).
Proof.
  apply (X4_rest_click_or_silence
           (mkState (Cmd.mk 0 0 0 0 0 false) 0 2 599 0 0 false)
           (mkHidEnv 600 true 0 0 600 2048 2050 false)).
  - unfold wf_state, wf_cmd, is_uint8, is_int8, is_uint32. cbn. lia.
  - split; [vm_compute; discriminate | reflexivity].
  - reflexivity.
  - vm_compute. discriminate.
  - unfold at_rest. cbn. lia.
  - unfold at_rest. cbn. lia.
Defined.

(** ** The rate of reports *)

(** A call of [hid_task] either fails the interval test and does nothing,
    or advances [start_ms] by one. *)
Lemma hid_task_start_ms s e s' out :
  hid_task s e = Some (s', out) ->
  (s' = s /\ out = None /\
   u32_sub (to_uint32 (hid_millis_poll e)) (start_ms s) < 1) \/
  (start_ms s' = u32_add (start_ms s) 1 /\
   1 <= u32_sub (to_uint32 (hid_millis_poll e)) (start_ms s)).
Proof.
  unfold hid_task. intros H.
  destruct (Z.ltb_spec (u32_sub (to_uint32 (hid_millis_poll e)) (start_ms s)) 1)
    as [Hlt|Hge].
  - injection H as <- <-. left. auto.
  - right. split; [|exact Hge].
    unfold hid_task_command, hid_task_joystick, sensitivity_update in H.
    repeat match type of H with
           | context [if ?c then _ else _] => destruct c
           | context [match ?c with _ => _ end] => destruct c
           | Some _ = Some _ => injection H as <- <-
           | None = Some _ => discriminate H
           end; reflexivity.
Qed.

Lemma step_rate s ev s' out lo :
  is_uint32 (start_ms s) -> start_ms s <= lo ->
  polls_monotone lo [ev] ->
  step s ev = Some (s', out) ->
  start_ms s + Z.of_nat (count_reports out) <= start_ms s' <= last_poll lo [ev] /\
  is_uint32 (start_ms s').
Proof.
  intros Hs Hlo Hm Hstep. destruct ev as [e|e]; cbn in Hm, Hstep |- *.
  - destruct Hm as [[Hp1 Hp2] _].
    destruct (hid_task s e) as [[s1 o]|] eqn:Eh; [|discriminate].
    assert (Ec : (count_reports out <= 1)%nat /\ (o = None -> out = []) /\ s' = s1).
    { destruct o; injection Hstep as <- <-; cbn; repeat split; (lia || congruence). }
    destruct Ec as (Ec & En & ->).
    unfold is_uint32 in *.
    destruct (hid_task_start_ms s e s1 o Eh) as [(-> & -> & _) | (E1 & E2)].
    + rewrite (En eq_refl). cbn. lia.
    + rewrite (to_uint32_id (hid_millis_poll e)) in E2
        by (unfold is_uint32; lia).
      rewrite u32_sub_no_wrap in E2 by (unfold is_uint32; lia).
      unfold u32_add in E1.
      rewrite to_uint32_id in E1 by (unfold is_uint32; lia).
      rewrite E1. lia.
  - pose proof (cdc_task_rejects s e) as R.
    assert (E : start_ms (fst (cdc_task s e)) = start_ms s).
    { destruct (cdc_fifo e) as [|c r] eqn:Ef.
      - unfold cdc_task. rewrite Ef. reflexivity.
      - rewrite cdc_task_received by congruence.
        destruct (sscanf_7d (received_line e)) as [n vs].
        repeat (match goal with
                | |- context [match ?v with _ => _ end] =>
                    is_var v; destruct v; try reflexivity
                end).
        destruct (_ && _); reflexivity. }
    unfold is_uint32 in *.
    destruct (cdc_task s e) as [s1 [a|]]; cbn [fst] in E;
      injection Hstep as <- <-; cbn; rewrite E; lia.
Qed.

Lemma run_rate evs : forall s lo s' outs,
  is_uint32 (start_ms s) -> start_ms s <= lo ->
  polls_monotone lo evs ->
  run s evs = Some (s', outs) ->
  start_ms s + Z.of_nat (count_reports outs) <= start_ms s' <= last_poll lo evs.
Proof.
  induction evs as [|ev evs IH]; intros s lo s' outs Hs Hlo Hm Hrun.
  - cbn in Hrun. injection Hrun as <- <-. cbn. lia.
  - cbn [run] in Hrun.
    destruct (step s ev) as [[s1 o1]|] eqn:Es; [|discriminate].
    destruct (run s1 evs) as [[s2 o2]|] eqn:Er; [|discriminate].
    injection Hrun as <- <-.
    assert (Hm1 : polls_monotone lo [ev] /\
                  polls_monotone (last_poll lo [ev]) evs /\
                  last_poll lo (ev :: evs) = last_poll (last_poll lo [ev]) evs).
    { destruct ev as [e|e]; cbn in Hm |- *; tauto. }
    destruct Hm1 as (Hm1 & Hm2 & El).
    destruct (step_rate s ev s1 o1 lo Hs Hlo Hm1 Es) as [B1 U1].
    specialize (IH s1 (last_poll lo [ev]) s2 o2 U1 (proj2 B1) Hm2 Er).
    rewrite El.
    assert (Ec : count_reports (o1 ++ o2) =
                 (count_reports o1 + count_reports o2)%nat).
    { clear. induction o1 as [|[r|a] o1 IHo]; cbn; [reflexivity| |]; lia. }
    rewrite Ec. lia.
Qed.

(** X5.  From power-on, with a millisecond clock that never decreases, the
    number of reports sent is at most the value of [start_ms], which is at
    most the last clock value read by the interval test: no more than one
    report per elapsed millisecond, serial commands included. *)
Theorem X5_report_rate :
  forall evs s outs,
    polls_monotone 0 evs ->
    run initial_state evs = Some (s, outs) ->
    Z.of_nat (count_reports outs) <= start_ms s <= last_poll 0 evs.
Proof.
  intros evs s outs Hm Hrun.
  pose proof (run_rate evs initial_state 0 s outs) as R.
  cbn [start_ms initial_state] in R.
  apply R; try assumption; unfold is_uint32; lia.
Qed.

Lemma X5_report_rate_witness :
  Z.of_nat (count_reports [Report click_report; Report click_report]) <=
    start_ms (mkState (Cmd.mk 0 0 0 0 0 false) 0 2 3 1 700 false) <=
    last_poll 0 [HidTick (mkHidEnv 700 true 0 0 700 2048 2048 false);
                 HidTick (mkHidEnv 700 true 0 0 700 2048 2048 false);
                 HidTick (mkHidEnv 700 false 0 0 700 2048 2048 false)].
Proof.
  apply (X5_report_rate
           [HidTick (mkHidEnv 700 true 0 0 700 2048 2048 false);
            HidTick (mkHidEnv 700 true 0 0 700 2048 2048 false);
            HidTick (mkHidEnv 700 false 0 0 700 2048 2048 false)]
           (mkState (Cmd.mk 0 0 0 0 0 false) 0 2 3 1 700 false)
           [Report click_report; Report click_report]).
  - cbn. lia.
  - vm_compute. reflexivity.
Defined.

(** ** A command is sent once *)

(** A call of [hid_task] inside the arbitration window: it sends the
    pending command, if any and if it gets to report, and nothing else. *)
Lemma hid_task_in_window s e :
  wf_state s ->
  u32_sub (to_uint32 (hid_millis e)) (cdc_command_time s) < CDC_BLOCK_TIMEOUT ->
  exists s' o,
    hid_task s e = Some (s', o) /\
    cmd_fields (mouse_cmd s') = cmd_fields (mouse_cmd s) /\
    ((o = None /\
      Cmd.has_data (mouse_cmd s') = Cmd.has_data (mouse_cmd s)) \/
     (exists r, o = Some r /\
                Cmd.has_data (mouse_cmd s) = true /\
                Cmd.has_data (mouse_cmd s') = false /\
                report_buttons r = Cmd.buttons (mouse_cmd s) /\
                report_wheel r = Cmd.wheel (mouse_cmd s) /\
                report_pan r = Cmd.pan (mouse_cmd s))).
Proof.
  intros (Wc & Wt & Wl & Ws & Wp) Hwin. unfold hid_task.
  destruct (_ <? 1); [exists s, None; auto|].
  fold (after_interval s).
  destruct (hid_ready e); cbn [negb];
    [|exists (after_interval s), None; auto].
  change (mouse_cmd (after_interval s)) with (mouse_cmd s).
  change (cdc_command_time (after_interval s)) with (cdc_command_time s).
  destruct (Cmd.has_data (mouse_cmd s)) eqn:Hd.
  - unfold hid_task_command.
    change (mouse_cmd (after_interval s)) with (mouse_cmd s).
    destruct Wc as (_ & Wx & Wy & _).
    rewrite (jitter_closed_form _ _ Wx), (jitter_closed_form _ _ Wy).
    eexists. eexists. split; [reflexivity|]. split; [reflexivity|].
    right. eexists. split; [reflexivity|]. cbn. auto.
  - destruct (Z.ltb_spec (u32_sub (to_uint32 (hid_millis e)) (cdc_command_time s))
                         CDC_BLOCK_TIMEOUT); [|lia].
    exists (after_interval s), None. auto.
Qed.

Lemma cmd_fields_eq a b :
  cmd_fields a = cmd_fields b ->
  Cmd.buttons a = Cmd.buttons b /\ Cmd.wheel a = Cmd.wheel b /\
  Cmd.pan a = Cmd.pan b.
Proof. unfold cmd_fields. intros H. injection H. auto. Qed.

Lemma run_in_window evs : forall s1 s outs,
  wf_state s1 ->
  Forall no_accept evs ->
  Forall (in_window (cdc_command_time s1)) evs ->
  run s1 evs = Some (s, outs) ->
  cmd_fields (mouse_cmd s) = cmd_fields (mouse_cmd s1) /\
  count_reports outs =
    (if Cmd.has_data (mouse_cmd s1)
     then if Cmd.has_data (mouse_cmd s) then 0 else 1
     else 0)%nat /\
  (Cmd.has_data (mouse_cmd s1) = false ->
   Cmd.has_data (mouse_cmd s) = false) /\
  (forall r, In (Report r) outs ->
             report_buttons r = Cmd.buttons (mouse_cmd s1) /\
             report_wheel r = Cmd.wheel (mouse_cmd s1) /\
             report_pan r = Cmd.pan (mouse_cmd s1)).
Proof.
  induction evs as [|ev evs IH]; intros s1 s outs W Hna Hwin Hrun.
  - cbn in Hrun. injection Hrun as <- <-. cbn.
    split; [reflexivity|]. split; [destruct (Cmd.has_data _); reflexivity|].
    split; [trivial|]. intros r [].
  - inversion Hna as [|? ? Hna1 Hna2]; subst.
    inversion Hwin as [|? ? Hw1 Hw2]; subst.
    cbn [run] in Hrun.
    destruct (step s1 ev) as [[s2 o1]|] eqn:Es; [|discriminate].
    destruct (run s2 evs) as [[s3 o2]|] eqn:Er; [|discriminate].
    injection Hrun as <- <-.
    assert (Ec : forall a b, count_reports (a ++ b) =
                             (count_reports a + count_reports b)%nat).
    { clear. intros a b. induction a as [|[r|x] a IHa]; cbn; [reflexivity| |]; lia. }
    destruct ev as [e|e]; cbn [step no_accept in_window] in *.
    + destruct (hid_task_in_window s1 e W Hw1) as (s' & o & Eh & Ef & Hcase).
      rewrite Eh in Es.
      pose proof (wf_hid_task s1 e s' o W Eh) as W2.
      pose proof (hid_task_command_time s1 e s' o Eh) as Ht.
      assert (Es' : s2 = s' /\ o1 = match o with Some r => [Report r] | None => [] end).
      { destruct o; injection Es as <- <-; auto. }
      destruct Es' as [-> ->].
      rewrite <- Ht in Hw2.
      destruct (IH s' s3 o2 W2 Hna2 Hw2 Er) as (F & C & P & R).
      destruct Hcase as [[-> Hd] | (r & -> & Hd1 & Hd2 & Rb & Rw & Rp)].
      * cbn [app]. rewrite F, Ef, C, Hd.
        split; [reflexivity|]. split; [reflexivity|].
        split; [rewrite Hd in P; exact P|].
        intros r Hin. specialize (R r Hin).
        destruct (cmd_fields_eq _ _ Ef) as (Eb & Ew & Ep).
        rewrite <- Eb, <- Ew, <- Ep. exact R.
      * rewrite Ec. cbn [count_reports app]. rewrite F, Ef, C, Hd1, Hd2.
        rewrite (P Hd2).
        split; [reflexivity|]. split; [reflexivity|].
        split; [congruence|].
        intros r' [Hin|Hin].
        -- injection Hin as <-. auto.
        -- specialize (R r' Hin).
           destruct (cmd_fields_eq _ _ Ef) as (Eb & Ew & Ep).
           rewrite <- Eb, <- Ew, <- Ep. exact R.
    + pose proof (cdc_no_accept s1 e Hna1) as Hs.
      assert (Es' : s2 = s1 /\ count_reports o1 = O /\
                    forall r, ~ In (Report r) o1).
      { destruct (cdc_task s1 e) as [s' [a|]]; cbn [fst] in Hs;
          injection Es as <- <-; subst; repeat split; auto;
            intros r Hin; cbn in Hin; intuition discriminate. }
      destruct Es' as (-> & C0 & N0).
      destruct (IH s1 s3 o2 W Hna2 Hw2 Er) as (F & C & P & R).
      rewrite Ec, C0. cbn [Nat.add].
      split; [exact F|]. split; [exact C|]. split; [exact P|].
      intros r Hin. apply in_app_or in Hin as [Hin|Hin];
        [exfalso; exact (N0 r Hin) | exact (R r Hin)].
Qed.

(** X6.  After a command is accepted, as long as no further command is
    accepted and every call of [hid_task] reads a time less than 500 ms
    after the acceptance, the only report sent is the command itself,
    once: the run has sent one report if the command is no longer
    pending and none if it still is; that report carries the buttons,
    wheel and pan of the command; and the stored fields stay as
    accepted. *)
Theorem X6_command_sent_once :
  forall s0 e0 evs s outs,
    wf_state s0 ->
    cdc_accepts e0 = true ->
    Forall no_accept evs ->
    Forall (in_window (to_uint32 (cdc_millis e0))) evs ->
    run (fst (cdc_task s0 e0)) evs = Some (s, outs) ->
    let c := mouse_cmd (fst (cdc_task s0 e0)) in
    Cmd.has_data c = true /\
    cmd_fields (mouse_cmd s) = cmd_fields c /\
    count_reports outs =
      (if Cmd.has_data (mouse_cmd s) then 0 else 1)%nat /\
    (forall r, In (Report r) outs ->
               report_buttons r = Cmd.buttons c /\
               report_wheel r = Cmd.wheel c /\
               report_pan r = Cmd.pan c).
Proof.
  intros s0 e0 evs s outs W0 Hacc Hna Hwin Hrun. cbv zeta.
  destruct (cdc_accept s0 e0 Hacc) as (c & Ec & Hc & Wc).
  pose proof (wf_cdc_task s0 e0 W0) as W1.
  assert (Ht : cdc_command_time (fst (cdc_task s0 e0)) =
               to_uint32 (cdc_millis e0)) by (rewrite Ec; reflexivity).
  rewrite <- Ht in Hwin.
  destruct (run_in_window evs _ s outs W1 Hna Hwin Hrun) as (F & C & _ & R).
  assert (Hd : Cmd.has_data (mouse_cmd (fst (cdc_task s0 e0))) = true)
    by (rewrite Ec; exact Hc).
  rewrite Hd in C. auto.
Qed.

Lemma X6_command_sent_once_witness :
  let e0 := mkCdcEnv (list_ascii_of_string "55 1 10 -5 0 0 6") 1000 in
  let s := mkState (Cmd.mk 1 10 (-5) 0 0 false) 1000 2 2 0 0 false in
  let outs := [Report (mkReport 1 9 (-7) 0 0)] in
  let c := mouse_cmd (fst (cdc_task initial_state e0)) in
  Cmd.has_data c = true /\
  cmd_fields (mouse_cmd s) = cmd_fields c /\
  count_reports outs = (if Cmd.has_data (mouse_cmd s) then 0 else 1)%nat /\
  (forall r, In (Report r) outs ->
             report_buttons r = Cmd.buttons c /\
             report_wheel r = Cmd.wheel c /\
             report_pan r = Cmd.pan c).
Proof.
  apply (X6_command_sent_once initial_state
           (mkCdcEnv (list_ascii_of_string "55 1 10 -5 0 0 6") 1000)
           [HidTick (mkHidEnv 1001 true 0 0 1001 4095 4095 false);
            HidTick (mkHidEnv 1400 true 0 0 1400 4095 4095 false)]
           (mkState (Cmd.mk 1 10 (-5) 0 0 false) 1000 2 2 0 0 false)
           [Report (mkReport 1 9 (-7) 0 0)]).
  - exact wf_initial_state.
  - vm_compute. reflexivity.
  - repeat constructor.
  - repeat constructor; vm_compute; reflexivity.
  - vm_compute. reflexivity.
Defined.

(** ** Short presses *)

Lemma sensitivity_update_young s t b T0 lo :
  0 <= T0 -> T0 <= lo <= t -> t < T0 + BUTTON_PRESS_TIMEOUT ->
  T0 + BUTTON_PRESS_TIMEOUT <= 2 ^ 32 ->
  press_young T0 lo s ->
  sensitivity_level (sensitivity_update s t b) = sensitivity_level s /\
  press_young T0 t (sensitivity_update s t b).
Proof.
  intros H0 Hlo Ht Hhi Hy. unfold press_young in *.
  unfold sensitivity_update.
  destruct (Z.eqb_spec b 0) as [Hb|Hb]; cbn [negb andb].
  - cbn. auto.
  - destruct (Z.eqb_spec (last_button_state s) 0) as [Hl|Hl].
    + cbn. split; [reflexivity|]. right; right. lia.
    + destruct Hy as [Hy | [Hy | Hy]]; [contradiction | |].
      * rewrite Hy. cbn. auto.
      * destruct (sensitivity_changed s) eqn:Hc; cbn [negb andb];
          [cbn; auto|].
        assert (E : u32_sub t (button_press_start_time s) =
                    t - button_press_start_time s).
        { apply u32_sub_no_wrap; unfold is_uint32; lia. }
        rewrite E.
        destruct (Z.geb_spec (t - button_press_start_time s)
                             BUTTON_PRESS_TIMEOUT); [lia|].
        cbn. split; [reflexivity|]. right; right. lia.
Qed.

Lemma press_young_later T0 lo t s1 s2 :
  lo <= t ->
  last_button_state s2 = last_button_state s1 ->
  sensitivity_changed s2 = sensitivity_changed s1 ->
  button_press_start_time s2 = button_press_start_time s1 ->
  press_young T0 lo s1 -> press_young T0 t s2.
Proof.
  unfold press_young. intros Ht -> -> ->. intuition lia.
Qed.

Lemma run_short_press evs : forall s0 T0 lo s outs,
  wf_state s0 ->
  0 <= T0 -> T0 <= lo -> T0 + BUTTON_PRESS_TIMEOUT <= 2 ^ 32 ->
  press_young T0 lo s0 ->
  times_within lo (T0 + BUTTON_PRESS_TIMEOUT) evs ->
  run s0 evs = Some (s, outs) ->
  sensitivity_level s = sensitivity_level s0.
Proof.
  induction evs as [|ev evs IH]; intros s0 T0 lo s outs W H0 Hlo Hhi Hy Ht Hrun.
  - cbn in Hrun. injection Hrun as <- _. reflexivity.
  - cbn [run] in Hrun.
    destruct (step s0 ev) as [[s1 o1]|] eqn:Es; [|discriminate].
    destruct (run s1 evs) as [[s2 o2]|] eqn:Er; [|discriminate].
    injection Hrun as <- _.
    destruct (wf_step s0 ev W) as (s1' & o1' & Es' & W1).
    rewrite Es in Es'. injection Es' as <- <-.
    destruct ev as [e|e]; cbn [step times_within] in *.
    + destruct Ht as [[Ht1 Ht2] Ht3].
      assert (Hu : to_uint32 (hid_millis e) = hid_millis e)
        by (apply to_uint32_id; unfold is_uint32; lia).
      assert (K : sensitivity_level s1 = sensitivity_level s0 /\
                  press_young T0 (hid_millis e) s1).
      { destruct W as (Wc & Wt & Wl & Ws & Wp).
        destruct (hid_task_cases s0 e Wl Wc)
          as [E | [E | [[_ [r E]] | [_ [o E]]]]];
          rewrite E in Es; try destruct o; injection Es as <- _;
          try (split; [reflexivity|];
               apply (press_young_later T0 lo _ s0); auto; fail);
          rewrite Hu;
          apply (sensitivity_update_young (after_interval s0) _ _ T0 lo);
          auto; try lia;
          apply (press_young_later T0 lo lo s0); auto; lia. }
      destruct K as [K1 K2]. rewrite <- K1.
      apply (IH s1 T0 (hid_millis e) s2 o2); auto; lia.
    + assert (K : sensitivity_level s1 = sensitivity_level s0 /\
                  press_young T0 lo s1).
      { pose proof (cdc_task_received s0 e) as R.
        assert (E : sensitivity_level (fst (cdc_task s0 e)) = sensitivity_level s0 /\
                    last_button_state (fst (cdc_task s0 e)) = last_button_state s0 /\
                    sensitivity_changed (fst (cdc_task s0 e)) = sensitivity_changed s0 /\
                    button_press_start_time (fst (cdc_task s0 e)) =
                      button_press_start_time s0).
        { destruct (cdc_fifo e) as [|c r] eqn:Ef.
          - unfold cdc_task. rewrite Ef. auto.
          - rewrite R by congruence.
            destruct (sscanf_7d (received_line e)) as [n vs].
            repeat (match goal with
                    | |- context [match ?v with _ => _ end] =>
                        is_var v; destruct v; try (cbn; auto; fail)
                    end).
            destruct (_ && _); cbn; auto. }
        destruct (cdc_task s0 e) as [s' [a|]]; cbn [fst] in E;
          injection Es as <- _; destruct E as (E1 & E2 & E3 & E4);
          (split; [exact E1|]);
          apply (press_young_later T0 lo lo s0); auto; lia. }
      destruct K as [K1 K2]. rewrite <- K1.
      apply (IH s1 T0 lo s2 o2); auto.
Qed.

(** X7.  A press shorter than one second never changes the sensitivity:
    starting with the button up at the last joystick tick (or with the
    current press already converted), over any run in which the times read
    by [hid_task] never decrease and span less than 1000 ms, the level
    stays as it was, whatever the button and the serial line do.  In
    particular the level cannot change before the clock reads 1000 ms
    after power-on. *)
Theorem X7_short_press_keeps_level :
  forall evs s0 T0 s outs,
    wf_state s0 ->
    0 <= T0 -> T0 + BUTTON_PRESS_TIMEOUT <= 2 ^ 32 ->
    last_button_state s0 = 0 \/ sensitivity_changed s0 = true ->
    times_within T0 (T0 + BUTTON_PRESS_TIMEOUT) evs ->
    run s0 evs = Some (s, outs) ->
    sensitivity_level s = sensitivity_level s0.
Proof.
  intros evs s0 T0 s outs W H0 Hhi Hrel Ht Hrun.
  apply (run_short_press evs s0 T0 T0 s outs); auto; try lia.
  unfold press_young. tauto.
Qed.

Lemma X7_short_press_keeps_level_witness :
  sensitivity_level
    (mkState (Cmd.mk 0 0 0 0 0 false) 0 2 2 1 600 false) =
  sensitivity_level initial_state.
Proof.
  apply (X7_short_press_keeps_level
           [HidTick (mkHidEnv 600 true 0 0 600 2048 2048 false);
            HidTick (mkHidEnv 999 true 0 0 999 2048 2048 false)]
           initial_state 0
           (mkState (Cmd.mk 0 0 0 0 0 false) 0 2 2 1 600 false)
           [Report click_report; Report click_report]).
  - exact wf_initial_state.
  - lia.
  - vm_compute. discriminate.
  - left. reflexivity.
  - cbn. unfold BUTTON_PRESS_TIMEOUT. lia.
  - vm_compute. reflexivity.
Defined.

(** ** The serial task: overwriting, truncation, trailing input *)

Lemma cdc_task_touches s e :
  exists c t,
    fst (cdc_task s e) = set_cdc_command_time (set_mouse_cmd s c) t.
Proof.
  assert (Same : s = set_cdc_command_time (set_mouse_cmd s (mouse_cmd s))
                                          (cdc_command_time s))
    by (destruct s; reflexivity).
  destruct (cdc_fifo e) as [|c r] eqn:Ef.
  - unfold cdc_task. rewrite Ef. eauto.
  - rewrite cdc_task_received by congruence.
    destruct (sscanf_7d (received_line e)) as [n vs].
    repeat (match goal with
            | |- context [match ?v with _ => _ end] =>
                is_var v; destruct v; try (cbn [fst]; eauto; fail)
            end).
    destruct (_ && _); cbn [fst]; eauto.
Qed.

(** The command an accepted read stores is determined by the read. *)
Lemma cdc_accept_uniform e :
  cdc_accepts e = true ->
  exists c,
    forall s,
      cdc_task s e =
      (set_cdc_command_time (set_mouse_cmd s c) (to_uint32 (cdc_millis e)),
       Some ack_ok).
Proof.
  intros Hacc.
  assert (Hne : cdc_fifo e <> []).
  { intros E. unfold cdc_accepts, cdc_task in Hacc. rewrite E in Hacc.
    discriminate. }
  unfold cdc_accepts in Hacc.
  rewrite cdc_task_received in Hacc by assumption.
  destruct acks_distinct as (A1 & A2 & _).
  assert (Rej : forall a, a <> ack_ok -> String.eqb a ack_ok = false).
  { intros a Ha. apply String.eqb_neq. exact Ha. }
  destruct (sscanf_7d (received_line e)) as [n vs] eqn:Esc.
  repeat (match type of Hacc with
          | context [match ?v with _ => _ end] =>
              is_var v; destruct v;
              try (cbn [snd] in Hacc; rewrite Rej in Hacc by congruence;
                   discriminate Hacc)
          end).
  destruct (_ && _) eqn:Eok;
    [|cbn [snd] in Hacc; rewrite Rej in Hacc by congruence; discriminate Hacc].
  eexists. intros s. rewrite cdc_task_received by assumption.
  rewrite Esc, Eok. reflexivity.
Qed.

(** X8.  An accepted command replaces whatever the previous call of
    [cdc_task] left: the state after the two calls is the state the second
    call alone would have produced, so an unconsumed earlier command is
    discarded and the arbitration time is the time of the later command. *)
Theorem X8_latest_command_wins :
  forall s e1 e2,
    cdc_accepts e2 = true ->
    cdc_task (fst (cdc_task s e1)) e2 = cdc_task s e2 /\
    snd (cdc_task s e2) = Some ack_ok.
Proof.
  intros s e1 e2 Hacc.
  destruct (cdc_accept_uniform e2 Hacc) as (c & E).
  rewrite !E. cbn [snd]. split; [|reflexivity].
  destruct (cdc_task_touches s e1) as (c1 & t1 & ->). reflexivity.
Qed.

Lemma X8_latest_command_wins_witness :
  let e1 := mkCdcEnv (list_ascii_of_string "55 1 10 -5 0 0 6") 10 in
  let e2 := mkCdcEnv (list_ascii_of_string "55 0 -3 4 0 0 1") 20 in
  cdc_task (fst (cdc_task initial_state e1)) e2 = cdc_task initial_state e2 /\
  snd (cdc_task initial_state e2) = Some ack_ok.
Proof.
  apply (X8_latest_command_wins initial_state
           (mkCdcEnv (list_ascii_of_string "55 1 10 -5 0 0 6") 10)
           (mkCdcEnv (list_ascii_of_string "55 0 -3 4 0 0 1") 20)).
  vm_compute. reflexivity.
Defined.

Lemma c_string_padding l k : c_string (l ++ repeat NUL k) = c_string l.
Proof.
  induction l as [|c l IH]; cbn [app c_string].
  - destruct k; reflexivity.
  - rewrite IH. reflexivity.
Qed.

Lemma received_line_prefix e :
  received_line e = c_string (firstn 63 (cdc_fifo e)).
Proof. unfold received_line, tud_cdc_read. cbn [fst]. apply c_string_padding. Qed.

(** X9.  What [cdc_task] does with a non-empty FIFO depends only on the
    bytes before the first zero byte among the first 63 bytes: two reads
    that agree on those are answered alike and store the same command.  So
    a longer transmission is cut at 63 bytes, and a zero byte ends the
    line. *)
Theorem X9_only_first_63_bytes :
  forall s f1 f2 now,
    f1 <> [] -> f2 <> [] ->
    c_string (firstn 63 f1) = c_string (firstn 63 f2) ->
    cdc_task s (mkCdcEnv f1 now) = cdc_task s (mkCdcEnv f2 now).
Proof.
  intros s f1 f2 now H1 H2 E.
  rewrite !cdc_task_received by assumption.
  rewrite !received_line_prefix. cbn [cdc_fifo cdc_millis].
  rewrite E. reflexivity.
Qed.

Lemma X9_only_first_63_bytes_witness :
  cdc_task initial_state
    (mkCdcEnv (list_ascii_of_string "55 1 10 -5 0 0 6" ++ NUL ::
               list_ascii_of_string "garbage") 5) =
  cdc_task initial_state
    (mkCdcEnv (list_ascii_of_string "55 1 10 -5 0 0 6") 5).
Proof.
  apply (X9_only_first_63_bytes initial_state
           (list_ascii_of_string "55 1 10 -5 0 0 6" ++ NUL ::
            list_ascii_of_string "garbage")
           (list_ascii_of_string "55 1 10 -5 0 0 6") 5);
    [discriminate | discriminate | reflexivity].
Defined.

Lemma ends_token_number rest : ends_token rest -> ends_number rest.
Proof.
  destruct rest as [|c r]; [trivial|]. cbn. apply space_not_digit.
Qed.

Lemma ends_number_app rest J :
  ends_token rest -> ends_number J -> ends_number (rest ++ J).
Proof.
  destruct rest as [|c r]; cbn; [trivial|].
  intros H _. apply space_not_digit, H.
Qed.

Lemma scan_digits_stop ds : forall acc rest,
  forallb isdigit ds = true -> ends_number rest ->
  scan_digits acc (ds ++ rest) =
  (fold_left (fun a c => 10 * a + digit_value c) ds acc, rest).
Proof.
  induction ds as [|d ds IH]; intros acc rest Hd Hr.
  - cbn. destruct rest as [|c r]; [reflexivity|].
    cbn in Hr. cbn. rewrite Hr. reflexivity.
  - cbn in Hd. apply andb_true_iff in Hd as [Hd1 Hd2].
    cbn. rewrite Hd1. apply IH; assumption.
Qed.

Lemma skip_space_app s c r J :
  skip_space s = c :: r -> skip_space (s ++ J) = (c :: r) ++ J.
Proof.
  induction s as [|d t IH]; [discriminate|].
  cbn. destruct (isspace d) eqn:E; [exact IH|].
  intros H. injection H as -> ->. reflexivity.
Qed.

(** A [%d] conversion at the start of an integer token stops at the end
    of its digits, whatever non-digit follows. *)
Lemma scan_int_token_stop s c r J :
  skip_space s = c :: r ->
  is_integer_token (take_token (c :: r)) = true ->
  ends_number J ->
  scan_int (s ++ J) =
  Some (saturate_int (token_value (take_token (c :: r))),
        drop_token (c :: r) ++ J).
Proof.
  intros Hs Htok HJ. pose proof (skip_space_head s c r Hs) as Hc.
  unfold scan_int. rewrite (skip_space_app s c r J Hs).
  unfold is_integer_token, token_digits, token_sign, token_value in *.
  cbn [take_token drop_token app] in *. rewrite Hc in *. cbn [tl] in *.
  pose proof (ends_number_app _ J (drop_token_ends r) HJ) as Hend.
  pose proof (take_drop_token r) as Hr.
  remember (drop_token r) as rest eqn:Hrest. clear Hrest.
  destruct (Ascii.eqb c "-") eqn:Em; [|destruct (Ascii.eqb c "+") eqn:Ep];
    cbn [orb] in *.
  - destruct (take_token r) as [|d ds] eqn:Et; [discriminate|].
    rewrite Hr. cbn [app]. pose proof Htok as Hd. cbn in Hd.
    apply andb_true_iff in Hd as [Hd _]. rewrite Hd.
    rewrite <- app_assoc.
    change (d :: ds ++ rest ++ J) with ((d :: ds) ++ rest ++ J).
    rewrite scan_digits_stop by assumption. reflexivity.
  - destruct (take_token r) as [|d ds] eqn:Et; [discriminate|].
    rewrite Hr. cbn [app]. pose proof Htok as Hd. cbn in Hd.
    apply andb_true_iff in Hd as [Hd _]. rewrite Hd.
    rewrite <- app_assoc.
    change (d :: ds ++ rest ++ J) with ((d :: ds) ++ rest ++ J).
    rewrite scan_digits_stop by assumption.
    unfold token_digits, token_sign. rewrite Em, Ep. reflexivity.
  - pose proof Htok as Hd. cbn in Hd.
    apply andb_true_iff in Hd as [Hd _]. rewrite Hd.
    remember (take_token r) as tok eqn:Htk. clear Htk.
    rewrite Hr. rewrite <- app_assoc.
    change (c :: tok ++ rest ++ J) with ((c :: tok) ++ rest ++ J).
    rewrite scan_digits_stop by assumption.
    unfold token_digits, token_sign. rewrite Em, Ep. reflexivity.
Qed.

Lemma tokens_nonempty_skip s :
  tokens s <> [] -> exists c r, skip_space s = c :: r.
Proof.
  intros H. destruct (skip_space s) as [|c r] eqn:E; [|eauto].
  exfalso. apply H, tokens_empty, E.
Qed.

(** The conversions read the leading tokens of a line of integer tokens
    and are not affected by what follows the line. *)
Lemma scan_ints_tokens_stop : forall k n s J,
  (List.length s <= k)%nat ->
  forallb is_integer_token (tokens s) = true ->
  (n <= List.length (tokens s))%nat ->
  ends_number J ->
  scan_ints n (s ++ J) =
  firstn n (map (fun t => saturate_int (token_value t)) (tokens s)).
Proof.
  induction k as [|k IH]; intros n s J Hlen Htok Hn HJ.
  - destruct s; [|cbn in Hlen; lia]. cbn in Hn.
    assert (n = O) by lia. subst. reflexivity.
  - destruct n as [|n]; [reflexivity|].
    cbn [scan_ints].
    destruct (tokens_nonempty_skip s) as (c & r & Hs).
    { intros E. rewrite E in Hn. cbn in Hn. lia. }
    pose proof (skip_space_head s c r Hs) as Hc.
    rewrite <- tokens_skip_space, Hs, (tokens_cons c r Hc) in Htok, Hn |- *.
    cbn [forallb] in Htok. apply andb_true_iff in Htok as [Ht Hts].
    rewrite (scan_int_token_stop s c r J Hs Ht HJ).
    cbn [map firstn]. f_equal.
    cbn [List.length] in Hn.
    destruct n as [|n]; [reflexivity|].
    destruct (tokens_nonempty_skip (drop_token (c :: r))) as (c' & r' & Hs').
    { intros E. rewrite E in Hn. cbn in Hn. lia. }
    rewrite (skip_space_app _ c' r' J Hs'), <- Hs'.
    rewrite <- (tokens_skip_space (drop_token (c :: r))) in Hts, Hn |- *.
    apply IH; [|exact Hts|lia|exact HJ].
    pose proof (skip_space_length (drop_token (c :: r))).
    pose proof (skip_space_length s). rewrite Hs in *.
    cbn [drop_token] in *. rewrite Hc in *.
    pose proof (drop_token_length r). cbn [List.length] in *. lia.
Qed.

Lemma sscanf_trailing_input line J :
  spec_seven_integer_tokens line = true ->
  ends_number J ->
  sscanf_7d (line ++ J) = sscanf_7d line.
Proof.
  intros Hseven HJ. rewrite (sscanf_seven_tokens line Hseven).
  unfold spec_seven_integer_tokens in Hseven.
  apply andb_true_iff in Hseven as [Hn Ht]. apply Nat.eqb_eq in Hn.
  unfold sscanf_7d.
  rewrite (scan_ints_tokens_stop (List.length line) 7 line J (le_n _) Ht)
    by (assumption || lia).
  rewrite firstn_all2 by (rewrite length_map; lia).
  destruct (tokens line) as [|t ts] eqn:E; [discriminate|].
  cbn [map]. rewrite length_cons, length_map.
  cbn [List.length] in Hn. injection Hn as Hn. rewrite Hn. reflexivity.
Qed.

(** X10.  Input after the seventh integer is not looked at: when the
    received line is a line of exactly seven integer tokens followed by
    anything that does not start with a digit (more tokens after white
    space, letters, punctuation), [cdc_task] answers and stores exactly as
    for the seven-token line alone. *)
Theorem X10_trailing_input_ignored :
  forall s e e' line J,
    received_line e' = line ->
    received_line e = line ++ J ->
    cdc_millis e = cdc_millis e' ->
    spec_seven_integer_tokens line = true ->
    ends_number J ->
    cdc_task s e = cdc_task s e'.
Proof.
  intros s e e' line J E' E Hm Hseven HJ.
  pose proof (seven_tokens_nonempty line Hseven) as Hne.
  rewrite !cdc_task_received.
  - rewrite E, E', Hm, (sscanf_trailing_input line J Hseven HJ). reflexivity.
  - apply received_line_fifo. rewrite E'. exact Hne.
  - apply received_line_fifo. rewrite E.
    destruct line; [congruence | discriminate].
Qed.

Lemma X10_trailing_input_ignored_witness :
  cdc_task initial_state
    (mkCdcEnv (list_ascii_of_string "55 1 10 -5 0 0 6;drop table") 9) =
  cdc_task initial_state
    (mkCdcEnv (list_ascii_of_string "55 1 10 -5 0 0 6") 9).
Proof.
  apply (X10_trailing_input_ignored initial_state _ _
           (list_ascii_of_string "55 1 10 -5 0 0 6")
           (list_ascii_of_string ";drop table"));
    reflexivity.
Defined.

(** X11.  An empty FIFO leaves the state alone and writes nothing.  Every
    non-empty read is answered with exactly one of the three
    acknowledgements.  A read that holds no integer at all at its start
    (only white space such as a bare newline, or a leading zero byte) is
    answered with "format error" and changes nothing. *)
Theorem X11_empty_and_blank_reads :
  forall s e,
    (cdc_fifo e = [] -> cdc_task s e = (s, None)) /\
    (cdc_fifo e <> [] ->
     snd (cdc_task s e) = Some ack_ok \/
     snd (cdc_task s e) = Some ack_protocol_error \/
     snd (cdc_task s e) = Some ack_format_error) /\
    (cdc_fifo e <> [] -> skip_space (received_line e) = [] ->
     cdc_task s e = (s, Some ack_format_error)).
Proof.
  intros s e. split; [|split].
  - intros E. unfold cdc_task. rewrite E. reflexivity.
  - intros Hne. rewrite cdc_task_received by assumption.
    destruct (sscanf_7d (received_line e)) as [n vs].
    repeat (match goal with
            | |- context [match ?v with _ => _ end] =>
                is_var v; destruct v; try (cbn; auto; fail)
            end).
    destruct (_ && _); cbn; auto.
  - intros Hne Hblank. rewrite cdc_task_received by assumption.
    unfold sscanf_7d. cbn [scan_ints].
    rewrite (scan_int_end _ Hblank), Hblank. reflexivity.
Qed.

Lemma X11_empty_and_blank_reads_witness :
  cdc_task initial_state (mkCdcEnv (list_ascii_of_string newline) 3) =
  (initial_state, Some ack_format_error).
Proof.
  apply (proj2 (proj2 (X11_empty_and_blank_reads initial_state
                         (mkCdcEnv (list_ascii_of_string newline) 3))));
    [discriminate | reflexivity].
Defined.

(** ** Bounds of the jitter *)

Lemma jitter_truncated_bounds r x :
  0 <= r <= 1 -> is_int8 x ->
  -5 <= jitter_truncated r x <= 2 /\
  (x = 0 -> jitter_truncated r x = r - 2) /\
  (x = 127 -> jitter_truncated r x = r + 1).
Proof.
  unfold is_int8, jitter_truncated. intros Hr Hx.
  destruct (Z_le_gt_dec 0 (100 * (r - 2) + 3 * x)).
  - pose proof (quot_bounds_pos (100 * (r - 2) + 3 * x) 100). lia.
  - pose proof (quot_bounds_neg (100 * (r - 2) + 3 * x) 100). lia.
Qed.

(** X16.  A command report differs from the stored command by a jitter
    between -5 and +2 on each axis, added modulo 256: the report carries
    exactly dx plus the jitter for dx from -123 to 125; a command without
    movement (dx = 0) is reported with dx = -2 or -1, never 0; and the
    largest command dx = 127 wraps around to -128 or -127.  The same holds
    for dy. *)
Theorem X16_command_report_bounds :
  forall s e,
    wf_cmd (mouse_cmd s) ->
    Cmd.has_data (mouse_cmd s) = true ->
    reporting_tick s e ->
    0 <= hid_rand_x e -> 0 <= hid_rand_y e ->
    let c := mouse_cmd s in
    exists s' r jx jy,
      hid_task s e = Some (s', Some r) /\
      -5 <= jx <= 2 /\ -5 <= jy <= 2 /\
      report_x r = to_int8 (Cmd.x c + jx) /\
      report_y r = to_int8 (Cmd.y c + jy) /\
      (-123 <= Cmd.x c <= 125 -> report_x r = Cmd.x c + jx) /\
      (-123 <= Cmd.y c <= 125 -> report_y r = Cmd.y c + jy) /\
      (Cmd.x c = 0 -> report_x r = -2 \/ report_x r = -1) /\
      (Cmd.y c = 0 -> report_y r = -2 \/ report_y r = -1) /\
      (Cmd.x c = 127 -> report_x r = -128 \/ report_x r = -127) /\
      (Cmd.y c = 127 -> report_y r = -128 \/ report_y r = -127).
Proof.
  intros s e (Wb & Wx & Wy & Ww & Wp) Hd Ht Hrx Hry. cbv zeta.
  pose proof (Z.mod_pos_bound (hid_rand_x e) 2) as Bx.
  pose proof (Z.mod_pos_bound (hid_rand_y e) 2) as By.
  assert (Ex : Z.rem (hid_rand_x e) 2 = hid_rand_x e mod 2)
    by (apply Z.rem_mod_nonneg; lia).
  assert (Ey : Z.rem (hid_rand_y e) 2 = hid_rand_y e mod 2)
    by (apply Z.rem_mod_nonneg; lia).
  pose proof (jitter_closed_form (hid_rand_x e) _ Wx) as Jx.
  pose proof (jitter_closed_form (hid_rand_y e) _ Wy) as Jy.
  rewrite Ex in Jx. rewrite Ey in Jy.
  destruct (jitter_truncated_bounds (hid_rand_x e mod 2) _ ltac:(lia) Wx)
    as (Bjx & Zx & Mx).
  destruct (jitter_truncated_bounds (hid_rand_y e mod 2) _ ltac:(lia) Wy)
    as (Bjy & Zy & My).
  rewrite (hid_task_reporting s e Ht), Hd.
  unfold hid_task_command.
  change (mouse_cmd (after_interval s)) with (mouse_cmd s).
  rewrite Jx, Jy.
  set (jx := jitter_truncated (hid_rand_x e mod 2) (Cmd.x (mouse_cmd s))) in *.
  set (jy := jitter_truncated (hid_rand_y e mod 2) (Cmd.y (mouse_cmd s))) in *.
  unfold is_int8 in Wx, Wy.
  exists (set_mouse_cmd (after_interval s)
            (Cmd.mk (Cmd.buttons (mouse_cmd s)) (Cmd.x (mouse_cmd s))
                    (Cmd.y (mouse_cmd s)) (Cmd.wheel (mouse_cmd s))
                    (Cmd.pan (mouse_cmd s)) false)).
  eexists. exists jx, jy. split; [reflexivity|].
  cbn [report_x report_y]. unfold int_add.
  rewrite !to_int_id by int_range.
  assert (W : forall z, z = 128 \/ z = 129 ->
                        to_int8 z = -128 \/ to_int8 z = -127).
  { intros z [-> | ->]; [left | right]; reflexivity. }
  repeat split; try lia; intros H;
    try (apply to_int8_id; unfold is_int8; lia);
    try (rewrite to_int8_id by (unfold is_int8; lia); lia);
    apply W; lia.
Qed.

Lemma X16_command_report_bounds_witness :
  let s := mkState (Cmd.mk 1 127 0 0 0 true) 0 2 0 0 0 false in
  let e := mkHidEnv 1 true 6 9 1 2048 2048 true in
  let c := mouse_cmd s in
  exists s' r jx jy,
    hid_task s e = Some (s', Some r) /\
    -5 <= jx <= 2 /\ -5 <= jy <= 2 /\
    report_x r = to_int8 (Cmd.x c + jx) /\
    report_y r = to_int8 (Cmd.y c + jy) /\
    (-123 <= Cmd.x c <= 125 -> report_x r = Cmd.x c + jx) /\
    (-123 <= Cmd.y c <= 125 -> report_y r = Cmd.y c + jy) /\
    (Cmd.x c = 0 -> report_x r = -2 \/ report_x r = -1) /\
    (Cmd.y c = 0 -> report_y r = -2 \/ report_y r = -1) /\
    (Cmd.x c = 127 -> report_x r = -128 \/ report_x r = -127) /\
    (Cmd.y c = 127 -> report_y r = -128 \/ report_y r = -127).
Proof.
  apply (X16_command_report_bounds
           (mkState (Cmd.mk 1 127 0 0 0 true) 0 2 0 0 0 false)
           (mkHidEnv 1 true 6 9 1 2048 2048 true)).
  - unfold wf_cmd, is_uint8, is_int8; cbn; lia.
  - reflexivity.
  - split; [vm_compute; discriminate | reflexivity].
  - cbn; lia.
  - cbn; lia.
Defined.

(** ** The status LED *)

Section StatusLed.

Variable k : UsbConstants.

Lemma led_toggle b : c_bool (int_sub 1 (Z.b2z b)) = negb b.
Proof. destruct b; reflexivity. Qed.

(** One event seen from the toggle: either the blinking task writes the
    current [led_state] and flips it, or [led_state] stays and the
    blinking task writes nothing. *)
Lemma led_step_toggle l ev l' ws :
  led_step k l ev = (l', ws) ->
  (blink_values ws = [Led.led_state l] /\
   Led.led_state l' = negb (Led.led_state l)) \/
  (blink_values ws = [] /\ Led.led_state l' = Led.led_state l).
Proof.
  destruct ev as [| | w | m | id ty buffer | now]; cbn [led_step];
    try (intros H; injection H as <- <-; right; split; reflexivity).
  - unfold tud_hid_set_report_cb.
    repeat match goal with
           | |- context [if ?c then _ else _] => destruct c
           end;
      intros H; injection H as <- <-; right; split; reflexivity.
  - unfold led_blinking_task.
    repeat match goal with
           | |- context [if ?c then _ else _] => destruct c
           end;
      intros H; injection H as <- <-;
      [right; split; reflexivity | right; split; reflexivity |].
    left. split; [reflexivity|]. cbn. apply led_toggle.
Qed.

(** X12.  The values [led_blinking_task] writes to the LED alternate,
    starting with the current [led_state] (off at power-on), whatever
    callbacks run in between and whatever the host's LED report does to
    the LED; after an even number of writes [led_state] is back where it
    was. *)
Theorem X12_blink_alternates :
  forall evs l l' ws,
    led_run k l evs = (l', ws) ->
    blink_values ws =
      alternating (Led.led_state l) (List.length (blink_values ws)) /\
    Led.led_state l' =
      (if Nat.even (List.length (blink_values ws))
       then Led.led_state l else negb (Led.led_state l)).
Proof.
  induction evs as [|ev evs IH]; intros l l' ws Hrun.
  - cbn in Hrun. injection Hrun as <- <-. split; reflexivity.
  - cbn [led_run] in Hrun.
    destruct (led_step k l ev) as [l1 w1] eqn:Es.
    destruct (led_run k l1 evs) as [l2 w2] eqn:Er.
    injection Hrun as <- <-.
    destruct (IH l1 l2 w2 Er) as [A B].
    assert (Eb : blink_values (w1 ++ w2) = blink_values w1 ++ blink_values w2).
    { clear. induction w1 as [|[b|b] w1 IHw]; cbn; congruence. }
    rewrite Eb.
    destruct (led_step_toggle l ev l1 w1 Es) as [[V S1] | [V S1]];
      rewrite V; cbn [app List.length alternating].
    + rewrite S1 in A, B. split; [f_equal; exact A|].
      rewrite B. rewrite Nat.even_succ, <- Nat.negb_even.
      destruct (Nat.even _); cbn; [reflexivity | apply negb_involutive].
    + rewrite S1 in A, B. split; assumption.
Qed.

(** X13.  While the blink interval stays the same (non-zero) and the
    millisecond clock never decreases, every write of the blinking task
    advances its [start_ms] by exactly one interval and [start_ms] never
    passes the clock: after [n] writes, [n] intervals have elapsed since
    the initial [start_ms].  The LED therefore toggles at most
    (elapsed time / interval) times, and after a stall it toggles on
    consecutive calls until it has caught up. *)
Theorem X13_blink_rate :
  forall nows l lo l' ws,
    0 < Led.blink_interval_ms l ->
    0 <= Led.start_ms l <= lo ->
    clock_monotone lo nows ->
    led_run k l (map EvBlink nows) = (l', ws) ->
    Led.blink_interval_ms l' = Led.blink_interval_ms l /\
    Led.start_ms l' =
      Led.start_ms l + Led.blink_interval_ms l * Z.of_nat (List.length ws) /\
    Led.start_ms l' <= last_clock lo nows.
Proof.
  induction nows as [|t r IH]; intros l lo l' ws Hi Hs Hm Hrun.
  - cbn in Hrun. injection Hrun as <- <-. cbn. lia.
  - destruct Hm as [Ht Hr].
    cbn [map led_run led_step] in Hrun.
    cbn [last_clock].
    unfold led_blinking_task in Hrun.
    destruct (Z.eqb_spec (Led.blink_interval_ms l) 0) as [?|_]; [lia|].
    rewrite (to_uint32_id t) in Hrun by (unfold is_uint32; lia).
    rewrite u32_sub_no_wrap in Hrun by (unfold is_uint32; lia).
    destruct (Z.ltb_spec (t - Led.start_ms l) (Led.blink_interval_ms l)).
    + destruct (led_run k l (map EvBlink r)) as [l2 w2] eqn:Er.
      injection Hrun as <- <-.
      destruct (IH l t l2 w2 Hi ltac:(lia) Hr Er) as (A & B & C).
      cbn [app]. auto.
    + match type of Hrun with
      | context [led_run k ?l1 _] =>
          destruct (led_run k l1 (map EvBlink r)) as [l2 w2] eqn:Er;
            pose proof (IH l1 t l2 w2) as IH1
      end.
      injection Hrun as <- <-.
      cbn [Led.blink_interval_ms Led.start_ms] in IH1.
      unfold u32_add in IH1, Er.
      rewrite to_uint32_id in IH1, Er by (unfold is_uint32; lia).
      destruct (IH1 Hi ltac:(lia) Hr Er) as (A & B & C).
      cbn [app List.length]. rewrite Nat2Z.inj_succ. split; [exact A|].
      split; [lia | exact C].
Qed.

(** X14.  The host's LED report, for the keyboard report id and with at
    least one byte: with the Caps Lock bit set the LED is switched on and
    blinking is disabled, so that [led_blinking_task] neither writes the
    LED nor changes anything until a callback sets a new interval; with
    the bit clear the LED is switched off and the interval becomes the
    one of the mounted state, whatever it was before.  A report of another
    type, for another id or without a byte changes nothing. *)
Theorem X14_caps_lock_led :
  forall l report_id report_type buffer,
    let r := tud_hid_set_report_cb k l report_id report_type buffer in
    (report_type = HID_REPORT_TYPE_OUTPUT k ->
     report_id = REPORT_ID_KEYBOARD k ->
     forall b rest,
       buffer = b :: rest ->
       (Z.land (to_uint8 b) (KEYBOARD_LED_CAPSLOCK k) <> 0 ->
        r = (set_blink_interval_ms l 0, Some true) /\
        forall nows, led_run k (fst r) (map EvBlink nows) = (fst r, [])) /\
       (Z.land (to_uint8 b) (KEYBOARD_LED_CAPSLOCK k) = 0 ->
        r = (set_blink_interval_ms l BLINK_MOUNTED, Some false))) /\
    (report_type <> HID_REPORT_TYPE_OUTPUT k \/
     report_id <> REPORT_ID_KEYBOARD k \/ buffer = [] ->
     r = (l, None)).
Proof.
  intros l report_id report_type buffer. cbv zeta.
  unfold tud_hid_set_report_cb. split.
  - intros -> -> b rest ->. rewrite !Z.eqb_refl.
    cbn [List.length nth]. rewrite Nat2Z.inj_succ.
    destruct (Z.ltb_spec (Z.succ (Z.of_nat (List.length rest))) 1); [lia|].
    split; intros Hbit.
    + destruct (Z.eqb_spec (Z.land (to_uint8 b) (KEYBOARD_LED_CAPSLOCK k)) 0);
        [contradiction|].
      cbn [negb fst]. split; [reflexivity|].
      induction nows as [|t nows IH]; [reflexivity|].
      cbn [map led_run led_step]. unfold led_blinking_task at 1.
      cbn [set_blink_interval_ms Led.blink_interval_ms Z.eqb].
      fold (set_blink_interval_ms l 0). rewrite IH. reflexivity.
    + rewrite Hbit. reflexivity.
  - intros [H | [H | H]].
    + destruct (Z.eqb_spec report_type (HID_REPORT_TYPE_OUTPUT k));
        [contradiction | reflexivity].
    + destruct (Z.eqb_spec report_id (REPORT_ID_KEYBOARD k));
        [contradiction|].
      destruct (report_type =? HID_REPORT_TYPE_OUTPUT k); reflexivity.
    + subst buffer. cbn.
      destruct (report_type =? HID_REPORT_TYPE_OUTPUT k); [|reflexivity].
      destruct (report_id =? REPORT_ID_KEYBOARD k); reflexivity.
Qed.

End StatusLed.

Lemma X12_blink_alternates_witness :
  let ws := [ByBlink false; ByHost false; ByBlink true; ByBlink false] in
  blink_values ws =
    alternating (Led.led_state initial_led) (List.length (blink_values ws)) /\
  Led.led_state (Led.mk 250 1500 true) =
    (if Nat.even (List.length (blink_values ws))
     then Led.led_state initial_led else negb (Led.led_state initial_led)).
Proof.
  apply (X12_blink_alternates example_constants
           [EvBlink 300; EvSetReport 1 2 [0]; EvBlink 1300; EvUmount;
            EvBlink 1500]
           initial_led (Led.mk 250 1500 true)).
  vm_compute. reflexivity.
Defined.

Lemma X13_blink_rate_witness :
  Led.blink_interval_ms (Led.mk 250 750 true) =
    Led.blink_interval_ms initial_led /\
  Led.start_ms (Led.mk 250 750 true) =
    Led.start_ms initial_led +
    Led.blink_interval_ms initial_led * Z.of_nat (List.length [ByBlink false; ByBlink true; ByBlink false]) /\
  Led.start_ms (Led.mk 250 750 true) <= last_clock 0 [100; 900; 900; 901].
Proof.
  apply (X13_blink_rate example_constants [100; 900; 900; 901] initial_led 0
           (Led.mk 250 750 true) [ByBlink false; ByBlink true; ByBlink false]).
  - reflexivity.
  - split; vm_compute; discriminate.
  - cbn [clock_monotone].
    repeat split; vm_compute; first [reflexivity | discriminate].
  - vm_compute. reflexivity.
Defined.

Lemma X14_caps_lock_led_witness :
  let r := tud_hid_set_report_cb example_constants initial_led 1 2 [3] in
  r = (set_blink_interval_ms initial_led 0, Some true) /\
  forall nows,
    led_run example_constants (fst r) (map EvBlink nows) = (fst r, []).
Proof.
  apply (proj1 (X14_caps_lock_led example_constants initial_led 1 2 [3])
           eq_refl eq_refl 3 [] eq_refl).
  vm_compute. discriminate.
Defined.

(** ** [send_hid_report]: no repeated release *)

Section SendHidReport.

Variable k : UsbConstants.
Hypothesis ids : distinct_report_ids k.
Hypothesis usage_nonzero : HID_USAGE_CONSUMER_VOLUME_DECREMENT k <> 0.
Hypothesis button_nonzero : GAMEPAD_BUTTON_A k <> 0.

(** One call, for the report id [id]: a press sets the flag of its id, a
    release is sent only with the flag set and clears it, and in every
    other case the flag of [id] is unchanged. *)
Lemma send_hid_report_flag ready f report_id btn id :
  let '(f1, o) := send_hid_report k ready f report_id btn in
  match o with
  | Some r =>
      match report_press r with
      | Some (i, p) =>
          if i =? id
          then (if p then flag_of k f1 id = true
                else flag_of k f id = true /\ flag_of k f1 id = false)
          else flag_of k f1 id = flag_of k f id
      | None => flag_of k f1 id = flag_of k f id
      end
  | None => flag_of k f1 id = flag_of k f id
  end.
Proof.
  destruct ids as (D1 & D2 & D3 & D4 & D5 & D6).
  unfold send_hid_report.
  destruct ready; cbn [negb]; [|reflexivity].
  destruct (Z.eqb_spec report_id (REPORT_ID_KEYBOARD k)) as [->|N1].
  { destruct (btn =? 0); cbn [negb]; [destruct (has_keyboard_key f) eqn:Ef|];
      cbn [report_press]; unfold flag_of; cbn [has_keyboard_key
        has_consumer_key has_gamepad_key];
      destruct (Z.eqb_spec (REPORT_ID_KEYBOARD k) id) as [<-|N];
      rewrite ?Z.eqb_refl; auto;
      destruct (Z.eqb_spec id (REPORT_ID_KEYBOARD k)); try congruence;
      reflexivity. }
  destruct (Z.eqb_spec report_id (REPORT_ID_MOUSE k)) as [->|N2];
    [reflexivity|].
  destruct (Z.eqb_spec report_id (REPORT_ID_CONSUMER_CONTROL k)) as [->|N3].
  { destruct (btn =? 0); cbn [negb]; [destruct (has_consumer_key f) eqn:Ef|];
      cbn [report_press]; unfold flag_of; cbn [has_keyboard_key
        has_consumer_key has_gamepad_key];
      rewrite ?Z.eqb_refl; cbn [negb Z.eqb];
      try (destruct (Z.eqb_spec (HID_USAGE_CONSUMER_VOLUME_DECREMENT k) 0);
           [contradiction|]; cbn [negb]);
      destruct (Z.eqb_spec (REPORT_ID_CONSUMER_CONTROL k) id) as [<-|N];
      rewrite ?Z.eqb_refl;
      destruct (Z.eqb_spec (REPORT_ID_CONSUMER_CONTROL k) (REPORT_ID_KEYBOARD k));
      try congruence; auto;
      destruct (Z.eqb_spec id (REPORT_ID_KEYBOARD k)); try reflexivity;
      destruct (Z.eqb_spec id (REPORT_ID_CONSUMER_CONTROL k)); try congruence;
      reflexivity. }
  destruct (Z.eqb_spec report_id (REPORT_ID_GAMEPAD k)) as [->|N4];
    [|reflexivity].
  destruct (btn =? 0); cbn [negb]; [destruct (has_gamepad_key f) eqn:Ef|];
    cbn [report_press]; unfold flag_of; cbn [has_keyboard_key
      has_consumer_key has_gamepad_key];
    rewrite ?Z.eqb_refl; cbn [negb Z.eqb];
    try (destruct (Z.eqb_spec (GAMEPAD_BUTTON_A k) 0);
         [contradiction|]; cbn [negb]);
    destruct (Z.eqb_spec (REPORT_ID_GAMEPAD k) id) as [<-|N];
    rewrite ?Z.eqb_refl;
    destruct (Z.eqb_spec (REPORT_ID_GAMEPAD k) (REPORT_ID_KEYBOARD k));
    try congruence;
    destruct (Z.eqb_spec (REPORT_ID_GAMEPAD k) (REPORT_ID_CONSUMER_CONTROL k));
    try congruence; auto;
    destruct (Z.eqb_spec id (REPORT_ID_KEYBOARD k)); try reflexivity;
    destruct (Z.eqb_spec id (REPORT_ID_CONSUMER_CONTROL k)); try reflexivity;
    destruct (Z.eqb_spec id (REPORT_ID_GAMEPAD k)); try congruence;
    reflexivity.
Qed.

(** X15.  For the keyboard, consumer-control and gamepad report ids,
    [send_hid_report] never sends a release (empty) report unless the
    previous report it sent for that id was a press: over any sequence of
    calls, ready or not, with any arguments, the reports of one id never
    start with a release when its flag is clear and never hold two
    releases in a row. *)
Theorem X15_release_follows_press :
  forall calls f f' outs id,
    send_run k f calls = (f', outs) ->
    releases_follow_presses id (flag_of k f id) outs = true.
Proof.
  induction calls as [|c calls IH]; intros f f' outs id Hrun.
  - cbn in Hrun. injection Hrun as <- <-. reflexivity.
  - cbn [send_run] in Hrun.
    pose proof (send_hid_report_flag (call_ready c) f (call_report_id c)
                  (call_btn c) id) as S.
    destruct (send_hid_report k (call_ready c) f (call_report_id c)
                              (call_btn c)) as [f1 o].
    destruct (send_run k f1 calls) as [f2 outs2] eqn:Er.
    injection Hrun as <- <-.
    specialize (IH f1 f2 outs2 id Er).
    destruct o as [r|]; [|rewrite <- S; exact IH].
    cbn [releases_follow_presses].
    destruct (report_press r) as [[i p]|]; [|rewrite <- S; exact IH].
    destruct (i =? id); [|rewrite <- S; exact IH].
    destruct p.
    + rewrite S in IH. rewrite IH. reflexivity.
    + destruct S as [S0 S1]. rewrite S1 in IH. rewrite S0, IH. reflexivity.
Qed.

End SendHidReport.

Lemma X15_release_follows_press_witness :
  releases_follow_presses 1 (flag_of example_constants initial_flags 1)
    [KeyboardReport 1 0 (Some [4; 0; 0; 0; 0; 0]);
     KeyboardReport 1 0 None;
     ConsumerReport 3 234] = true.
Proof.
  apply (X15_release_follows_press example_constants
           ltac:(repeat split; discriminate) ltac:(discriminate)
           ltac:(discriminate)
           [mkSendCall true 1 0; mkSendCall true 1 1; mkSendCall false 1 0;
            mkSendCall true 1 0; mkSendCall true 1 0; mkSendCall true 3 7]
           initial_flags (mkKeyFlags false true false)).
  vm_compute. reflexivity.
Defined.
